(** * Map Feature Editor: constraint engine and drawing state machine

    A shallow embedding of the TypeScript sources
      - [types/index.ts]       (FeatureType, Feature, DrawingState, MapStore)
      - [config/index.ts]      (MAX_SHAPES_CONFIG)
      - [store/mapStore.ts]    (the zustand store and its actions)
      - [utils/polygonUtils.ts] (isPolygonType, geometryToPolygon,
                                 doPolygonsOverlap, doesPolygonEnclose,
                                 trimPolygonOverlap, getFeatureColor)
      - [hooks/useDrawing.ts]  (the click / double-click / mouse-move handlers
                                 and finishDrawing)

    JavaScript numbers are modelled as rationals ([Q]); NaN and the
    infinities are not represented.  The Turf and Leaflet functions the code
    calls are not part of the repository: they are the fields of the
    interface [Lib], and every one of them that can throw returns a [Res]. *)

From Stdlib Require Import QArith Qminmax List String Bool Arith Lia Lqa ZArith.
From Stdlib Require Import DecimalString Qabs Qround.
Import ListNotations.
Set Warnings "-register-all".
Open Scope string_scope.
Open Scope list_scope.
Open Scope Q_scope.

Set Implicit Arguments.

(* ------------------------------------------------------------------ *)
(** ** Results of calls that may throw *)

Inductive Res (A : Type) : Type :=
| Ok (a : A)
| Throw (msg : string).

Arguments Ok {A} a.
Arguments Throw {A} msg.

Definition res_bind {A B : Type} (r : Res A) (k : A -> Res B) : Res B :=
  match r with
  | Ok a => k a
  | Throw m => Throw m
  end.

(** [try { body } catch (error) { handler }] *)
Definition try_catch {A : Type} (body : Res A) (handler : A) : Res A :=
  match body with
  | Ok a => Ok a
  | Throw _ => Ok handler
  end.

Fixpoint mapRes {A B : Type} (f : A -> Res B) (l : list A) : Res (list B) :=
  match l with
  | [] => Ok []
  | x :: rest =>
      res_bind (f x) (fun y =>
      res_bind (mapRes f rest) (fun ys => Ok (y :: ys)))
  end.

(* ------------------------------------------------------------------ *)
(** ** types/index.ts and the GeoJSON geometry union *)

Inductive FeatureType : Type := polygon | rectangle | circle | linestring.

Definition FeatureType_eqb (a b : FeatureType) : bool :=
  match a, b with
  | polygon, polygon | rectangle, rectangle
  | circle, circle | linestring, linestring => true
  | _, _ => false
  end.

(** A GeoJSON position as the code builds it: [[lng, lat]]. *)
Definition Position : Type := (Q * Q)%type.
Definition Ring : Type := list Position.
Definition PolygonCoords : Type := list Ring.

Inductive Geometry : Type :=
| Point (c : Position)
| MultiPoint (c : list Position)
| LineString (c : list Position)
| MultiLineString (c : list (list Position))
| Polygon (c : PolygonCoords)
| MultiPolygon (c : list PolygonCoords)
| GeometryCollection (gs : list Geometry).

Record FeatureProperties : Type := mkProperties {
  prop_name : option string;
  prop_color : option string
}.

Record Feature : Type := mkFeature {
  id : string;
  type : FeatureType;
  geometry : Geometry;
  properties : FeatureProperties
}.

Record DrawingState : Type := mkDrawingState {
  mode : option FeatureType;
  isDrawing : bool
}.

(** Leaflet's [L.LatLng]. *)
Record LatLng : Type := mkLatLng { lat : Q; lng : Q }.

(* ------------------------------------------------------------------ *)
(** ** The geometry library, as the code consumes it *)

(** A Turf [Feature<Polygon>]: only its [geometry.coordinates] is read. *)
Record PolyFeature : Type := mkPoly { polyCoords : PolygonCoords }.

(** A Turf [Feature<Polygon | MultiPolygon>], the non-null result of
    [turf.intersect] and [turf.difference]. *)
Inductive AreaFeature : Type :=
| FPolygon (c : PolygonCoords)
| FMultiPolygon (c : list PolygonCoords).

Class Lib : Type := {
  (** [turf.polygon(coordinates)] *)
  turf_polygon : PolygonCoords -> Res PolyFeature;
  (** [turf.intersect(a, b)]: a feature, or [null] *)
  turf_intersect : PolyFeature -> PolyFeature -> Res (option AreaFeature);
  (** [turf.booleanContains(a, b)] *)
  turf_booleanContains : PolyFeature -> PolyFeature -> Res bool;
  (** [turf.difference(a, b)]: a feature, or [null] *)
  turf_difference : PolyFeature -> PolyFeature -> Res (option AreaFeature);
  (** [turf.area(f)] *)
  turf_area : PolyFeature -> Res Q;
  (** [turf.circle(center, radius, { steps, units: 'kilometers' })] *)
  turf_circle : Position -> Q -> nat -> Res PolyFeature;
  (** Leaflet's [a.distanceTo(b)], in metres *)
  distanceTo : LatLng -> LatLng -> Q
}.

(* ------------------------------------------------------------------ *)
(** ** utils/polygonUtils.ts *)

Definition isPolygonType (t : FeatureType) : bool :=
  match t with
  | polygon | rectangle | circle => true
  | linestring => false
  end.

Definition getFeatureColor (t : FeatureType) : string :=
  match t with
  | polygon => "#3b82f6"
  | rectangle => "#10b981"
  | circle => "#f59e0b"
  | linestring => "#ef4444"
  end.

(** The area below which a trimmed polygon is discarded.  The literal
    [0.0001] denotes the double nearest to 1/10000, and no double lies
    strictly between the two: on the values [turf.area] returns, being below
    the one is being below the other. *)
Definition MIN_AREA : Q := 1 # 10000.

(** [a < b] on numbers. *)
Definition Qltb (a b : Q) : bool := negb (Qle_bool b a).

Definition geometryOf (p : PolyFeature) : Geometry := Polygon (polyCoords p).

Section PolygonUtils.
Context {L : Lib}.

Definition geometryToPolygon (g : Geometry) : Res (option PolyFeature) :=
  match g with
  | Polygon c => res_bind (turf_polygon c) (fun p => Ok (Some p))
  | _ => Ok None
  end.

(** Both conversions run before the [try] block. *)
Definition doPolygonsOverlap (geom1 geom2 : Geometry) : Res bool :=
  res_bind (geometryToPolygon geom1) (fun poly1 =>
  res_bind (geometryToPolygon geom2) (fun poly2 =>
    match poly1, poly2 with
    | Some p1, Some p2 =>
        try_catch
          (res_bind (turf_intersect p1 p2) (fun i =>
             Ok (match i with Some _ => true | None => false end)))
          false
    | _, _ => Ok false
    end)).

Definition doesPolygonEnclose (geom1 geom2 : Geometry) : Res bool :=
  res_bind (geometryToPolygon geom1) (fun poly1 =>
  res_bind (geometryToPolygon geom2) (fun poly2 =>
    match poly1, poly2 with
    | Some p1, Some p2 => try_catch (turf_booleanContains p1 p2) false
    | _, _ => Ok false
    end)).

(** [polygons.reduce((max, poly) => area(poly) > area(max) ? poly : max)]
    without an initial value: the accumulator starts at the first element,
    and an empty array throws a TypeError. *)
Fixpoint reduceLargest (max : PolyFeature) (rest : list PolyFeature)
  : Res PolyFeature :=
  match rest with
  | [] => Ok max
  | poly :: rest' =>
      res_bind (turf_area max) (fun maxArea =>
      res_bind (turf_area poly) (fun polyArea =>
        reduceLargest (if Qltb maxArea polyArea then poly else max) rest'))
  end.

Definition largestPolygon (polygons : list PolyFeature) : Res PolyFeature :=
  match polygons with
  | [] => Throw "TypeError: Reduce of empty array with no initial value"
  | p :: rest => reduceLargest p rest
  end.

(** The [for] loop of trimPolygonOverlap.  [Ok None] is the [return null]
    inside the loop; [Ok (Some p)] is the value of [currentPoly] when the
    loop ends. *)
Fixpoint trimLoop (currentPoly : PolyFeature) (existing : list Geometry)
  : Res (option PolyFeature) :=
  match existing with
  | [] => Ok (Some currentPoly)
  | existingGeom :: rest =>
      res_bind (geometryToPolygon existingGeom) (fun existingPoly =>
      match existingPoly with
      | None => trimLoop currentPoly rest
      | Some ePoly =>
          res_bind (turf_intersect currentPoly ePoly) (fun intersection =>
          match intersection with
          | None => trimLoop currentPoly rest
          | Some _ =>
              res_bind (turf_difference currentPoly ePoly) (fun difference =>
              match difference with
              | Some (FPolygon c) => trimLoop (mkPoly c) rest
              | Some (FMultiPolygon parts) =>
                  res_bind (mapRes turf_polygon parts) (fun polygons =>
                  res_bind (largestPolygon polygons) (fun largest =>
                    trimLoop largest rest))
              | None => Ok None
              end)
          end)
      end)
  end.

(** The body of the [try] block, from the loop to the final [return].  The
    test [!currentPoly || !currentPoly.geometry] never holds here: every
    value [currentPoly] takes is a feature with a geometry. *)
Definition trimBody (currentPoly : PolyFeature) (existing : list Geometry)
  : Res (option Geometry) :=
  res_bind (trimLoop currentPoly existing) (fun r =>
  match r with
  | None => Ok None
  | Some cur =>
      res_bind (turf_area cur) (fun area =>
        if Qltb area MIN_AREA then Ok None else Ok (Some (geometryOf cur)))
  end).

(** The first conversion runs before the [try] block. *)
Definition trimPolygonOverlap (newGeometry : Geometry)
    (existingGeometries : list Geometry) : Res (option Geometry) :=
  res_bind (geometryToPolygon newGeometry) (fun currentPoly =>
  match currentPoly with
  | None => Ok None
  | Some cur => try_catch (trimBody cur existingGeometries) None
  end).

End PolygonUtils.

(* ------------------------------------------------------------------ *)
(** ** config/index.ts *)

(** Capacities are JavaScript numbers; the configuration holds integers. *)
Definition MAX_SHAPES_CONFIG (t : FeatureType) : Z :=
  match t with
  | polygon => 10
  | rectangle => 5
  | circle => 5
  | linestring => 20
  end%Z.

(* ------------------------------------------------------------------ *)
(** ** store/mapStore.ts *)

Record MapStore : Type := mkStore {
  features : list Feature;
  drawingState : DrawingState;
  maxShapes : FeatureType -> Z
}.

Definition initialDrawingState : DrawingState :=
  {| mode := None; isDrawing := false |}.

Definition initialStore : MapStore :=
  {| features := []; drawingState := initialDrawingState;
     maxShapes := MAX_SHAPES_CONFIG |}.

Definition setMaxShapes (t : FeatureType) (max : Z) (s : MapStore) : MapStore :=
  {| features := features s; drawingState := drawingState s;
     maxShapes := fun t' => if FeatureType_eqb t' t then max else maxShapes s t' |}.

Definition addFeature (f : Feature) (s : MapStore) : MapStore :=
  {| features := features s ++ [f]; drawingState := drawingState s;
     maxShapes := maxShapes s |}.

Definition removeFeature (i : string) (s : MapStore) : MapStore :=
  {| features := filter (fun f => negb (String.eqb (id f) i)) (features s);
     drawingState := drawingState s; maxShapes := maxShapes s |}.

Definition setDrawingMode (m : option FeatureType) (s : MapStore) : MapStore :=
  {| features := features s;
     drawingState := {| mode := m; isDrawing := isDrawing (drawingState s) |};
     maxShapes := maxShapes s |}.

Definition setIsDrawing (b : bool) (s : MapStore) : MapStore :=
  {| features := features s;
     drawingState := {| mode := mode (drawingState s); isDrawing := b |};
     maxShapes := maxShapes s |}.

Definition clearAllFeatures (s : MapStore) : MapStore :=
  {| features := []; drawingState := initialDrawingState;
     maxShapes := maxShapes s |}.

(* ------------------------------------------------------------------ *)
(** ** hooks/useDrawing.ts: the state the hook works on *)

(** [L.LatLngBounds]. *)
Record Bounds : Type := mkBounds { southWest : LatLng; northEast : LatLng }.

Definition getWest (b : Bounds) : Q := lng (southWest b).
Definition getSouth (b : Bounds) : Q := lat (southWest b).
Definition getEast (b : Bounds) : Q := lng (northEast b).
Definition getNorth (b : Bounds) : Q := lat (northEast b).

(** [bounds.extend(p)] *)
Definition extendBounds (b : Bounds) (p : LatLng) : Bounds :=
  {| southWest := {| lat := Qmin (lat p) (getSouth b); lng := Qmin (lng p) (getWest b) |};
     northEast := {| lat := Qmax (lat p) (getNorth b); lng := Qmax (lng p) (getEast b) |} |}.

(** [L.latLngBounds(points)] on a non-empty array of points. *)
Definition latLngBounds (first : LatLng) (others : list LatLng) : Bounds :=
  fold_left extendBounds others {| southWest := first; northEast := first |}.

(** The provisional shapes the hook creates.  In Leaflet, [L.Rectangle]
    extends [L.Polygon], which extends [L.Polyline]. *)
Inductive Layer : Type :=
| LCircle (center : LatLng) (radius : Q)
| LRectangle (bounds : Bounds)
| LPolygon (latlngs : list LatLng)
| LPolyline (latlngs : list LatLng).

Definition instanceofCircle (l : Layer) : bool :=
  match l with LCircle _ _ => true | _ => false end.
Definition instanceofRectangle (l : Layer) : bool :=
  match l with LRectangle _ => true | _ => false end.
Definition instanceofPolygon (l : Layer) : bool :=
  match l with LRectangle _ | LPolygon _ => true | _ => false end.
Definition instanceofPolyline (l : Layer) : bool :=
  match l with LRectangle _ | LPolygon _ | LPolyline _ => true | _ => false end.

(** [layer.setLatLngs(points)]: a rectangle keeps the bounding box of the
    points it is given. *)
Definition setLatLngs (l : Layer) (points : list LatLng) : Layer :=
  match l with
  | LCircle c r => LCircle c r
  | LRectangle b =>
      match points with
      | [] => LRectangle b
      | p :: ps => LRectangle (latLngBounds p ps)
      end
  | LPolygon _ => LPolygon points
  | LPolyline _ => LPolyline points
  end.

(** Ghost record of the constraint-engine calls finishDrawing makes. *)
Inductive Call : Type :=
| CallEnclose (geom1 geom2 : Geometry)
| CallOverlap (geom1 geom2 : Geometry)
| CallTrim (newGeometry : Geometry) (existing : list Geometry).

(** The zustand store, the hook's refs, the [alert]s shown so far and the
    ghost call log (both oldest first). *)
Record World : Type := mkWorld {
  store : MapStore;
  currentShapeRef : option Layer;
  startPointRef : option LatLng;
  polygonPointsRef : list LatLng;
  alerts : list string;
  calls : list Call
}.

Definition initialWorld : World :=
  {| store := initialStore; currentShapeRef := None; startPointRef := None;
     polygonPointsRef := []; alerts := []; calls := [] |}.

Definition withStore (f : MapStore -> MapStore) (w : World) : World :=
  {| store := f (store w); currentShapeRef := currentShapeRef w;
     startPointRef := startPointRef w; polygonPointsRef := polygonPointsRef w;
     alerts := alerts w; calls := calls w |}.

Definition setCurrentShape (l : option Layer) (w : World) : World :=
  {| store := store w; currentShapeRef := l;
     startPointRef := startPointRef w; polygonPointsRef := polygonPointsRef w;
     alerts := alerts w; calls := calls w |}.

Definition setStartPoint (p : option LatLng) (w : World) : World :=
  {| store := store w; currentShapeRef := currentShapeRef w;
     startPointRef := p; polygonPointsRef := polygonPointsRef w;
     alerts := alerts w; calls := calls w |}.

Definition setPolygonPoints (ps : list LatLng) (w : World) : World :=
  {| store := store w; currentShapeRef := currentShapeRef w;
     startPointRef := startPointRef w; polygonPointsRef := ps;
     alerts := alerts w; calls := calls w |}.

Definition pushAlert (msg : string) (w : World) : World :=
  {| store := store w; currentShapeRef := currentShapeRef w;
     startPointRef := startPointRef w; polygonPointsRef := polygonPointsRef w;
     alerts := alerts w ++ [msg]; calls := calls w |}.

Definition pushCall (c : Call) (w : World) : World :=
  {| store := store w; currentShapeRef := currentShapeRef w;
     startPointRef := startPointRef w; polygonPointsRef := polygonPointsRef w;
     alerts := alerts w; calls := calls w ++ [c] |}.

(** Handlers run in a state-and-exception monad: an exception leaves the
    world as it was when it was thrown. *)
Definition M (A : Type) : Type := World -> Res A * World.

Definition ret {A : Type} (a : A) : M A := fun w => (Ok a, w).

Definition bind {A B : Type} (m : M A) (k : A -> M B) : M B :=
  fun w =>
    match m w with
    | (Ok a, w') => k a w'
    | (Throw e, w') => (Throw e, w')
    end.

Definition update (f : World -> World) : M unit := fun w => (Ok tt, f w).
Definition gets {A : Type} (f : World -> A) : M A := fun w => (Ok (f w), w).
Definition liftRes {A : Type} (r : Res A) : M A := fun w => (r, w).
Definition alert (msg : string) : M unit := update (pushAlert msg).

Declare Scope m_scope.
Delimit Scope m_scope with m.
Notation "x <- c1 ;; c2" := (bind c1 (fun x => c2))
  (at level 61, c1 at next level, right associativity) : m_scope.
Notation "c1 ;;; c2" := (bind c1 (fun _ => c2))
  (at level 61, right associativity) : m_scope.

Definition string_of_Z (z : Z) : string := NilZero.string_of_int (Z.to_int z).

Definition msgEnclosed : string :=
  "Cannot draw: This polygon would be fully enclosed by an existing polygon".
Definition msgEncloses : string :=
  "Cannot draw: This polygon would fully enclose an existing polygon".
Definition msgTrim : string :=
  "Cannot draw: Overlap trimming resulted in invalid geometry".
Definition msgPolygonPoints : string := "Polygon needs at least 3 points".
Definition msgLinePoints : string := "Line string needs at least 2 points".

Definition countType (t : FeatureType) (fs : list Feature) : nat :=
  List.length (filter (fun f => FeatureType_eqb (type f) t) fs).
Definition countPolygonType (fs : list Feature) : nat :=
  List.length (filter (fun f => isPolygonType (type f)) fs).

Definition toCoords (latlngs : list LatLng) : list Position :=
  map (fun ll => (lng ll, lat ll)) latlngs.

(* ------------------------------------------------------------------ *)
(** ** hooks/useDrawing.ts: the handlers *)

Section UseDrawing.
Context {L : Lib}.
Local Open Scope m_scope.

Definition callEnclose (geom1 geom2 : Geometry) : M bool :=
  update (pushCall (CallEnclose geom1 geom2)) ;;;
  liftRes (doesPolygonEnclose geom1 geom2).

Definition callOverlap (geom1 geom2 : Geometry) : M bool :=
  update (pushCall (CallOverlap geom1 geom2)) ;;;
  liftRes (doPolygonsOverlap geom1 geom2).

Definition callTrim (newGeometry : Geometry) (existing : list Geometry)
  : M (option Geometry) :=
  update (pushCall (CallTrim newGeometry existing)) ;;;
  liftRes (trimPolygonOverlap newGeometry existing).

(** "Check for full enclosure": [true] when an alert was shown and
    finishDrawing returns. *)
Fixpoint enclosureLoop (geom : Geometry) (existing : list Geometry) : M bool :=
  match existing with
  | [] => ret false
  | existingGeom :: rest =>
      enclosed <- callEnclose existingGeom geom ;;
      if enclosed then alert msgEnclosed ;;; ret true
      else
        encloses <- callEnclose geom existingGeom ;;
        if encloses then alert msgEncloses ;;; ret true
        else enclosureLoop geom rest
  end.

(** "Check for overlaps": the value of [hasOverlap]. *)
Fixpoint overlapLoop (geom : Geometry) (existing : list Geometry) : M bool :=
  match existing with
  | [] => ret false
  | existingGeom :: rest =>
      overlap <- callOverlap geom existingGeom ;;
      if overlap then ret true else overlapLoop geom rest
  end.

Definition existingPolygonGeometries (currentFeatures : list Feature)
  : list Geometry :=
  map geometry (filter (fun f => isPolygonType (type f)) currentFeatures).

(** "Handle polygon overlap constraints": [None] when finishDrawing
    returns without a feature, else the geometry to commit. *)
Definition constrain (ty : FeatureType) (geom : Geometry) : M (option Geometry) :=
  currentFeatures <- gets (fun w => features (store w)) ;;
  if isPolygonType ty then
    let existing := existingPolygonGeometries currentFeatures in
    rejected <- enclosureLoop geom existing ;;
    if rejected then ret None
    else
      hasOverlap <- overlapLoop geom existing ;;
      if hasOverlap then
        trimmedGeometry <- callTrim geom existing ;;
        match trimmedGeometry with
        | None => alert msgTrim ;;; ret None
        | Some trimmed => ret (Some trimmed)
        end
      else ret (Some geom)
  else ret (Some geom).

(** The geometry finishDrawing builds from the layer; [None] after the
    "needs at least n points" alerts. *)
Definition layerGeometry (layer : Layer) : M (option Geometry) :=
  match layer with
  | LCircle center radius =>
      circlePolygon <-
        liftRes (turf_circle (lng center, lat center) (radius / 1000) 64) ;;
      ret (Some (geometryOf circlePolygon))
  | LRectangle bounds =>
      ret (Some (Polygon
        [[ (getWest bounds, getSouth bounds);
           (getEast bounds, getSouth bounds);
           (getEast bounds, getNorth bounds);
           (getWest bounds, getNorth bounds);
           (getWest bounds, getSouth bounds) ]]))
  | LPolygon _ =>
      latlngs <- gets polygonPointsRef ;;
      if (List.length latlngs <? 3)%nat then alert msgPolygonPoints ;;; ret None
      else
        let coords := toCoords latlngs in
        ret (Some (Polygon [coords ++ firstn 1 coords]))
  | LPolyline _ =>
      latlngs <- gets polygonPointsRef ;;
      if (List.length latlngs <? 2)%nat then alert msgLinePoints ;;; ret None
      else ret (Some (LineString (toCoords latlngs)))
  end.

(** [fid] is the value generateFeatureId() returns in this call. *)
Definition finishDrawing (ty : FeatureType) (layer : Layer) (fid : string)
  : M unit :=
  built <- layerGeometry layer ;;
  match built with
  | None => ret tt
  | Some geom =>
      final <- constrain ty geom ;;
      match final with
      | None => ret tt
      | Some g =>
          let feature :=
            {| id := fid; type := ty; geometry := g;
               properties := {| prop_name := None;
                                prop_color := Some (getFeatureColor ty) |} |} in
          update (withStore (addFeature feature)) ;;;
          update (setCurrentShape None) ;;;
          update (setPolygonPoints [])
      end
  end.

Definition handleCircleClick (latlng : LatLng) (drawing : bool) (fid : string)
  : M unit :=
  currentFeatures <- gets (fun w => features (store w)) ;;
  currentMaxShapes <- gets (fun w => maxShapes (store w)) ;;
  if drawing then
    shape <- gets currentShapeRef ;;
    match shape with
    | Some layer =>
        if instanceofCircle layer then finishDrawing circle layer fid else ret tt
    | None => ret tt
    end ;;;
    update (withStore (setIsDrawing false))
  else
    let circleCount := countType circle currentFeatures in
    if (currentMaxShapes circle <=? Z.of_nat circleCount)%Z then
      alert ("Maximum " ++ string_of_Z (currentMaxShapes circle) ++ " circles allowed")%string
    else
      update (setStartPoint (Some latlng)) ;;;
      update (withStore (setIsDrawing true)) ;;;
      update (setCurrentShape (Some (LCircle latlng 0))).

Definition handleRectangleClick (latlng : LatLng) (drawing : bool) (fid : string)
  : M unit :=
  currentFeatures <- gets (fun w => features (store w)) ;;
  currentMaxShapes <- gets (fun w => maxShapes (store w)) ;;
  if drawing then
    shape <- gets currentShapeRef ;;
    match shape with
    | Some layer =>
        if instanceofRectangle layer then finishDrawing rectangle layer fid
        else ret tt
    | None => ret tt
    end ;;;
    update (withStore (setIsDrawing false))
  else
    let rectangleCount := countType rectangle currentFeatures in
    if (currentMaxShapes rectangle <=? Z.of_nat rectangleCount)%Z then
      alert ("Maximum " ++ string_of_Z (currentMaxShapes rectangle) ++ " rectangles allowed")%string
    else
      update (setStartPoint (Some latlng)) ;;;
      update (withStore (setIsDrawing true)) ;;;
      update (setCurrentShape (Some (LRectangle (latLngBounds latlng [latlng])))).

Definition handlePolygonClick (latlng : LatLng) (drawing : bool) : M unit :=
  currentFeatures <- gets (fun w => features (store w)) ;;
  currentMaxShapes <- gets (fun w => maxShapes (store w)) ;;
  if negb drawing then
    let polygonCount := countPolygonType currentFeatures in
    if (currentMaxShapes polygon <=? Z.of_nat polygonCount)%Z then
      alert ("Maximum " ++ string_of_Z (currentMaxShapes polygon) ++ " polygons allowed")%string
    else
      update (setPolygonPoints [latlng]) ;;;
      update (withStore (setIsDrawing true)) ;;;
      update (setCurrentShape (Some (LPolygon [latlng])))
  else
    points <- gets polygonPointsRef ;;
    update (setPolygonPoints (points ++ [latlng])) ;;;
    shape <- gets currentShapeRef ;;
    match shape with
    | Some layer =>
        if instanceofPolygon layer then
          update (setCurrentShape (Some (setLatLngs layer (points ++ [latlng]))))
        else ret tt
    | None => ret tt
    end.

Definition handleLineStringClick (latlng : LatLng) (drawing : bool) : M unit :=
  currentFeatures <- gets (fun w => features (store w)) ;;
  currentMaxShapes <- gets (fun w => maxShapes (store w)) ;;
  if negb drawing then
    let lineCount := countType linestring currentFeatures in
    if (currentMaxShapes linestring <=? Z.of_nat lineCount)%Z then
      alert ("Maximum " ++ string_of_Z (currentMaxShapes linestring) ++ " line strings allowed")%string
    else
      update (setPolygonPoints [latlng]) ;;;
      update (withStore (setIsDrawing true)) ;;;
      update (setCurrentShape (Some (LPolyline [latlng])))
  else
    points <- gets polygonPointsRef ;;
    update (setPolygonPoints (points ++ [latlng])) ;;;
    shape <- gets currentShapeRef ;;
    match shape with
    | Some layer =>
        if instanceofPolyline layer then
          update (setCurrentShape (Some (setLatLngs layer (points ++ [latlng]))))
        else ret tt
    | None => ret tt
    end.

(** [ty] is ['polygon'] or ['linestring']. *)
Definition finishPolygonOrLineString (ty : FeatureType) (fid : string) : M unit :=
  shape <- gets currentShapeRef ;;
  match shape with
  | None => ret tt
  | Some layer =>
      points <- gets polygonPointsRef ;;
      if FeatureType_eqb ty polygon && (List.length points <? 3)%nat then
        alert msgPolygonPoints
      else if FeatureType_eqb ty linestring && (List.length points <? 2)%nat then
        alert msgLinePoints
      else
        finishDrawing ty layer fid ;;;
        update (withStore (setIsDrawing false))
  end.

Definition handleMapClick (latlng : LatLng) (fid : string) : M unit :=
  currentMode <- gets (fun w => mode (drawingState (store w))) ;;
  isCurrentlyDrawing <- gets (fun w => isDrawing (drawingState (store w))) ;;
  match currentMode with
  | None => ret tt
  | Some circle => handleCircleClick latlng isCurrentlyDrawing fid
  | Some rectangle => handleRectangleClick latlng isCurrentlyDrawing fid
  | Some polygon => handlePolygonClick latlng isCurrentlyDrawing
  | Some linestring => handleLineStringClick latlng isCurrentlyDrawing
  end.

Definition handleMapDoubleClick (fid : string) : M unit :=
  currentMode <- gets (fun w => mode (drawingState (store w))) ;;
  isCurrentlyDrawing <- gets (fun w => isDrawing (drawingState (store w))) ;;
  match currentMode with
  | Some polygon =>
      if isCurrentlyDrawing then finishPolygonOrLineString polygon fid else ret tt
  | Some linestring =>
      if isCurrentlyDrawing then finishPolygonOrLineString linestring fid
      else ret tt
  | _ => ret tt
  end.

Definition handleMapMouseMove (currentLatlng : LatLng) : M unit :=
  currentMode <- gets (fun w => mode (drawingState (store w))) ;;
  isCurrentlyDrawing <- gets (fun w => isDrawing (drawingState (store w))) ;;
  start <- gets startPointRef ;;
  shape <- gets currentShapeRef ;;
  points <- gets polygonPointsRef ;;
  match currentMode, isCurrentlyDrawing, start with
  | Some m, true, Some startPoint =>
      match m, shape with
      | circle, Some (LCircle c _) =>
          update (setCurrentShape
                    (Some (LCircle c (distanceTo startPoint currentLatlng))))
      | rectangle, Some (LRectangle _) =>
          update (setCurrentShape
                    (Some (LRectangle (latLngBounds startPoint [currentLatlng]))))
      | polygon, Some ((LRectangle _ | LPolygon _) as layer) =>
          if (2 <=? List.length (points ++ [currentLatlng]))%nat then
            update (setCurrentShape
                      (Some (setLatLngs layer (points ++ [currentLatlng]))))
          else ret tt
      | linestring, Some ((LRectangle _ | LPolygon _ | LPolyline _) as layer) =>
          if (1 <=? List.length (points ++ [currentLatlng]))%nat then
            update (setCurrentShape
                      (Some (setLatLngs layer (points ++ [currentLatlng]))))
          else ret tt
      | _, _ => ret tt
      end
  | _, _, _ => ret tt
  end.

(** The clean-up the main effect runs each time [drawingState.mode]
    changed (map and drawing layer exist). *)
Definition drawingEffect : M unit :=
  update (setCurrentShape None) ;;;
  update (setStartPoint None) ;;;
  update (setPolygonPoints []) ;;;
  update (withStore (setIsDrawing false)).

Definition mode_eqb (a b : option FeatureType) : bool :=
  match a, b with
  | None, None => true
  | Some x, Some y => FeatureType_eqb x y
  | _, _ => false
  end.

(** A store action followed by the effect, which React re-runs only when
    the mode it depends on is a different value. *)
Definition afterStoreAction (f : MapStore -> MapStore) : M unit :=
  before <- gets (fun w => mode (drawingState (store w))) ;;
  update (withStore f) ;;;
  after <- gets (fun w => mode (drawingState (store w))) ;;
  if mode_eqb before after then ret tt else drawingEffect.

(** What the outside world does to the component. *)
Inductive Event : Type :=
| EvSetDrawingMode (m : option FeatureType)
| EvClick (latlng : LatLng) (fid : string)
| EvDoubleClick (fid : string)
| EvMouseMove (latlng : LatLng)
| EvRemoveFeature (i : string)
| EvClearAllFeatures
| EvSetMaxShapes (t : FeatureType) (max : Z).

Definition handle (ev : Event) : M unit :=
  match ev with
  | EvSetDrawingMode m => afterStoreAction (setDrawingMode m)
  | EvClick latlng fid => handleMapClick latlng fid
  | EvDoubleClick fid => handleMapDoubleClick fid
  | EvMouseMove latlng => handleMapMouseMove latlng
  | EvRemoveFeature i => afterStoreAction (removeFeature i)
  | EvClearAllFeatures => afterStoreAction clearAllFeatures
  | EvSetMaxShapes t max => afterStoreAction (setMaxShapes t max)
  end.

(** An exception escaping a handler is reported by the browser; the state
    stays as the handler left it. *)
Definition step (w : World) (ev : Event) : World := snd (handle ev w).

Definition run (evs : list Event) (w : World) : World := fold_left step evs w.

Inductive reachable : World -> Prop :=
| reachable_init : reachable initialWorld
| reachable_step : forall w ev, reachable w -> reachable (step w ev).

End UseDrawing.

(* ------------------------------------------------------------------ *)
(** ** components/DrawingToolbar.tsx *)

Definition getToolCount (fs : list Feature) (t : FeatureType) : nat :=
  List.length (filter (fun f => FeatureType_eqb (type f) t) fs).

(** [isDisabled = count >= maxCount], computed for the button of tool [t]. *)
Definition isDisabled (s : MapStore) (t : FeatureType) : bool :=
  (maxShapes s t <=? Z.of_nat (getToolCount (features s) t))%Z.

Definition handleToolClick (t : FeatureType) (s : MapStore) : MapStore :=
  if mode_eqb (mode (drawingState s)) (Some t)
  then setDrawingMode None s
  else setDrawingMode (Some t) s.

(** [onClick] of the button of tool [t]: [!isDisabled && handleToolClick(t)],
    followed by the effect of useDrawing when the mode changed. *)
Definition toolButtonClick (t : FeatureType) : M unit :=
  bind (gets store) (fun s =>
    if isDisabled s t then ret tt else afterStoreAction (handleToolClick t)).

(* ------------------------------------------------------------------ *)
(** ** utils/geojsonExport.ts *)

(** [{ id, type, ...feature.properties }] *)
Record ExportedProperties : Type := mkExportedProperties {
  exp_id : string;
  exp_type : FeatureType;
  exp_name : option string;
  exp_color : option string
}.

(** [{ type: 'Feature', geometry, properties }] *)
Record ExportedFeature : Type := mkExportedFeature {
  exp_geometry : Geometry;
  exp_properties : ExportedProperties
}.

(** The [features] array of the FeatureCollection exportToGeoJSON builds. *)
Definition featureCollection (fs : list Feature) : list ExportedFeature :=
  map (fun feature =>
         {| exp_geometry := geometry feature;
            exp_properties :=
              {| exp_id := id feature;
                 exp_type := type feature;
                 exp_name := prop_name (properties feature);
                 exp_color := prop_color (properties feature) |} |}) fs.

(** [stringify] is [JSON.stringify(_, null, 2)]. *)
Definition exportToGeoJSON (stringify : list ExportedFeature -> string)
    (fs : list Feature) : string :=
  stringify (featureCollection fs).

(* ------------------------------------------------------------------ *)
(** ** components/Map.tsx: the style of a rendered feature *)

(** [a || b] on an optional string: the empty string is falsy. *)
Definition orElse (a : option string) (b : string) : string :=
  match a with
  | Some x => if String.eqb x "" then b else x
  | None => b
  end.

Record PathStyle : Type := mkPathStyle {
  style_color : string;
  style_fillColor : string;
  style_fillOpacity : Q;
  style_weight : Q
}.

Definition featureStyle (feature : Feature) : PathStyle :=
  {| style_color :=
       orElse (prop_color (properties feature)) (getFeatureColor (type feature));
     style_fillColor :=
       if FeatureType_eqb (type feature) linestring then "transparent"
       else orElse (prop_color (properties feature))
                   (getFeatureColor (type feature));
     style_fillOpacity :=
       if FeatureType_eqb (type feature) linestring then 0 else 3 # 10;
     style_weight :=
       if FeatureType_eqb (type feature) linestring then 3 else 2 |}.

(* ------------------------------------------------------------------ *)
(** ** What the code relies on from the geometry library *)

Unset Implicit Arguments.

(** [a === b] on positions, coordinate by coordinate. *)
Definition pos_eqb (p q : Position) : bool :=
  Qeq_bool (fst p) (fst q) && Qeq_bool (snd p) (snd q).

Definition ringClosedb (r : Ring) : bool :=
  match r with
  | [] => false
  | p :: _ => pos_eqb (last r p) p
  end.

(** The two checks [turf.polygon] makes on each linear ring. *)
Definition ringOkb (r : Ring) : bool :=
  (4 <=? List.length r)%nat && ringClosedb r.

Definition wellFormedb (c : PolygonCoords) : bool := forallb ringOkb c.

Definition partsOf (d : AreaFeature) : list PolygonCoords :=
  match d with
  | FPolygon c => [c]
  | FMultiPolygon cs => cs
  end.

(** What the code relies on from the library for the shape of the
    geometries it stores: [turf.polygon] accepts exactly the well-formed
    rings, and the polygons the library builds itself (a difference that is
    a single polygon, the circle of 64 steps) are made of well-formed
    rings. *)
Class LibShape (L : Lib) : Prop := {
  polygon_ok : forall c,
    wellFormedb c = true -> turf_polygon c = Ok (mkPoly c);
  polygon_throws : forall c,
    wellFormedb c = false -> exists m, turf_polygon c = Throw m;
  difference_wf : forall a b c,
    turf_difference a b = Ok (Some (FPolygon c)) -> wellFormedb c = true;
  circle_wf : forall c r p,
    turf_circle c r 64%nat = Ok p -> wellFormedb (polyCoords p) = true
}.

(* ------------------------------------------------------------------ *)
(** ** A reference implementation of the library interface

    Exact planar geometry on the strips [[w, e] x [0, 1]], given by the
    five-position ring finishDrawing builds for a rectangle.  [turf.polygon]
    makes the checks of the real function on any coordinates; the other
    operations throw on a polygon that is not such a strip. *)

Module Strip.

Definition ringError (r : Ring) : option string :=
  if (List.length r <? 4)%nat then
    Some "Each LinearRing of a Polygon must have 4 or more Positions."
  else if ringClosedb r then None
  else Some "First and last Position are not equivalent.".

Fixpoint firstError (c : PolygonCoords) : option string :=
  match c with
  | [] => None
  | r :: rest =>
      match ringError r with
      | Some m => Some m
      | None => firstError rest
      end
  end.

Definition polygon (c : PolygonCoords) : Res PolyFeature :=
  match firstError c with
  | Some m => Throw m
  | None => Ok (mkPoly c)
  end.

(** The ring of the strip from [w] to [e]. *)
Definition ringOf (w e : Q) : PolygonCoords :=
  [[ (w, 0); (e, 0); (e, 1); (w, 1); (w, 0) ]].

(** West and east of a strip, [None] for any other polygon. *)
Definition asStrip (p : PolyFeature) : option (Q * Q) :=
  match polyCoords p with
  | [[ (w, s); (e, s'); (e', n); (w', n'); (w'', s'') ]] =>
      if Qeq_bool s 0 && Qeq_bool s' 0 && Qeq_bool s'' 0
         && Qeq_bool n 1 && Qeq_bool n' 1
         && Qeq_bool e e' && Qeq_bool w w' && Qeq_bool w w''
         && Qle_bool w e
      then Some (w, e) else None
  | _ => None
  end.

Definition unsupported {A : Type} : Res A :=
  Throw "unsupported geometry".

Definition intersect (a b : PolyFeature) : Res (option AreaFeature) :=
  match asStrip a, asStrip b with
  | Some (wa, ea), Some (wb, eb) =>
      let lo := Qmax wa wb in
      let hi := Qmin ea eb in
      if Qltb lo hi then Ok (Some (FPolygon (ringOf lo hi))) else Ok None
  | _, _ => unsupported
  end.

Definition booleanContains (a b : PolyFeature) : Res bool :=
  match asStrip a, asStrip b with
  | Some (wa, ea), Some (wb, eb) => Ok (Qle_bool wa wb && Qle_bool eb ea)
  | _, _ => unsupported
  end.

(** What is left of [a] to the west and to the east of [b]. *)
Definition difference (a b : PolyFeature) : Res (option AreaFeature) :=
  match asStrip a, asStrip b with
  | Some (wa, ea), Some (wb, eb) =>
      let west := Qmin ea wb in
      let east := Qmax wa eb in
      match Qltb wa west, Qltb east ea with
      | true, true => Ok (Some (FMultiPolygon [ringOf wa west; ringOf east ea]))
      | true, false => Ok (Some (FPolygon (ringOf wa west)))
      | false, true => Ok (Some (FPolygon (ringOf east ea)))
      | false, false => Ok None
      end
  | _, _ => unsupported
  end.

Definition area (p : PolyFeature) : Res Q :=
  match asStrip p with
  | Some (w, e) => Ok (e - w)
  | None => unsupported
  end.

(** The area as a number, 0 where the library throws. *)
Definition areaOr0 (p : PolyFeature) : Q :=
  match area p with
  | Ok a => a
  | Throw _ => 0
  end.

(** A four-vertex stand-in for the circle approximation. *)
Definition circle4 (center : Position) (radius : Q) (steps : nat)
  : Res PolyFeature :=
  let (x, y) := center in
  Ok (mkPoly [[ (x + radius, y); (x, y + radius); (x - radius, y);
                (x, y - radius); (x + radius, y) ]]).

(** A planar stand-in for the geodesic distance. *)
Definition distance (a b : LatLng) : Q :=
  Qabs (lat a - lat b) + Qabs (lng a - lng b).

#[export] Instance lib : Lib := {|
  turf_polygon := polygon;
  turf_intersect := intersect;
  turf_booleanContains := booleanContains;
  turf_difference := difference;
  turf_area := area;
  turf_circle := circle4;
  distanceTo := distance
|}.

(** Pointer events of two sessions: a rectangle over [[0,2] x [0,1]],
    then a rectangle over [[1,3] x [0,1]]. *)
Definition ll (x y : Q) : LatLng := {| lat := y; lng := x |}.

Definition drawRect (w e : Q) (fid : string) : list Event :=
  [ EvClick (ll w 0) fid; EvMouseMove (ll e 1); EvClick (ll e 1) fid ].

Definition twoRectangles : list Event :=
  EvSetDrawingMode (Some rectangle) :: drawRect 0 2 "f1" ++ drawRect 1 3 "f2".

End Strip.

(* ------------------------------------------------------------------ *)
(** ** A reference implementation with areas on the sphere

    The bands [[0, 1] x [s, n]] (longitude 0 to 1, latitude [s] to [n], in
    degrees), given by the ring finishDrawing builds for a rectangle.  The
    area is the one [turf.area] reports for such a band: square metres on a
    sphere of radius 6378137 m, [R^2 * dlambda * (sin n - sin s)], with the
    sine taken by its polynomial of degree three and pi as 355/113.  A
    difference lists the part to the south before the part to the north. *)

Module Band.

Definition ringOf (s n : Q) : PolygonCoords :=
  [[ (0, s); (1, s); (1, n); (0, n); (0, s) ]].

(** South and north of a band, [None] for any other polygon. *)
Definition asBand (p : PolyFeature) : option (Q * Q) :=
  match polyCoords p with
  | [[ (w, s); (e, s'); (e', n); (w', n'); (w'', s'') ]] =>
      if Qeq_bool w 0 && Qeq_bool w' 0 && Qeq_bool w'' 0
         && Qeq_bool e 1 && Qeq_bool e' 1
         && Qeq_bool s s' && Qeq_bool s s'' && Qeq_bool n n'
         && Qle_bool s n
      then Some (s, n) else None
  | _ => None
  end.

Definition intersect (a b : PolyFeature) : Res (option AreaFeature) :=
  match asBand a, asBand b with
  | Some (sa, na), Some (sb, nb) =>
      let lo := Qmax sa sb in
      let hi := Qmin na nb in
      if Qltb lo hi then Ok (Some (FPolygon (ringOf lo hi))) else Ok None
  | _, _ => Strip.unsupported
  end.

Definition booleanContains (a b : PolyFeature) : Res bool :=
  match asBand a, asBand b with
  | Some (sa, na), Some (sb, nb) => Ok (Qle_bool sa sb && Qle_bool nb na)
  | _, _ => Strip.unsupported
  end.

(** What is left of [a] to the south and to the north of [b]. *)
Definition difference (a b : PolyFeature) : Res (option AreaFeature) :=
  match asBand a, asBand b with
  | Some (sa, na), Some (sb, nb) =>
      let south := Qmin na sb in
      let north := Qmax sa nb in
      match Qltb sa south, Qltb north na with
      | true, true => Ok (Some (FMultiPolygon [ringOf sa south; ringOf north na]))
      | true, false => Ok (Some (FPolygon (ringOf sa south)))
      | false, true => Ok (Some (FPolygon (ringOf north na)))
      | false, false => Ok None
      end
  | _, _ => Strip.unsupported
  end.

Definition RADIUS : Q := 6378137.

Definition radians (degrees : Q) : Q := degrees * (355 # 113) / 180.

Definition sine (x : Q) : Q := x - x * x * x / 6.

Definition area (p : PolyFeature) : Res Q :=
  match asBand p with
  | Some (s, n) =>
      Ok (Qabs (RADIUS * RADIUS * radians 1
                * (sine (radians n) - sine (radians s))))
  | None => Strip.unsupported
  end.

#[export] Instance lib : Lib := {|
  turf_polygon := Strip.polygon;
  turf_intersect := intersect;
  turf_booleanContains := booleanContains;
  turf_difference := difference;
  turf_area := area;
  turf_circle := Strip.circle4;
  distanceTo := Strip.distance
|}.

End Band.

(* ------------------------------------------------------------------ *)
(** ** A reference implementation that computes in finite precision

    The strips again, with a difference that rounds the longitudes it
    returns down to one decimal place, the way a library that works in
    floating point rounds the vertices it computes to numbers it can
    represent. *)

Module Coarse.

Definition round1 (x : Q) : Q := inject_Z (Qfloor (x * 10)) / 10.

Definition roundRing (r : Ring) : Ring :=
  map (fun p => (round1 (fst p), snd p)) r.

Definition roundArea (d : AreaFeature) : AreaFeature :=
  match d with
  | FPolygon c => FPolygon (map roundRing c)
  | FMultiPolygon cs => FMultiPolygon (map (map roundRing) cs)
  end.

Definition difference (a b : PolyFeature) : Res (option AreaFeature) :=
  match Strip.difference a b with
  | Ok (Some d) => Ok (Some (roundArea d))
  | r => r
  end.

#[export] Instance lib : Lib := {|
  turf_polygon := Strip.polygon;
  turf_intersect := Strip.intersect;
  turf_booleanContains := Strip.booleanContains;
  turf_difference := difference;
  turf_area := Strip.area;
  turf_circle := Strip.circle4;
  distanceTo := Strip.distance
|}.

End Coarse.

(* ================================================================== *)
(** * Vocabulary of the properties *)

(** The features counted against the limit of a tool, as the four click
    handlers filter them. *)
Definition bucketCount (t : FeatureType) (fs : list Feature) : nat :=
  match t with
  | polygon => countPolygonType fs
  | _ => countType t fs
  end.

(** The world after more calls and alerts were logged. *)
Definition logged (cs : list Call) (als : list string) (w : World) : World :=
  {| store := store w; currentShapeRef := currentShapeRef w;
     startPointRef := startPointRef w; polygonPointsRef := polygonPointsRef w;
     alerts := alerts w ++ als; calls := calls w ++ cs |}.

(** The enclosure checks on the existing geometries, in the order of the
    loop: existing-encloses-candidate, then candidate-encloses-existing. *)
Definition enclosureCalls (geom : Geometry) (existing : list Geometry) : list Call :=
  flat_map (fun e => [CallEnclose e geom; CallEnclose geom e]) existing.

Definition overlapCalls (geom : Geometry) (existing : list Geometry) : list Call :=
  map (fun e => CallOverlap geom e) existing.

Definition isEncloseCall (c : Call) : Prop :=
  match c with CallEnclose _ _ => True | _ => False end.

Definition isOverlapCall (c : Call) : Prop :=
  match c with CallOverlap _ _ => True | _ => False end.

Definition isOverlapOrTrimCall (c : Call) : Prop :=
  match c with CallEnclose _ _ => False | _ => True end.

(** The feature finishDrawing appends, and the refs it clears. *)
Definition newFeature (fid : string) (ty : FeatureType) (g : Geometry) : Feature :=
  {| id := fid; type := ty; geometry := g;
     properties := {| prop_name := None;
                      prop_color := Some (getFeatureColor ty) |} |}.

Definition committed (fid : string) (ty : FeatureType) (g : Geometry)
    (w : World) : World :=
  setPolygonPoints [] (setCurrentShape None
    (withStore (addFeature (newFeature fid ty g)) w)).

Definition layerKind (l : Layer) : FeatureType :=
  match l with
  | LCircle _ _ => circle
  | LRectangle _ => rectangle
  | LPolygon _ => polygon
  | LPolyline _ => linestring
  end.

(** While a session runs, the provisional shape is the one of the selected
    tool. *)
Definition sessionOk (w : World) : Prop :=
  isDrawing (drawingState (store w)) = true ->
  forall l, currentShapeRef w = Some l ->
       mode (drawingState (store w)) = Some (layerKind l).

(** A polygon-type feature stores a polygon [turf.polygon] accepts (rings
    of four or more positions, first equal to last); a line string stores
    two or more positions. *)
Definition geometryOk (ty : FeatureType) (g : Geometry) : Prop :=
  if isPolygonType ty
  then exists c, g = Polygon c /\ wellFormedb c = true
  else exists c, g = LineString c /\ (2 <= List.length c)%nat.

Definition featureOk (f : Feature) : Prop := geometryOk (type f) (geometry f).

(** finishDrawing leaves the drawing state alone; the provisional shape
    stays or is cleared. *)
Definition sameDrawing (w w' : World) : Prop :=
  drawingState (store w') = drawingState (store w) /\
  (currentShapeRef w' = currentShapeRef w \/ currentShapeRef w' = None).

(** Three positions of the ring that differ from one another. *)
Definition threeDistinct (r : Ring) : Prop :=
  exists a b c, In a r /\ In b r /\ In c r /\
    pos_eqb a b = false /\ pos_eqb b c = false /\ pos_eqb a c = false.

(** The planar area of a ring by the surveyor's formula, in the square of
    the unit of the coordinates, and of a polygon: its outer ring less its
    holes. *)
Fixpoint shoelace (r : Ring) : Q :=
  match r with
  | p :: (q :: _) as rest => fst p * snd q - fst q * snd p + shoelace rest
  | _ => 0
  end.

Definition ringArea (r : Ring) : Q := Qabs (shoelace r) / 2.

Definition planarArea (c : PolygonCoords) : Q :=
  match c with
  | [] => 0
  | outer :: holes => ringArea outer - fold_right Qplus 0 (map ringArea holes)
  end.

Definition FeatureType_eq_dec : forall a b : FeatureType, {a = b} + {a <> b} :=
  ltac:(decide equality).

(** How many features of type [t] the collection holds. *)
Definition committedOfType (t : FeatureType) (fs : list Feature) : nat :=
  count_occ FeatureType_eq_dec (map type fs) t.

(** The number a tool's limit stands against: every area-type feature
    (polygon, rectangle and circle together) for the polygon tool, the
    features of its own type for each other tool. *)
Definition gateCount (t : FeatureType) (fs : list Feature) : nat :=
  match t with
  | polygon =>
      (committedOfType polygon fs + committedOfType rectangle fs
       + committedOfType circle fs)%nat
  | _ => committedOfType t fs
  end.

Section Vocabulary.
Context {L : Lib}.

(** The loop of trimPolygonOverlap passes over [x] without changing the
    current polygon [cur]: [x] is no polygon, or shares no area with it. *)
Definition untouchedBy (cur : PolyFeature) (x : Geometry) : Prop :=
  geometryToPolygon x = Ok None \/
  exists px, geometryToPolygon x = Ok (Some px) /\
             turf_intersect cur px = Ok None.

Definition noEnclosure (geom e : Geometry) : Prop :=
  doesPolygonEnclose e geom = Ok false /\ doesPolygonEnclose geom e = Ok false.

Definition noOverlap (geom e : Geometry) : Prop :=
  doPolygonsOverlap geom e = Ok false.

Definition featuresOk (fs : list Feature) : Prop := Forall featureOk fs.

Definition Inv (w : World) : Prop :=
  sessionOk w /\ featuresOk (features (store w)).

End Vocabulary.

(** ** Vocabulary of the further properties *)

Definition isPolygonGeometry (g : Geometry) : bool :=
  match g with Polygon _ => true | _ => false end.

(** The properties finishDrawing gives a feature: no name, the colour of
    its type. *)
Definition plainProperties (f : Feature) : Prop :=
  properties f
  = {| prop_name := None; prop_color := Some (getFeatureColor (type f)) |}.

Definition areaTool (m : option FeatureType) : Prop :=
  m = Some circle \/ m = Some rectangle.

Definition pointTool (m : option FeatureType) : Prop :=
  m = Some polygon \/ m = Some linestring.

(** The state of a session, as the handlers keep it:
    - a running session has a provisional shape, of the selected tool;
    - with no tool selected nothing of a session is left;
    - the anchor is used by the circle and rectangle tools only;
    - a running polygon or line session has a point, a running circle or
      rectangle session an anchor;
    - every feature has the properties finishDrawing gave it. *)
Definition Tidy (w : World) : Prop :=
  let ds := drawingState (store w) in
  (isDrawing ds = true ->
     exists l, currentShapeRef w = Some l /\ mode ds = Some (layerKind l)) /\
  (mode ds = None ->
     isDrawing ds = false /\ currentShapeRef w = None /\
     startPointRef w = None /\ polygonPointsRef w = []) /\
  (pointTool (mode ds) -> startPointRef w = None) /\
  (isDrawing ds = true -> pointTool (mode ds) -> polygonPointsRef w <> []) /\
  (isDrawing ds = true -> areaTool (mode ds) -> startPointRef w <> None) /\
  Forall plainProperties (features (store w)).

(** No type has more features than its limit, and a running session has
    room for the feature it may commit. *)
Definition withinLimits (w : World) : Prop :=
  (forall t, (Z.of_nat (countType t (features (store w)))
              <= maxShapes (store w) t)%Z) /\
  (isDrawing (drawingState (store w)) = true ->
   forall l, currentShapeRef w = Some l ->
     (Z.of_nat (countType (layerKind l) (features (store w)))
      < maxShapes (store w) (layerKind l))%Z).

(** The event does not lower a limit. *)
Definition keepsLimits (w : World) (ev : Event) : Prop :=
  match ev with
  | EvSetMaxShapes t max => (maxShapes (store w) t <= max)%Z
  | _ => True
  end.

Definition isPointerEvent (ev : Event) : Prop :=
  match ev with
  | EvClick _ _ | EvDoubleClick _ | EvMouseMove _ => True
  | _ => False
  end.

(** Reading a feature back from its exported entry. *)
Definition featureOfExport (e : ExportedFeature) : Feature :=
  {| id := exp_id (exp_properties e);
     type := exp_type (exp_properties e);
     geometry := exp_geometry e;
     properties := {| prop_name := exp_name (exp_properties e);
                      prop_color := exp_color (exp_properties e) |} |}.

(** Clicks on the given points, one after the other. *)
Definition clicks (ps : list LatLng) (fid : string) : list Event :=
  map (fun p => EvClick p fid) ps.

(** From [w] to [w'] the selected tool and the limits stay, and the
    features stay or get one more, of the selected tool's type, at the end. *)
Definition appendsAtMost (w w' : World) : Prop :=
  mode (drawingState (store w')) = mode (drawingState (store w)) /\
  maxShapes (store w') = maxShapes (store w) /\
  (features (store w') = features (store w) \/
   exists t g fid,
     mode (drawingState (store w)) = Some t /\
     features (store w') = features (store w) ++ [newFeature fid t g]).


(** A polygon or line session that has collected the points [pts], with
    [shape] the provisional layer built on them. *)
Definition collecting (shape : list LatLng -> Layer) (pts : list LatLng)
    (w : World) : World :=
  setCurrentShape (Some (shape pts)) (setPolygonPoints pts w).

(** A rectangle session whose provisional shape spans [b]. *)
Definition sizing (b : Bounds) (w : World) : World :=
  setCurrentShape (Some (LRectangle b)) w.

(** The ring finishDrawing builds from the bounds of a rectangle. *)
Definition boundsRing (b : Bounds) : PolygonCoords :=
  [[ (getWest b, getSouth b); (getEast b, getSouth b);
     (getEast b, getNorth b); (getWest b, getNorth b);
     (getWest b, getSouth b) ]].

(** The ring finishDrawing builds from the points of a polygon. *)
Definition closedRing (pts : list LatLng) : PolygonCoords :=
  [toCoords pts ++ firstn 1 (toCoords pts)].

Section FurtherVocabulary.
Context {L : Lib}.

(** No event of the run lowers a limit. *)
Fixpoint limitsNeverLowered (w : World) (evs : list Event) : Prop :=
  match evs with
  | [] => True
  | ev :: rest => keepsLimits w ev /\ limitsNeverLowered (step w ev) rest
  end.

End FurtherVocabulary.

(** ** Sessions on the reference implementation *)

Module Scenario.
#[local] Existing Instance Strip.lib.

(** The rectangle tool selected and one rectangle over [[0,2] x [0,1]]
    committed. *)
Definition oneRectangle : World :=
  run (EvSetDrawingMode (Some rectangle) :: Strip.drawRect 0 2 "f1") initialWorld.

(** The provisional rectangle of a second session over [[1,3] x [0,1]]. *)
Definition secondLayer : Layer := LRectangle (latLngBounds (Strip.ll 1 0) [Strip.ll 3 1]).

(** ... and of a third one over [[2,3] x [0,1]], the strip the second
    rectangle is trimmed to. *)
Definition coincidentLayer : Layer :=
  LRectangle (latLngBounds (Strip.ll 2 0) [Strip.ll 3 1]).

(** A session of the rectangle tool in progress. *)
Definition drawing : World :=
  run [EvSetDrawingMode (Some rectangle); EvClick (Strip.ll 0 0) "f1";
       EvMouseMove (Strip.ll 2 1)] initialWorld.

(** Both rectangles drawn: the second is committed trimmed to [[2,3]]. *)
Definition twoCommitted : World := run Strip.twoRectangles initialWorld.

(** The polygon tool: a click, a double click elsewhere (which the browser
    delivers as two clicks and the double click). *)
Definition clickThenDoubleClick : list Event :=
  [ EvSetDrawingMode (Some polygon); EvClick (Strip.ll 0 0) "p1";
    EvClick (Strip.ll 1 0) "p1"; EvClick (Strip.ll 1 0) "p1"; EvDoubleClick "p1" ].

Definition sliver : World := run clickThenDoubleClick initialWorld.

(** The line tool selected, and a session with one point. *)
Definition lineSelected : World :=
  run [EvSetDrawingMode (Some linestring)] initialWorld.

Definition lineStarted : World :=
  run [EvClick (Strip.ll 0 0) "l1"] lineSelected.

(** The polygon and the rectangle tool selected on an empty store. *)
Definition polygonSelected : World :=
  run [EvSetDrawingMode (Some polygon)] initialWorld.

Definition rectangleSelected : World :=
  run [EvSetDrawingMode (Some rectangle)] initialWorld.

(** A second rectangle session over [[1,3] x [0,1]], before its last
    click. *)
Definition secondDrawing : World :=
  run [EvClick (Strip.ll 1 0) "f2"; EvMouseMove (Strip.ll 3 1)] oneRectangle.

(** A well-formed triangle, which the strip library cannot handle. *)
Definition triangle : Geometry :=
  Polygon [[ (0, 0); (1, 0); (0, 1); (0, 0) ]].

(** The polygon limit lowered to one, a rectangle committed, and the
    polygon tool selected. *)
Definition crowded : World :=
  run (EvSetMaxShapes polygon 1 :: EvSetDrawingMode (Some rectangle)
         :: Strip.drawRect 0 2 "f1" ++ [EvSetDrawingMode (Some polygon)])
    initialWorld.

End Scenario.

(** ** Sessions on the library in finite precision: a rectangle over
    [[0, 5/3] x [0, 1]], then one over [[1, 3] x [0, 1]]. *)

Module RoundedScenario.

Definition firstCommitted : World :=
  @run Coarse.lib
    (EvSetDrawingMode (Some rectangle) :: Strip.drawRect 0 (5 # 3) "f1")
    initialWorld.

Definition secondLayer : Layer :=
  LRectangle (latLngBounds (Strip.ll 1 0) [Strip.ll 3 1]).

Definition secondDrawing : World :=
  @run Coarse.lib
    [EvClick (Strip.ll 1 0) "f2"; EvMouseMove (Strip.ll 3 1)] firstCommitted.

End RoundedScenario.

(* ================================================================== *)
(** * Properties *)

(** ** Numbers and small facts *)

Lemma Qltb_lt (a b : Q) : Qltb a b = true <-> a < b.
Proof.
  unfold Qltb. rewrite negb_true_iff. split; intro H.
  - apply Qnot_le_lt. intro Hle. apply Qle_bool_iff in Hle. congruence.
  - destruct (Qle_bool b a) eqn:E; [|reflexivity].
    apply Qle_bool_iff in E. exfalso. exact (Qlt_not_le _ _ H E).
Qed.

Lemma Qltb_ge (a b : Q) : Qltb a b = false <-> b <= a.
Proof.
  unfold Qltb. rewrite negb_false_iff. apply Qle_bool_iff.
Qed.

Lemma FeatureType_eqb_eq (a b : FeatureType) :
  FeatureType_eqb a b = true <-> a = b.
Proof. destruct a, b; simpl; split; intro H; congruence. Qed.

Lemma mode_eqb_eq (a b : option FeatureType) : mode_eqb a b = true <-> a = b.
Proof.
  destruct a as [x|], b as [y|]; simpl; try (split; intro H; congruence).
  rewrite FeatureType_eqb_eq. split; intro H; congruence.
Qed.

(** ** The mode-change clean-up *)

(** C9.  When the drawing mode changes (to another tool or to none), the
    effect discards the session: no provisional shape, no anchor point, no
    accumulated points, not drawing; the committed features and the capacity
    limits are exactly what they were. *)
Theorem mode_change_discards_session
    {L : Lib} (w : World) (m : option FeatureType) :
  mode (drawingState (store w)) <> m ->
  let w' := step w (EvSetDrawingMode m) in
  currentShapeRef w' = None /\
  startPointRef w' = None /\
  polygonPointsRef w' = [] /\
  isDrawing (drawingState (store w')) = false /\
  mode (drawingState (store w')) = m /\
  features (store w') = features (store w) /\
  maxShapes (store w') = maxShapes (store w).
Proof.
  intros Hneq. unfold step, handle, afterStoreAction, bind, gets, update; simpl.
  destruct (mode_eqb (mode (drawingState (store w))) m) eqn:E.
  - apply mode_eqb_eq in E. contradiction.
  - simpl. repeat split; reflexivity.
Qed.

(** ** The capacity gate *)

(** With a tool selected and no session running, a click is refused when
    the count the handler of the tool makes has reached the limit. *)
Lemma gate_by_bucket
    {L : Lib} (w : World) (t : FeatureType) (latlng : LatLng) (fid : string) :
  mode (drawingState (store w)) = Some t ->
  isDrawing (drawingState (store w)) = false ->
  let w' := step w (EvClick latlng fid) in
  let count := Z.of_nat (bucketCount t (features (store w))) in
  ((maxShapes (store w) t <= count)%Z ->
     store w' = store w /\
     currentShapeRef w' = currentShapeRef w /\
     startPointRef w' = startPointRef w /\
     polygonPointsRef w' = polygonPointsRef w /\
     exists msg, alerts w' = alerts w ++ [msg]) /\
  ((count < maxShapes (store w) t)%Z ->
     isDrawing (drawingState (store w')) = true /\
     mode (drawingState (store w')) = Some t /\
     features (store w') = features (store w) /\
     alerts w' = alerts w).
Proof.
  intros Hmode Hdraw.
  unfold step, handle, handleMapClick, bind, gets; simpl.
  rewrite Hmode, Hdraw.
  destruct t; simpl;
    unfold handlePolygonClick, handleRectangleClick, handleCircleClick,
      handleLineStringClick, bind, gets, alert, update; simpl;
    match goal with
    | |- context [Z.leb ?a ?b] => destruct (Z.leb_spec a b)
    end; simpl; (split; intros Hc);
    try lia; rewrite ?Hmode; repeat split; eauto.
Qed.

(** What the handlers count, against the features of each type. *)
Lemma countType_committedOfType (t : FeatureType) (fs : list Feature) :
  countType t fs = committedOfType t fs.
Proof.
  unfold countType, committedOfType.
  induction fs as [|f fs IH]; simpl; [reflexivity|].
  destruct (FeatureType_eq_dec (type f) t) as [E|E].
  - rewrite E. assert (FeatureType_eqb t t = true) as ->
      by (apply FeatureType_eqb_eq; reflexivity).
    simpl. f_equal. exact IH.
  - destruct (FeatureType_eqb (type f) t) eqn:E'; [|exact IH].
    apply FeatureType_eqb_eq in E'. contradiction.
Qed.

Lemma countPolygonType_committedOfType (fs : list Feature) :
  countPolygonType fs
  = (committedOfType polygon fs + committedOfType rectangle fs
     + committedOfType circle fs)%nat.
Proof.
  unfold countPolygonType, committedOfType.
  induction fs as [|f fs IH]; simpl; [reflexivity|].
  destruct (type f); simpl; rewrite IH;
    repeat match goal with
           | |- context [FeatureType_eq_dec ?a ?b] =>
               destruct (FeatureType_eq_dec a b); try discriminate;
               try contradiction
           end; lia.
Qed.

Lemma bucketCount_gateCount (t : FeatureType) (fs : list Feature) :
  bucketCount t fs = gateCount t fs.
Proof.
  destruct t; simpl;
    [apply countPolygonType_committedOfType|
     apply countType_committedOfType ..].
Qed.

(** C6.  With a tool selected and no session running, a click is refused
    when the limit of the tool is reached: by the number of all committed
    area-type features (polygons, rectangles and circles together) for the
    polygon tool, by the number of committed features of its own type for
    each of the three others.  A refused click shows one alert and changes
    nothing else (not drawing, same mode); otherwise the session starts. *)
Theorem capacity_gate
    {L : Lib} (w : World) (t : FeatureType) (latlng : LatLng) (fid : string) :
  mode (drawingState (store w)) = Some t ->
  isDrawing (drawingState (store w)) = false ->
  let w' := step w (EvClick latlng fid) in
  let count := Z.of_nat (gateCount t (features (store w))) in
  ((maxShapes (store w) t <= count)%Z ->
     store w' = store w /\
     currentShapeRef w' = currentShapeRef w /\
     startPointRef w' = startPointRef w /\
     polygonPointsRef w' = polygonPointsRef w /\
     exists msg, alerts w' = alerts w ++ [msg]) /\
  ((count < maxShapes (store w) t)%Z ->
     isDrawing (drawingState (store w')) = true /\
     mode (drawingState (store w')) = Some t /\
     features (store w') = features (store w) /\
     alerts w' = alerts w).
Proof.
  intros Hmode Hdraw. rewrite <- bucketCount_gateCount.
  exact (gate_by_bucket w t latlng fid Hmode Hdraw).
Qed.

(** ** Exceptions of the geometry library *)

(** Once both geometries are converted, a failure of the library inside the
    [try] block is turned into [false]. *)
Lemma doPolygonsOverlap_catches {L : Lib} (g1 g2 : Geometry) p1 p2 :
  geometryToPolygon g1 = Ok p1 -> geometryToPolygon g2 = Ok p2 ->
  exists b, doPolygonsOverlap g1 g2 = Ok b.
Proof.
  intros H1 H2. unfold doPolygonsOverlap. rewrite H1, H2. simpl.
  destruct p1 as [p1|], p2 as [p2|]; eauto.
  destruct (turf_intersect p1 p2) as [[i|]|m]; simpl; eauto.
Qed.

Lemma doesPolygonEnclose_catches {L : Lib} (g1 g2 : Geometry) p1 p2 :
  geometryToPolygon g1 = Ok p1 -> geometryToPolygon g2 = Ok p2 ->
  exists b, doesPolygonEnclose g1 g2 = Ok b.
Proof.
  intros H1 H2. unfold doesPolygonEnclose. rewrite H1, H2. simpl.
  destruct p1 as [p1|], p2 as [p2|]; eauto.
  destruct (turf_booleanContains p1 p2) as [b|m]; simpl; eauto.
Qed.

Lemma trimPolygonOverlap_catches {L : Lib} (g : Geometry) existing p :
  geometryToPolygon g = Ok p ->
  exists r, trimPolygonOverlap g existing = Ok r.
Proof.
  intros H. unfold trimPolygonOverlap. rewrite H. simpl.
  destruct p as [p|]; eauto.
  destruct (trimBody p existing) as [r|m]; simpl; eauto.
Qed.

(** A failure of [turf.polygon] on either argument escapes, whatever the
    library is. *)
Lemma conversion_failure_escapes {L : Lib} (c : PolygonCoords) m :
  turf_polygon c = Throw m ->
  (forall g, doPolygonsOverlap (Polygon c) g = Throw m) /\
  (forall g, doesPolygonEnclose (Polygon c) g = Throw m) /\
  (forall c', wellFormedb c' = true -> turf_polygon c' = Ok (mkPoly c') ->
     doPolygonsOverlap (Polygon c') (Polygon c) = Throw m /\
     doesPolygonEnclose (Polygon c') (Polygon c) = Throw m) /\
  (forall existing, trimPolygonOverlap (Polygon c) existing = Throw m).
Proof.
  intros H. unfold doPolygonsOverlap, doesPolygonEnclose, trimPolygonOverlap.
  simpl. rewrite H. simpl. repeat split; try reflexivity;
    match goal with Hok : turf_polygon _ = Ok _ |- _ => rewrite Hok end;
    reflexivity.
Qed.

(** C2, at a failing input.  A polygon whose only ring has a single position
    is rejected by [turf.polygon]; that exception is raised before the [try]
    block is entered, so the three functions throw instead of answering
    [false] or none. *)
Theorem short_ring_exception_escapes :
  let bad := Polygon [[ (0, 0) ]] in
  let good := Polygon (Strip.ringOf 0 1) in
  let msg := "Each LinearRing of a Polygon must have 4 or more Positions." in
  @doPolygonsOverlap Strip.lib bad good = Throw msg /\
  @doPolygonsOverlap Strip.lib good bad = Throw msg /\
  @doesPolygonEnclose Strip.lib bad good = Throw msg /\
  @doesPolygonEnclose Strip.lib good bad = Throw msg /\
  @trimPolygonOverlap Strip.lib bad [good] = Throw msg.
Proof. vm_compute. repeat split. Qed.

(** ** The area floor *)

Lemma trimPolygonOverlap_some {L : Lib} (g : Geometry) existing g' :
  trimPolygonOverlap g existing = Ok (Some g') ->
  exists cur p a,
    geometryToPolygon g = Ok (Some cur) /\
    trimLoop cur existing = Ok (Some p) /\
    turf_area p = Ok a /\ MIN_AREA <= a /\ g' = geometryOf p.
Proof.
  unfold trimPolygonOverlap, trimBody. intros H.
  destruct (geometryToPolygon g) as [[cur|]|m] eqn:Eg; simpl in H;
    try discriminate.
  destruct (trimLoop cur existing) as [[p|]|m] eqn:Et; simpl in H;
    try discriminate.
  destruct (turf_area p) as [a|m] eqn:Ea; simpl in H; try discriminate.
  destruct (Qltb a MIN_AREA) eqn:El; simpl in H; try discriminate.
  exists cur, p, a. apply Qltb_ge in El. inversion H. repeat split; auto.
Qed.

Lemma trimLoop_untouched {L : Lib} (cur : PolyFeature) (pre rest : list Geometry) :
  Forall (untouchedBy cur) pre ->
  trimLoop cur (pre ++ rest) = trimLoop cur rest.
Proof.
  induction 1 as [|x pre Hx _ IH]; simpl; [reflexivity|].
  destruct Hx as [Hx|(px & Hx & Hi)]; rewrite Hx; simpl; [exact IH|].
  rewrite Hi. simpl. exact IH.
Qed.

(** The loop ends the trim with none as soon as the difference with an
    existing polygon that the current polygon intersects is empty. *)
Lemma trimLoop_consumed {L : Lib} (cur : PolyFeature) (e : Geometry)
    (post : list Geometry) (ePoly : PolyFeature) (i : AreaFeature) :
  geometryToPolygon e = Ok (Some ePoly) ->
  turf_intersect cur ePoly = Ok (Some i) ->
  turf_difference cur ePoly = Ok None ->
  trimLoop cur (e :: post) = Ok None.
Proof.
  intros He Hi Hd. simpl. rewrite He. simpl. rewrite Hi. simpl. rewrite Hd.
  reflexivity.
Qed.

(** C4, at a failing input.  The README puts the floor at 0.0001 square
    degrees, and the code compares with 0.0001 what [turf.area] returns:
    square metres on the sphere.  The band from the equator to 0.00005
    degrees north, one degree wide, has a planar area of 0.00005 square
    degrees, under the floor; [turf.area] reports more than 600000 for it,
    and the trim returns the band. *)
Theorem floor_is_not_in_square_degrees :
  let thin := Band.ringOf 0 (1 # 20000) in
  planarArea thin == 1 # 20000 /\
  planarArea thin < MIN_AREA /\
  (exists a, @turf_area Band.lib (mkPoly thin) = Ok a /\ 600000 < a) /\
  @trimPolygonOverlap Band.lib (Polygon thin) [] = Ok (Some (Polygon thin)).
Proof.
  split; [vm_compute; reflexivity|].
  split; [vm_compute; reflexivity|].
  split; [eexists; split; [vm_compute; reflexivity|vm_compute; reflexivity]|].
  vm_compute. reflexivity.
Qed.

(** ** Multi-part differences *)

Section Largest.
Context {L : Lib}.
Variable ar : PolyFeature -> Q.

Lemma reduceLargest_first_max (rest : list PolyFeature) :
  forall (pre : list PolyFeature) (max : PolyFeature) (mid : list PolyFeature),
    (forall p, In p (pre ++ max :: mid ++ rest) -> turf_area p = Ok (ar p)) ->
    (forall p, In p pre -> ar p < ar max) ->
    (forall p, In p mid -> ar p <= ar max) ->
    exists before largest after,
      pre ++ max :: mid ++ rest = before ++ largest :: after /\
      (forall p, In p before -> ar p < ar largest) /\
      (forall p, In p after -> ar p <= ar largest) /\
      reduceLargest max rest = Ok largest.
Proof.
  induction rest as [|poly rest IH]; intros pre max mid Har Hpre Hmid.
  - exists pre, max, mid. rewrite app_nil_r. simpl. auto.
  - simpl.
    rewrite (Har max) by (apply in_or_app; right; left; reflexivity).
    rewrite (Har poly)
      by (apply in_or_app; right; right; apply in_or_app; right; left;
          reflexivity).
    simpl. destruct (Qltb (ar max) (ar poly)) eqn:E.
    + apply Qltb_lt in E.
      destruct (IH (pre ++ max :: mid) poly []) as (b & l & a & Heq & Hb & Ha & Hr).
      * intros p Hp. apply Har. rewrite <- app_assoc in Hp. exact Hp.
      * intros p Hp. apply in_app_or in Hp. destruct Hp as [Hp|[Hp|Hp]].
        -- eapply Qlt_trans; eauto.
        -- subst. exact E.
        -- eapply Qle_lt_trans; eauto.
      * intros p [].
      * exists b, l, a. repeat split; auto.
        rewrite <- Heq. rewrite <- app_assoc. reflexivity.
    + apply Qltb_ge in E.
      destruct (IH pre max (mid ++ [poly])) as (b & l & a & Heq & Hb & Ha & Hr).
      * intros p Hp. apply Har. rewrite <- app_assoc in Hp. exact Hp.
      * exact Hpre.
      * intros p Hp. apply in_app_or in Hp. destruct Hp as [Hp|[Hp|[]]]; auto.
        subst. exact E.
      * exists b, l, a. repeat split; auto.
        rewrite <- Heq. rewrite <- app_assoc. reflexivity.
Qed.

Lemma largestPolygon_first_max (polygons : list PolyFeature) :
  polygons <> [] ->
  (forall p, In p polygons -> turf_area p = Ok (ar p)) ->
  exists before largest after,
    polygons = before ++ largest :: after /\
    (forall p, In p before -> ar p < ar largest) /\
    (forall p, In p after -> ar p <= ar largest) /\
    largestPolygon polygons = Ok largest.
Proof.
  destruct polygons as [|p rest]; [congruence|]. intros _ Har.
  destruct (reduceLargest_first_max rest [] p []) as (b & l & a & H);
    simpl; auto; try (intros q []).
  exists b, l, a. exact H.
Qed.

(** C5, as the code has it.  When the difference with an overlapping
    existing polygon is a MultiPolygon whose parts the library converts and
    measures, the loop goes on with exactly one part: its area as
    [turf.area] reports it is the largest, every part before it in the
    library's order is strictly smaller, and the other parts play no role in
    the rest of the loop; when the existing polygon is the last one, this
    part is what the loop returns. *)
Theorem multipart_keeps_first_largest
    (cur : PolyFeature) (existingGeom : Geometry) (rest : list Geometry)
    (ePoly : PolyFeature) (i : AreaFeature)
    (parts : list PolygonCoords) (polygons : list PolyFeature) :
  geometryToPolygon existingGeom = Ok (Some ePoly) ->
  turf_intersect cur ePoly = Ok (Some i) ->
  turf_difference cur ePoly = Ok (Some (FMultiPolygon parts)) ->
  mapRes turf_polygon parts = Ok polygons ->
  polygons <> [] ->
  (forall p, In p polygons -> turf_area p = Ok (ar p)) ->
  exists before largest after,
    polygons = before ++ largest :: after /\
    (forall p, In p before -> ar p < ar largest) /\
    (forall p, In p after -> ar p <= ar largest) /\
    trimLoop cur (existingGeom :: rest) = trimLoop largest rest /\
    trimLoop cur [existingGeom] = Ok (Some largest).
Proof.
  intros He Hi Hd Hm Hne Har.
  destruct (largestPolygon_first_max _ Hne Har) as (b & l & a & Heq & Hb & Ha & Hl).
  exists b, l, a.
  split; [exact Heq|]. split; [exact Hb|]. split; [exact Ha|].
  split; simpl; rewrite He; simpl; rewrite Hi; simpl; rewrite Hd; simpl;
    rewrite Hm; simpl; rewrite Hl; reflexivity.
Qed.

End Largest.

(** ** Trimming against nothing *)

(** C7, as the code has it.  Against an empty list the loop does nothing, but
    the result is still validated: the candidate's geometry comes back
    unchanged when its area is at least 0.0001, and none otherwise. *)
Theorem trim_nothing_validates
    {L : Lib} (c : PolygonCoords) (p : PolyFeature) (a : Q) :
  turf_polygon c = Ok p ->
  polyCoords p = c ->
  turf_area p = Ok a ->
  trimPolygonOverlap (Polygon c) [] =
    Ok (if Qltb a MIN_AREA then None else Some (Polygon c)).
Proof.
  intros Hp Hc Ha. unfold trimPolygonOverlap, trimBody. simpl.
  rewrite Hp. simpl. rewrite Ha. simpl.
  destruct (Qltb a MIN_AREA); simpl; [reflexivity|].
  unfold geometryOf. rewrite Hc. reflexivity.
Qed.

(** C7 as stated fails: a strip of width zero is a polygon, and trimming it
    against nothing returns none, not its geometry. *)
Lemma trim_nothing_degenerate :
  @trimPolygonOverlap Strip.lib (Polygon (Strip.ringOf 0 0)) [] = Ok None /\
  @trimPolygonOverlap Strip.lib (Polygon (Strip.ringOf 0 0)) []
    <> Ok (Some (Polygon (Strip.ringOf 0 0))).
Proof. split; [vm_compute; reflexivity | vm_compute; discriminate]. Qed.

(** ** The commit pipeline: what finishDrawing calls, and in which order *)

Lemma logged_nil (w : World) : logged [] [] w = w.
Proof. destruct w. unfold logged. simpl. rewrite !app_nil_r. reflexivity. Qed.

Lemma logged_pushCall (c : Call) cs als w :
  logged cs als (pushCall c w) = logged (c :: cs) als w.
Proof. unfold logged, pushCall. simpl. rewrite <- app_assoc. reflexivity. Qed.

Lemma logged_pushAlert (m : string) cs als w :
  logged cs als (pushAlert m w) = logged cs (m :: als) w.
Proof. unfold logged, pushAlert. simpl. rewrite <- app_assoc. reflexivity. Qed.

Lemma logged_logged cs1 als1 cs2 als2 w :
  logged cs2 als2 (logged cs1 als1 w) = logged (cs1 ++ cs2) (als1 ++ als2) w.
Proof. unfold logged. simpl. rewrite !app_assoc. reflexivity. Qed.

Lemma pushCall_logged (c : Call) w : pushCall c w = logged [c] [] w.
Proof. rewrite <- (logged_nil (pushCall c w)). apply logged_pushCall. Qed.

Lemma pushAlert_logged (m : string) w : pushAlert m w = logged [] [m] w.
Proof. rewrite <- (logged_nil (pushAlert m w)). apply logged_pushAlert. Qed.

Section Pipeline.
Context {L : Lib}.

Lemma enclosureLoop_pass (geom : Geometry) (existing : list Geometry) :
  forall w, Forall (noEnclosure geom) existing ->
    enclosureLoop geom existing w
    = (Ok false, logged (enclosureCalls geom existing) [] w).
Proof.
  induction existing as [|e rest IH]; intros w H.
  - simpl. unfold ret. rewrite logged_nil. reflexivity.
  - inversion H as [|? ? [H1 H2] Hrest]; subst.
    simpl. unfold bind, callEnclose, bind, update, liftRes. simpl.
    rewrite H1. simpl. rewrite H2. simpl.
    rewrite IH by assumption. rewrite !logged_pushCall. reflexivity.
Qed.

Lemma enclosureLoop_app (geom : Geometry) (pre rest : list Geometry) :
  forall w, Forall (noEnclosure geom) pre ->
    enclosureLoop geom (pre ++ rest) w
    = enclosureLoop geom rest (logged (enclosureCalls geom pre) [] w).
Proof.
  induction pre as [|e pre IH]; intros w H.
  - simpl. rewrite logged_nil. reflexivity.
  - inversion H as [|? ? [H1 H2] Hrest]; subst.
    simpl. unfold bind, callEnclose, bind, update, liftRes. simpl.
    rewrite H1. simpl. rewrite H2. simpl.
    rewrite IH by assumption. rewrite !logged_pushCall. reflexivity.
Qed.

Lemma enclosureLoop_enclosed (geom : Geometry) (pre : list Geometry) e post w :
  Forall (noEnclosure geom) pre ->
  doesPolygonEnclose e geom = Ok true ->
  enclosureLoop geom (pre ++ e :: post) w
  = (Ok true,
     logged (enclosureCalls geom pre ++ [CallEnclose e geom]) [msgEnclosed] w).
Proof.
  intros Hpre He. rewrite enclosureLoop_app by assumption.
  simpl. unfold bind, callEnclose, bind, update, liftRes, alert, update, ret.
  simpl. rewrite He. simpl.
  rewrite pushAlert_logged, pushCall_logged, !logged_logged. reflexivity.
Qed.


(** Every run of the enclosure loop, also one that throws. *)
Lemma enclosureLoop_run (geom : Geometry) (existing : list Geometry) :
  forall w, exists r cs als tail,
    enclosureLoop geom existing w = (r, logged cs als w) /\
    enclosureCalls geom existing = cs ++ tail /\
    (r = Ok false -> tail = [] /\ als = [] /\ Forall (noEnclosure geom) existing) /\
    (r = Ok true -> als = [msgEnclosed] \/ als = [msgEncloses]) /\
    (forall m, r = Throw m -> als = []).
Proof.
  induction existing as [|e rest IH]; intros w.
  - exists (Ok false), [], [], []. simpl. unfold ret. rewrite logged_nil.
    repeat split; auto; try discriminate.
  - simpl. unfold bind, callEnclose, bind, update, liftRes, alert, update, ret.
    simpl.
    destruct (doesPolygonEnclose e geom) as [[|]|m] eqn:E1; simpl.
    + exists (Ok true), [CallEnclose e geom], [msgEnclosed],
        (CallEnclose geom e :: enclosureCalls geom rest).
      rewrite pushAlert_logged, pushCall_logged, logged_logged.
      repeat split; auto; try discriminate.
    + destruct (doesPolygonEnclose geom e) as [[|]|m] eqn:E2; simpl.
      * exists (Ok true), [CallEnclose e geom; CallEnclose geom e],
          [msgEncloses], (enclosureCalls geom rest).
        rewrite pushAlert_logged, !pushCall_logged, !logged_logged.
        repeat split; auto; try discriminate.
      * destruct (IH (pushCall (CallEnclose geom e) (pushCall (CallEnclose e geom) w)))
          as (r & cs & als & tail & Hrun & Hcs & Hf & Ht & Hth).
        exists r, (CallEnclose e geom :: CallEnclose geom e :: cs), als, tail.
        rewrite Hrun, !logged_pushCall. simpl. rewrite Hcs.
        split; [reflexivity|]. split; [reflexivity|].
        split; [|split; assumption].
        intros Hr; destruct (Hf Hr) as (? & ? & ?). repeat split; auto.
        constructor; [split; assumption | assumption].
      * exists (Throw m), [CallEnclose e geom; CallEnclose geom e], [],
          (enclosureCalls geom rest).
        rewrite !pushCall_logged, !logged_logged.
        repeat split; auto; try discriminate.
    + exists (Throw m), [CallEnclose e geom], [],
        (CallEnclose geom e :: enclosureCalls geom rest).
      rewrite pushCall_logged. repeat split; auto; try discriminate.
Qed.

Lemma enclosureCalls_all (geom : Geometry) (existing : list Geometry) :
  Forall isEncloseCall (enclosureCalls geom existing).
Proof.
  induction existing; simpl; repeat constructor; assumption.
Qed.

(** Every run of the overlap loop. *)
Lemma overlapLoop_run (geom : Geometry) (existing : list Geometry) :
  forall w, exists r cs,
    overlapLoop geom existing w = (r, logged cs [] w) /\
    Forall isOverlapCall cs /\
    (r = Ok false -> Forall (noOverlap geom) existing) /\
    (r = Ok true -> exists pre e post,
        existing = pre ++ e :: post /\ Forall (noOverlap geom) pre /\
        doPolygonsOverlap geom e = Ok true).
Proof.
  induction existing as [|e rest IH]; intros w.
  - exists (Ok false), []. simpl. unfold ret. rewrite logged_nil.
    repeat split; auto; discriminate.
  - simpl. unfold bind, callOverlap, bind, update, liftRes, ret. simpl.
    destruct (doPolygonsOverlap geom e) as [[|]|m] eqn:E1; simpl.
    + exists (Ok true), [CallOverlap geom e]. rewrite pushCall_logged.
      repeat split; auto; try discriminate.
      * repeat constructor.
      * intros _. exists [], e, rest. auto.
    + destruct (IH (pushCall (CallOverlap geom e) w))
        as (r & cs & Hrun & Hcs & Hf & Ht).
      exists r, (CallOverlap geom e :: cs).
      rewrite Hrun, logged_pushCall.
      split; [reflexivity|]. split; [|split].
      * constructor; [exact I | assumption].
      * intros Hr. apply Forall_cons; [exact E1 | auto].
      * intros Hr. destruct (Ht Hr) as (pre & e' & post & Heq & Hpre & He').
        exists (e :: pre), e', post. subst. repeat split; auto.
    + exists (Throw m), [CallOverlap geom e]. rewrite pushCall_logged.
      repeat split; auto; try discriminate. repeat constructor.
Qed.

End Pipeline.

Section Commit.
Context {L : Lib}.

(** Every run of the constraint phase: the calls it logs are enclosure
    checks first ([cs1], a prefix of the full list), then overlap checks
    and at most one trim ([cs2]), which start only after the last
    enclosure check. *)
Lemma constrain_run (ty : FeatureType) (geom : Geometry) (w : World) :
  let existing := existingPolygonGeometries (features (store w)) in
  exists r cs1 cs2 als tail,
    constrain ty geom w = (r, logged (cs1 ++ cs2) als w) /\
    (isPolygonType ty = false ->
       r = Ok (Some geom) /\ cs1 = [] /\ cs2 = [] /\ als = []) /\
    (isPolygonType ty = true ->
       enclosureCalls geom existing = cs1 ++ tail /\
       Forall isOverlapOrTrimCall cs2 /\
       (cs2 <> [] -> tail = []) /\
       (forall g, r = Ok (Some g) ->
          als = [] /\ Forall (noEnclosure geom) existing /\
          ((g = geom /\ Forall (noOverlap geom) existing) \/
           trimPolygonOverlap geom existing = Ok (Some g))) /\
       (r = Ok None ->
          als = [msgEnclosed] \/ als = [msgEncloses] \/ als = [msgTrim]) /\
       (forall m, r = Throw m -> als = [])).
Proof.
  intros existing. unfold constrain, bind, gets. simpl.
  destruct (isPolygonType ty) eqn:Ety.
  2:{ exists (Ok (Some geom)), [], [], [], []. unfold ret. simpl.
      rewrite logged_nil. repeat split; auto; discriminate. }
  fold existing.
  destruct (enclosureLoop_run geom existing w)
    as (r1 & cs1 & als1 & tail & Hrun & Hcs & Hf & Ht & Hth).
  rewrite Hrun. destruct r1 as [[|]|m].
  - exists (Ok None), cs1, [], als1, tail. unfold ret. rewrite app_nil_r.
    split; [reflexivity|]. split; [discriminate|]. intros _.
    repeat split; auto; try discriminate; try congruence.
    intros _. destruct (Ht eq_refl); auto.
  - destruct (Hf eq_refl) as (Htail & Hals & Hall). subst tail als1.
    rewrite app_nil_r in Hcs.
    destruct (overlapLoop_run geom existing (logged cs1 [] w))
      as (r2 & cs2 & Hrun2 & Hcs2 & Hf2 & Ht2).
    rewrite Hrun2, logged_logged. simpl.
    assert (Hov : Forall isOverlapOrTrimCall cs2).
    { eapply Forall_impl; [|exact Hcs2]. intros [] Hc; simpl in *; tauto. }
    destruct r2 as [[|]|m].
    + unfold callTrim, bind, update, liftRes. simpl.
      rewrite pushCall_logged, logged_logged. simpl.
      assert (Hov' : Forall isOverlapOrTrimCall
                       (cs2 ++ [CallTrim geom existing])).
      { apply Forall_app. split; [assumption|]. repeat constructor. }
      destruct (trimPolygonOverlap geom existing) as [[g|]|m] eqn:Etrim.
      * exists (Ok (Some g)), cs1, (cs2 ++ [CallTrim geom existing]), [], [].
        unfold ret. rewrite <- app_assoc.
        split; [reflexivity|]. split; [discriminate|]. intros _.
        repeat split; rewrite ?app_nil_r; auto; try discriminate.
      * exists (Ok None), cs1, (cs2 ++ [CallTrim geom existing]), [msgTrim], [].
        unfold alert, update, ret. simpl.
        rewrite pushAlert_logged, logged_logged.
        repeat rewrite <- app_assoc. simpl. rewrite ?app_nil_r.
        split; [reflexivity|]. split; [discriminate|]. intros _.
        repeat split; rewrite ?app_nil_r; auto; try discriminate.
      * exists (Throw m), cs1, (cs2 ++ [CallTrim geom existing]), [], [].
        rewrite <- app_assoc.
        split; [reflexivity|]. split; [discriminate|]. intros _.
        repeat split; rewrite ?app_nil_r; auto; try discriminate.
    + exists (Ok (Some geom)), cs1, cs2, [], []. unfold ret.
      split; [reflexivity|]. split; [discriminate|]. intros _.
      repeat split; rewrite ?app_nil_r; auto; try discriminate.
      match goal with Hg' : Ok (Some _) = Ok (Some _) |- _ =>
        inversion Hg'; subst; auto end.
    + exists (Throw m), cs1, cs2, [], [].
      split; [reflexivity|]. split; [discriminate|]. intros _.
      repeat split; rewrite ?app_nil_r; auto; try discriminate.
  - exists (Throw m), cs1, [], als1, tail. rewrite app_nil_r.
    split; [reflexivity|]. split; [discriminate|]. intros _.
    repeat split; auto; try discriminate; try congruence. eauto.
Qed.

Lemma layerGeometry_run (layer : Layer) (w : World) :
  (exists geom, layerGeometry layer w = (Ok (Some geom), w)) \/
  (exists m, layerGeometry layer w = (Ok None, logged [] [m] w)) \/
  (exists m, layerGeometry layer w = (Throw m, w)).
Proof.
  destruct layer as [c r|b|ps|ps]; simpl;
    unfold bind, gets, liftRes, ret, alert, update; simpl.
  - destruct (turf_circle _ _ _); eauto.
  - eauto.
  - destruct (_ <? 3)%nat; eauto. right. left.
    eexists. rewrite pushAlert_logged. reflexivity.
  - destruct (_ <? 2)%nat; eauto. right. left.
    eexists. rewrite pushAlert_logged. reflexivity.
Qed.

(** Every run of finishDrawing either only logs calls and alerts, or
    commits the geometry the constraint phase returned, without alert. *)
Lemma finishDrawing_run (ty : FeatureType) (layer : Layer) (fid : string)
    (w : World) :
  (exists r cs als, finishDrawing ty layer fid w = (r, logged cs als w)) \/
  (exists geom g cs,
      layerGeometry layer w = (Ok (Some geom), w) /\
      constrain ty geom w = (Ok (Some g), logged cs [] w) /\
      finishDrawing ty layer fid w
      = (Ok tt, committed fid ty g (logged cs [] w))).
Proof.
  unfold finishDrawing, bind.
  destruct (layerGeometry_run layer w) as [[geom Hl]|[[m Hl]|[m Hl]]];
    rewrite Hl.
  - destruct (constrain_run ty geom w)
      as (r & cs1 & cs2 & als & tail & Hrun & Hlin & Hpoly).
    rewrite Hrun. destruct r as [[g|]|m].
    + right. exists geom, g, (cs1 ++ cs2).
      assert (als = []) as ->.
      { destruct (isPolygonType ty) eqn:E.
        - destruct (Hpoly eq_refl) as (_ & _ & _ & Hg & _).
          destruct (Hg g eq_refl); auto.
        - destruct (Hlin eq_refl) as (_ & _ & _ & ?); auto. }
      repeat split; auto.
    + left. unfold ret. eauto.
    + left. eauto.
  - left. unfold ret. eauto.
  - left. exists (Throw m), [], []. rewrite logged_nil. reflexivity.
Qed.

End Commit.

Section Order.
Context {L : Lib}.

Lemma overlapLoop_app (geom : Geometry) (pre rest : list Geometry) :
  forall w, Forall (noOverlap geom) pre ->
    overlapLoop geom (pre ++ rest) w
    = overlapLoop geom rest (logged (overlapCalls geom pre) [] w).
Proof.
  induction pre as [|e pre IH]; intros w H.
  - simpl. rewrite logged_nil. reflexivity.
  - inversion H as [|? ? H1 Hrest]; subst.
    simpl. unfold bind, callOverlap, bind, update, liftRes. simpl.
    rewrite H1. simpl. rewrite IH by assumption.
    rewrite logged_pushCall. reflexivity.
Qed.

Lemma overlapLoop_pass (geom : Geometry) (existing : list Geometry) w :
  Forall (noOverlap geom) existing ->
  overlapLoop geom existing w
  = (Ok false, logged (overlapCalls geom existing) [] w).
Proof.
  intros H. rewrite <- (app_nil_r existing) at 1.
  rewrite overlapLoop_app by assumption. reflexivity.
Qed.

Lemma overlapLoop_hit (geom : Geometry) (pre : list Geometry) e post w :
  Forall (noOverlap geom) pre ->
  doPolygonsOverlap geom e = Ok true ->
  overlapLoop geom (pre ++ e :: post) w
  = (Ok true, logged (overlapCalls geom (pre ++ [e])) [] w).
Proof.
  intros Hpre He. rewrite overlapLoop_app by assumption.
  simpl. unfold bind, callOverlap, bind, update, liftRes, ret. simpl.
  rewrite He. simpl. rewrite pushCall_logged, logged_logged.
  unfold overlapCalls. rewrite map_app. reflexivity.
Qed.


End Order.

(** ** Invariants of the reachable states *)

Lemma Forall_filter {A : Type} (P : A -> Prop) (f : A -> bool) (l : list A) :
  Forall P l -> Forall P (filter f l).
Proof.
  induction 1; simpl; [constructor|].
  destruct (f x); [constructor|]; assumption.
Qed.

Section Invariant.
Context {L : Lib}.

Lemma featuresOk_nil : featuresOk [].
Proof. constructor. Qed.

Lemma featuresOk_filter (f : Feature -> bool) (fs : list Feature) :
  featuresOk fs -> featuresOk (filter f fs).
Proof. apply Forall_filter. Qed.

Lemma Forall_existing (Q : Geometry -> Prop) (fs : list Feature) :
  Forall Q (existingPolygonGeometries fs) <->
  Forall (fun f => isPolygonType (type f) = true -> Q (geometry f)) fs.
Proof.
  unfold existingPolygonGeometries.
  induction fs as [|f fs IH]; simpl.
  - split; constructor.
  - destruct (isPolygonType (type f)) eqn:E; simpl; split; intros H.
    + inversion H; subst. constructor; [auto|]. apply IH. assumption.
    + inversion H; subst. constructor; [auto|]. apply IH. assumption.
    + constructor; [intros; congruence|]. apply IH. assumption.
    + inversion H; subst. apply IH. assumption.
Qed.

End Invariant.

(** ** The trim loop under the shape contract *)

Section TrimShape.
Context {L : Lib} {HS : LibShape L}.

Lemma turf_polygon_inv (c : PolygonCoords) (p : PolyFeature) :
  turf_polygon c = Ok p -> wellFormedb c = true /\ p = mkPoly c.
Proof.
  intros H. destruct (wellFormedb c) eqn:E.
  - rewrite (polygon_ok c E) in H. inversion H. auto.
  - destruct (polygon_throws c E) as [m Hm]. congruence.
Qed.

Lemma geometryToPolygon_inv (g : Geometry) (p : PolyFeature) :
  geometryToPolygon g = Ok (Some p) ->
  wellFormedb (polyCoords p) = true /\ g = Polygon (polyCoords p).
Proof.
  destruct g; simpl; try discriminate.
  destruct (turf_polygon c) as [q|m] eqn:E; simpl; try discriminate.
  intros H. inversion H; subst.
  destruct (turf_polygon_inv _ _ E) as [Hwf ->]. simpl. auto.
Qed.

Lemma geometryToPolygon_wf (c : PolygonCoords) :
  wellFormedb c = true -> geometryToPolygon (Polygon c) = Ok (Some (mkPoly c)).
Proof. intros H. simpl. rewrite (polygon_ok c H). reflexivity. Qed.

Lemma mapRes_polygon (parts : list PolygonCoords) :
  forall polygons, mapRes turf_polygon parts = Ok polygons ->
    Forall (fun q => In (polyCoords q) parts /\
                     wellFormedb (polyCoords q) = true) polygons.
Proof.
  induction parts as [|c parts IH]; simpl; intros polygons H.
  - inversion H. constructor.
  - destruct (turf_polygon c) as [q|m] eqn:E; simpl in H; try discriminate.
    destruct (mapRes turf_polygon parts) as [qs|m]; simpl in H;
      try discriminate.
    inversion H; subst.
    destruct (turf_polygon_inv _ _ E) as [Hwf ->].
    constructor; [simpl; auto|].
    eapply Forall_impl; [|apply IH; reflexivity].
    intros a [Ha Hw]. auto.
Qed.

Lemma reduceLargest_in (rest : list PolyFeature) :
  forall max r, reduceLargest max rest = Ok r -> r = max \/ In r rest.
Proof.
  induction rest as [|poly rest IH]; simpl; intros max r H.
  - inversion H. auto.
  - destruct (turf_area max) as [a|m]; simpl in H; try discriminate.
    destruct (turf_area poly) as [b|m]; simpl in H; try discriminate.
    apply IH in H. simpl. destruct (Qltb a b); intuition auto.
Qed.

Lemma largestPolygon_in (polygons : list PolyFeature) (r : PolyFeature) :
  largestPolygon polygons = Ok r -> In r polygons.
Proof.
  destruct polygons as [|p rest]; simpl; [discriminate|].
  intros H. apply reduceLargest_in in H. intuition auto.
Qed.

Lemma mkPoly_eta (p : PolyFeature) : mkPoly (polyCoords p) = p.
Proof. destruct p. reflexivity. Qed.

(** What is left when the loop ends is well-formed. *)
Lemma trimLoop_wf (existing : list Geometry) :
  forall cur p,
    wellFormedb (polyCoords cur) = true ->
    trimLoop cur existing = Ok (Some p) ->
    wellFormedb (polyCoords p) = true.
Proof.
  induction existing as [|e rest IH]; intros cur p Hwf H.
  - simpl in H. inversion H; subst. exact Hwf.
  - simpl in H.
    destruct (geometryToPolygon e) as [[ePoly|]|m] eqn:Ee; simpl in H;
      try discriminate; [|exact (IH cur p Hwf H)].
    destruct (turf_intersect cur ePoly) as [[i|]|m] eqn:Ei; simpl in H;
      try discriminate; [|exact (IH cur p Hwf H)].
    destruct (turf_difference cur ePoly) as [[[c|parts]|]|m] eqn:Ed;
      simpl in H; try discriminate.
    + exact (IH (mkPoly c) p (difference_wf _ _ _ Ed) H).
    + destruct (mapRes turf_polygon parts) as [polygons|m] eqn:Em;
        simpl in H; try discriminate.
      destruct (largestPolygon polygons) as [largest|m] eqn:El;
        simpl in H; try discriminate.
      pose proof (mapRes_polygon _ _ Em) as Hall.
      rewrite Forall_forall in Hall.
      destruct (Hall _ (largestPolygon_in _ _ El)) as [_ Hlw].
      exact (IH largest p Hlw H).
Qed.

(** A geometry the trim returns is a polygon of well-formed rings. *)
Lemma trimmed_wf (geom : Geometry) (existing : list Geometry) (g : Geometry) :
  trimPolygonOverlap geom existing = Ok (Some g) ->
  exists c, g = Polygon c /\ wellFormedb c = true.
Proof.
  intros H.
  destruct (trimPolygonOverlap_some _ _ _ H)
    as (cur & p & a & Hcur & Hloop & _ & _ & ->).
  destruct (geometryToPolygon_inv _ _ Hcur) as [Hwf _].
  exists (polyCoords p). split; [reflexivity|].
  exact (trimLoop_wf _ _ _ Hwf Hloop).
Qed.

End TrimShape.


(** ** What finishDrawing commits *)

Lemma pos_eqb_refl (p : Position) : pos_eqb p p = true.
Proof. unfold pos_eqb. rewrite !Qeq_bool_refl. reflexivity. Qed.

Lemma closed_ring_ok (coords : list Position) :
  (3 <= List.length coords)%nat ->
  ringOkb (coords ++ firstn 1 coords) = true.
Proof.
  destruct coords as [|p rest]; simpl; [lia|]. intros Hlen.
  unfold ringOkb. apply andb_true_intro. split.
  - apply Nat.leb_le. simpl. rewrite length_app. simpl. lia.
  - unfold ringClosedb.
    change (p :: rest ++ [p]) with ((p :: rest) ++ [p]).
    rewrite last_last. apply pos_eqb_refl.
Qed.

Lemma rectangle_ring_ok (w s e n : Q) :
  wellFormedb [[ (w, s); (e, s); (e, n); (w, n); (w, s) ]] = true.
Proof.
  unfold wellFormedb, ringOkb, ringClosedb. simpl.
  rewrite pos_eqb_refl. reflexivity.
Qed.

Section Preserve.
Context {L : Lib} {HS : LibShape L}.

Lemma layerGeometry_ok (layer : Layer) (w w' : World) (geom : Geometry) :
  layerGeometry layer w = (Ok (Some geom), w') ->
  geometryOk (layerKind layer) geom.
Proof.
  destruct layer as [c r|b|ps|ps]; simpl;
    unfold bind, gets, liftRes, ret, alert, update, geometryOk; simpl.
  - destruct (turf_circle _ _ _) as [p|m] eqn:E; intros H; inversion H; subst.
    exists (polyCoords p). split; [reflexivity|]. eapply circle_wf; eassumption.
  - intros H. inversion H; subst. eexists. split; [reflexivity|].
    apply rectangle_ring_ok.
  - destruct (_ <? 3)%nat eqn:E; intros H; inversion H; subst.
    apply Nat.ltb_ge in E. eexists. split; [reflexivity|].
    simpl. rewrite closed_ring_ok; [reflexivity|].
    unfold toCoords. rewrite length_map. exact E.
  - destruct (_ <? 2)%nat eqn:E; intros H; inversion H; subst.
    apply Nat.ltb_ge in E. eexists. split; [reflexivity|].
    unfold toCoords. rewrite length_map. exact E.
Qed.

Lemma existing_In (fs : list Feature) (f : Feature) :
  In f fs -> isPolygonType (type f) = true ->
  In (geometry f) (existingPolygonGeometries fs).
Proof.
  intros Hin Hty. unfold existingPolygonGeometries.
  apply in_map. apply filter_In. auto.
Qed.

(** Appending the geometry the constraint phase returns keeps the
    invariant of the feature collection. *)
Lemma constrain_keeps_featuresOk
    (ty : FeatureType) (geom g : Geometry) (fid : string) (w w' : World) :
  featuresOk (features (store w)) ->
  geometryOk ty geom ->
  constrain ty geom w = (Ok (Some g), w') ->
  featuresOk (features (store w) ++ [newFeature fid ty g]).
Proof.
  intros Hok Hgeom Hc.
  destruct (constrain_run ty geom w)
    as (r & cs1 & cs2 & als & tail & Hrun & Hlin & Hpoly).
  rewrite Hrun in Hc. inversion Hc; subst r. clear Hc.
  apply Forall_app. split; [exact Hok|]. constructor; [|constructor].
  unfold featureOk. simpl.
  destruct (isPolygonType ty) eqn:Ety.
  2:{ destruct (Hlin eq_refl) as (Hr & _). inversion Hr; subst g.
      exact Hgeom. }
  destruct (Hpoly eq_refl) as (_ & _ & _ & Hsome & _).
  destruct (Hsome g eq_refl) as (_ & _ & Hcase).
  destruct Hcase as [[-> _]|Htrim]; [exact Hgeom|].
  unfold geometryOk. rewrite Ety. exact (trimmed_wf _ _ _ Htrim).
Qed.

Lemma finishDrawing_keeps
    (layer : Layer) (fid : string) (w : World) :
  featuresOk (features (store w)) ->
  featuresOk (features (store (snd (finishDrawing (layerKind layer) layer fid w))))
  /\ sameDrawing w (snd (finishDrawing (layerKind layer) layer fid w)).
Proof.
  intros Hok.
  destruct (finishDrawing_run (layerKind layer) layer fid w)
    as [(r & cs & als & Hrun)|(geom & g & cs & Hl & Hc & Hrun)];
    rewrite Hrun; simpl.
  - split; [assumption|]. split; auto.
  - split; [|split; auto].
    eapply constrain_keeps_featuresOk; eauto.
    eapply layerGeometry_ok; eauto.
Qed.

End Preserve.

(** ** Every event keeps the invariant *)

Section Step.
Context {L : Lib} {HS : LibShape L}.

Lemma sessionOk_same (w w' : World) :
  sessionOk w -> sameDrawing w w' -> sessionOk w'.
Proof.
  unfold sessionOk, sameDrawing. intros H [Hd Hs] Hdr l Hl.
  rewrite Hd in *. destruct Hs as [Hs|Hs]; rewrite Hs in Hl;
    [auto|discriminate].
Qed.

Lemma sessionOk_idle (w : World) :
  isDrawing (drawingState (store w)) = false -> sessionOk w.
Proof. unfold sessionOk. intros H H'. congruence. Qed.

Lemma Inv_logged (w : World) : Inv w -> forall m, Inv (pushAlert m w).
Proof. intros H m. exact H. Qed.

Lemma finish_then_stop (layer : Layer) (fid : string) (w : World) :
  Inv w ->
  Inv (snd (bind (finishDrawing (layerKind layer) layer fid)
              (fun _ => update (withStore (setIsDrawing false))) w)).
Proof.
  intros [Hs Hf]. unfold bind.
  destruct (finishDrawing_keeps layer fid w Hf) as [Hf' Hsame].
  destruct (finishDrawing (layerKind layer) layer fid w) as [[[]|m] w1];
    simpl in *.
  - split; [apply sessionOk_idle; reflexivity | exact Hf'].
  - split; [eapply sessionOk_same; eauto | exact Hf'].
Qed.

Lemma stop_Inv (w : World) : Inv w -> Inv (withStore (setIsDrawing false) w).
Proof.
  intros [Hs Hf]. split; [apply sessionOk_idle; reflexivity | exact Hf].
Qed.

Lemma instanceofCircle_kind (l : Layer) :
  instanceofCircle l = true -> layerKind l = circle.
Proof. destruct l; simpl; congruence. Qed.

Lemma instanceofRectangle_kind (l : Layer) :
  instanceofRectangle l = true -> layerKind l = rectangle.
Proof. destruct l; simpl; congruence. Qed.

Lemma setLatLngs_kind (l : Layer) (ps : list LatLng) :
  layerKind (setLatLngs l ps) = layerKind l.
Proof. destruct l; simpl; try reflexivity. destruct ps; reflexivity. Qed.

Lemma handleCircleClick_Inv (latlng : LatLng) (fid : string) (w : World) :
  Inv w -> mode (drawingState (store w)) = Some circle ->
  Inv (snd (handleCircleClick latlng (isDrawing (drawingState (store w))) fid w)).
Proof.
  intros HI Hmode. unfold handleCircleClick.
  unfold bind at 1 2. unfold gets at 1 2. simpl.
  destruct (isDrawing (drawingState (store w))) eqn:Ed.
  - unfold bind at 1. unfold gets at 1.
    destruct (currentShapeRef w) as [layer|] eqn:Es.
    + destruct (instanceofCircle layer) eqn:Ei.
      * rewrite <- (instanceofCircle_kind _ Ei).
        apply finish_then_stop. exact HI.
      * apply stop_Inv. exact HI.
    + apply stop_Inv. exact HI.
  - destruct (Z.leb _ _); [exact HI|].
    destruct HI as [Hs Hf]. split; [|exact Hf].
    unfold sessionOk. simpl. intros _ l Hl. inversion Hl; subst.
    simpl. exact Hmode.
Qed.

Lemma handleRectangleClick_Inv (latlng : LatLng) (fid : string) (w : World) :
  Inv w -> mode (drawingState (store w)) = Some rectangle ->
  Inv (snd (handleRectangleClick latlng (isDrawing (drawingState (store w)))
              fid w)).
Proof.
  intros HI Hmode. unfold handleRectangleClick.
  unfold bind at 1 2. unfold gets at 1 2. simpl.
  destruct (isDrawing (drawingState (store w))) eqn:Ed.
  - unfold bind at 1. unfold gets at 1.
    destruct (currentShapeRef w) as [layer|] eqn:Es.
    + destruct (instanceofRectangle layer) eqn:Ei.
      * rewrite <- (instanceofRectangle_kind _ Ei).
        apply finish_then_stop. exact HI.
      * apply stop_Inv. exact HI.
    + apply stop_Inv. exact HI.
  - destruct (Z.leb _ _); [exact HI|].
    destruct HI as [Hs Hf]. split; [|exact Hf].
    unfold sessionOk. simpl. intros _ l Hl. inversion Hl; subst.
    simpl. exact Hmode.
Qed.

Lemma handlePolygonClick_Inv (latlng : LatLng) (w : World) :
  Inv w -> mode (drawingState (store w)) = Some polygon ->
  Inv (snd (handlePolygonClick latlng (isDrawing (drawingState (store w))) w)).
Proof.
  intros HI Hmode. unfold handlePolygonClick, bind, gets, update, alert, ret.
  simpl. destruct HI as [Hs Hf].
  destruct (isDrawing (drawingState (store w))) eqn:Ed; simpl.
  - destruct (currentShapeRef w) as [layer|] eqn:Es; simpl.
    + destruct (instanceofPolygon layer); simpl; split; try exact Hf.
      * unfold sessionOk. simpl. intros _ l Hl. inversion Hl; subst.
        rewrite setLatLngs_kind. apply Hs; auto.
      * exact Hs.
    + split; [|exact Hf]. unfold sessionOk. simpl. rewrite Es. discriminate.
  - destruct (Z.leb _ _); simpl; split; try exact Hf.
    + unfold sessionOk. simpl. rewrite Ed. discriminate.
    + unfold sessionOk. simpl. intros _ l Hl. inversion Hl; subst.
      simpl. exact Hmode.
Qed.

Lemma handleLineStringClick_Inv (latlng : LatLng) (w : World) :
  Inv w -> mode (drawingState (store w)) = Some linestring ->
  Inv (snd (handleLineStringClick latlng
              (isDrawing (drawingState (store w))) w)).
Proof.
  intros HI Hmode. unfold handleLineStringClick, bind, gets, update, alert, ret.
  simpl. destruct HI as [Hs Hf].
  destruct (isDrawing (drawingState (store w))) eqn:Ed; simpl.
  - destruct (currentShapeRef w) as [layer|] eqn:Es; simpl.
    + destruct (instanceofPolyline layer); simpl; split; try exact Hf.
      * unfold sessionOk. simpl. intros _ l Hl. inversion Hl; subst.
        rewrite setLatLngs_kind. apply Hs; auto.
      * exact Hs.
    + split; [|exact Hf]. unfold sessionOk. simpl. rewrite Es. discriminate.
  - destruct (Z.leb _ _); simpl; split; try exact Hf.
    + unfold sessionOk. simpl. rewrite Ed. discriminate.
    + unfold sessionOk. simpl. intros _ l Hl. inversion Hl; subst.
      simpl. exact Hmode.
Qed.

Lemma finishPolygonOrLineString_Inv (ty : FeatureType) (fid : string) (w : World) :
  Inv w ->
  mode (drawingState (store w)) = Some ty ->
  isDrawing (drawingState (store w)) = true ->
  Inv (snd (finishPolygonOrLineString ty fid w)).
Proof.
  intros HI Hmode Hdr. unfold finishPolygonOrLineString.
  unfold bind at 1. unfold gets at 1.
  destruct (currentShapeRef w) as [layer|] eqn:Es; [|exact HI].
  unfold bind at 1. unfold gets at 1.
  destruct (_ && _); [exact HI|].
  destruct (_ && _); [exact HI|].
  assert (Hk : ty = layerKind layer).
  { destruct HI as [Hs _]. specialize (Hs Hdr layer Es). congruence. }
  rewrite Hk. apply finish_then_stop. exact HI.
Qed.

Lemma handleMapMouseMove_Inv (latlng : LatLng) (w : World) :
  Inv w -> Inv (snd (handleMapMouseMove latlng w)).
Proof.
  intros [Hs Hf]. unfold handleMapMouseMove, bind, gets, update, ret. simpl.
  destruct (mode (drawingState (store w))) as [m|] eqn:Em;
    [|split; assumption].
  destruct (isDrawing (drawingState (store w))) eqn:Ed; [|split; assumption].
  destruct (startPointRef w) as [sp|]; [|split; assumption].
  assert (Hkeep : forall l l', currentShapeRef w = Some l ->
            layerKind l' = layerKind l ->
            Inv (setCurrentShape (Some l') w)).
  { intros l l' Hl Hk. split; [|exact Hf].
    unfold sessionOk. simpl. intros _ l0 Hl0. inversion Hl0; subst.
    rewrite Hk. apply Hs; [exact Ed|exact Hl]. }
  destruct (currentShapeRef w) as [layer|] eqn:Es;
    [|destruct m; split; assumption].
  destruct m, layer; simpl; try (split; assumption);
    try match goal with
        | |- context [if ?b then _ else _] => destruct b; simpl
        end;
    try (split; assumption);
    (eapply Hkeep; [reflexivity|]); try reflexivity;
    destruct (polygonPointsRef w ++ [latlng]); reflexivity.
Qed.

Lemma afterStoreAction_Inv (f : MapStore -> MapStore) (w : World) :
  Inv w ->
  featuresOk (features (f (store w))) ->
  (isDrawing (drawingState (f (store w))) = isDrawing (drawingState (store w))
   \/ isDrawing (drawingState (f (store w))) = false) ->
  Inv (snd (afterStoreAction f w)).
Proof.
  intros [Hs Hf] Hf' Hd. unfold afterStoreAction, bind, gets, update, ret.
  simpl. destruct (mode_eqb _ _) eqn:E; simpl.
  - split; [|exact Hf'].
    apply mode_eqb_eq in E. unfold sessionOk. simpl. rewrite <- E.
    intros Hdr. apply Hs. destruct Hd as [Hd|Hd]; congruence.
  - split; [apply sessionOk_idle; reflexivity | exact Hf'].
Qed.

Lemma step_Inv (w : World) (ev : Event) : Inv w -> Inv (step w ev).
Proof.
  intros HI. unfold step. destruct ev as [m|latlng fid|fid|latlng|i| |t max];
    simpl.
  - apply afterStoreAction_Inv; [exact HI|exact (proj2 HI)|left; reflexivity].
  - unfold handleMapClick. unfold bind at 1 2. unfold gets at 1 2.
    destruct (mode (drawingState (store w))) as [[]|] eqn:Em; [| | | |exact HI].
    + apply handlePolygonClick_Inv; assumption.
    + apply handleRectangleClick_Inv; assumption.
    + apply handleCircleClick_Inv; assumption.
    + apply handleLineStringClick_Inv; assumption.
  - unfold handleMapDoubleClick. unfold bind at 1 2. unfold gets at 1 2.
    destruct (mode (drawingState (store w))) as [[]|] eqn:Em; try exact HI;
      destruct (isDrawing (drawingState (store w))) eqn:Ed; try exact HI;
      apply finishPolygonOrLineString_Inv; assumption.
  - apply handleMapMouseMove_Inv. exact HI.
  - apply afterStoreAction_Inv; [exact HI| |left; reflexivity].
    simpl. apply featuresOk_filter. exact (proj2 HI).
  - apply afterStoreAction_Inv; [exact HI| |right; reflexivity].
    simpl. apply featuresOk_nil.
  - apply afterStoreAction_Inv; [exact HI|exact (proj2 HI)|left; reflexivity].
Qed.

Lemma reachable_Inv (w : World) : reachable w -> Inv w.
Proof.
  induction 1 as [|w ev _ IH].
  - split; [apply sessionOk_idle; reflexivity | apply featuresOk_nil].
  - apply step_Inv. exact IH.
Qed.

End Step.

(** ** The invariants of the specification *)

Lemma reachable_run {L : Lib} (evs : list Event) :
  forall w, reachable w -> reachable (run evs w).
Proof.
  induction evs as [|ev evs IH]; intros w H; simpl; [exact H|].
  apply IH. apply reachable_step. exact H.
Qed.

(** A line string with two or more points is committed as drawn: no check
    is made and nothing is trimmed. *)
Lemma linestring_commits_unchecked
    {L : Lib} (w : World) (latlngs : list LatLng) (fid : string) :
  (2 <= List.length (polygonPointsRef w))%nat ->
  finishDrawing linestring (LPolyline latlngs) fid w
  = (Ok tt,
     committed fid linestring (LineString (toCoords (polygonPointsRef w))) w).
Proof.
  intros Hlen. unfold finishDrawing, layerGeometry, constrain, bind, gets,
    update, ret. simpl.
  destruct (_ <? 2)%nat eqn:E; [apply Nat.ltb_lt in E; lia|]. reflexivity.
Qed.

Section Unchecked.
Context {L : Lib}.

(** The run of finishDrawing that trims: no enclosure, a first overlap
    with [e], and a trim that returns [g]. *)
Lemma finishDrawing_trims
    (w : World) (ty : FeatureType) (layer : Layer) (fid : string)
    (geom g : Geometry) (pre : list Geometry) (e : Geometry)
    (post : list Geometry) :
  isPolygonType ty = true ->
  layerGeometry layer w = (Ok (Some geom), w) ->
  Forall (noEnclosure geom) (existingPolygonGeometries (features (store w))) ->
  existingPolygonGeometries (features (store w)) = pre ++ e :: post ->
  Forall (noOverlap geom) pre ->
  doPolygonsOverlap geom e = Ok true ->
  trimPolygonOverlap geom (existingPolygonGeometries (features (store w)))
  = Ok (Some g) ->
  finishDrawing ty layer fid w
  = (Ok tt,
     committed fid ty g
       (logged (enclosureCalls geom
                  (existingPolygonGeometries (features (store w)))
                ++ overlapCalls geom (pre ++ [e])
                ++ [CallTrim geom
                      (existingPolygonGeometries (features (store w)))])
          [] w)).
Proof.
  intros Hty Hlayer Hall Heq Hpre He Htrim.
  unfold finishDrawing, bind. rewrite Hlayer.
  unfold constrain, bind, gets. simpl. rewrite Hty.
  rewrite enclosureLoop_pass by assumption.
  assert (Hhit : forall w0,
            overlapLoop geom (existingPolygonGeometries (features (store w))) w0
            = (Ok true, logged (overlapCalls geom (pre ++ [e])) [] w0)).
  { intros w0. rewrite Heq. apply overlapLoop_hit; assumption. }
  rewrite Hhit.
  unfold callTrim, bind, update, liftRes, ret. simpl.
  rewrite Htrim. simpl.
  rewrite pushCall_logged, !logged_logged.
  simpl. rewrite <- ?app_assoc. reflexivity.
Qed.

(** C1, the defect.  finishDrawing commits the geometry the trim returns
    as it is: every check it makes is on the geometry as drawn, none on the
    trimmed one.  So whenever the trimmed geometry still overlaps a
    committed polygon-type feature (the difference of the library is
    computed in finite precision), the store ends with two polygon-type
    features that overlap, and no alert is shown. *)
Theorem trimmed_geometry_is_not_rechecked
    (w : World) (ty : FeatureType) (layer : Layer) (fid : string)
    (geom g : Geometry) (pre : list Geometry) (e : Geometry)
    (post : list Geometry) (f : Feature) :
  isPolygonType ty = true ->
  layerGeometry layer w = (Ok (Some geom), w) ->
  Forall (noEnclosure geom) (existingPolygonGeometries (features (store w))) ->
  existingPolygonGeometries (features (store w)) = pre ++ e :: post ->
  Forall (noOverlap geom) pre ->
  doPolygonsOverlap geom e = Ok true ->
  trimPolygonOverlap geom (existingPolygonGeometries (features (store w)))
  = Ok (Some g) ->
  In f (features (store w)) ->
  isPolygonType (type f) = true ->
  doPolygonsOverlap g (geometry f) = Ok true ->
  let w' := snd (finishDrawing ty layer fid w) in
  features (store w') = features (store w) ++ [newFeature fid ty g] /\
  alerts w' = alerts w /\
  calls w'
  = calls w
    ++ enclosureCalls geom (existingPolygonGeometries (features (store w)))
    ++ overlapCalls geom (pre ++ [e])
    ++ [CallTrim geom (existingPolygonGeometries (features (store w)))] /\
  exists f1 f2,
    In f1 (features (store w')) /\ In f2 (features (store w')) /\
    id f2 = fid /\ In f1 (features (store w)) /\
    isPolygonType (type f1) = true /\ isPolygonType (type f2) = true /\
    doPolygonsOverlap (geometry f2) (geometry f1) = Ok true.
Proof.
  intros Hty Hlayer Hall Heq Hpre He Htrim Hin Hf Hov.
  rewrite (finishDrawing_trims w ty layer fid geom g pre e post)
    by assumption.
  simpl. split; [reflexivity|]. split; [apply app_nil_r|].
  split; [reflexivity|].
  exists f, (newFeature fid ty g). simpl.
  split; [apply in_or_app; left; exact Hin|].
  split; [apply in_or_app; right; left; reflexivity|].
  repeat split; assumption.
Qed.

End Unchecked.

Lemma ringOkb_closed (r : Ring) :
  ringOkb r = true ->
  (4 <= List.length r)%nat /\
  exists p, hd_error r = Some p /\ pos_eqb (last r p) p = true.
Proof.
  unfold ringOkb, ringClosedb. intros H. apply andb_prop in H.
  destruct H as [Hlen Hcl]. apply Nat.leb_le in Hlen. split; [exact Hlen|].
  destruct r as [|p r]; [discriminate|]. exists p. auto.
Qed.

(** C8, as the code has it.  When [turf.polygon] makes its two checks and
    the polygons the library builds pass them, in every reachable state
    each polygon-type feature stores a polygon all of whose rings are
    closed (first position equal to the last) and have four or more
    positions, and each line string stores two or more positions. *)
Theorem committed_geometry_shape
    {L : Lib} {HS : LibShape L} (w : World) (f : Feature) :
  reachable w ->
  In f (features (store w)) ->
  (isPolygonType (type f) = true ->
     exists c, geometry f = Polygon c /\
       forall ring, In ring c ->
         (4 <= List.length ring)%nat /\
         exists p, hd_error ring = Some p /\ pos_eqb (last ring p) p = true) /\
  (type f = linestring ->
     exists c, geometry f = LineString c /\ (2 <= List.length c)%nat).
Proof.
  intros Hr Hin. destruct (reachable_Inv w Hr) as [_ Hok].
  unfold featuresOk in Hok.
  rewrite Forall_forall in Hok. specialize (Hok f Hin).
  unfold featureOk, geometryOk in Hok. split.
  - intros Hty. rewrite Hty in Hok. destruct Hok as (c & Hg & Hwf).
    exists c. split; [exact Hg|]. intros ring Hring.
    apply ringOkb_closed. unfold wellFormedb in Hwf.
    rewrite forallb_forall in Hwf. auto.
  - intros Hty. rewrite Hty in Hok. exact Hok.
Qed.

Lemma existing_app (l1 l2 : list Feature) :
  existingPolygonGeometries (l1 ++ l2)
  = existingPolygonGeometries l1 ++ existingPolygonGeometries l2.
Proof.
  unfold existingPolygonGeometries. rewrite filter_app, map_app. reflexivity.
Qed.

Section Coincident.
Context {L : Lib}.

(** A prefix of existing geometries none of which the candidate encloses:
    the loop stops at the first that encloses the candidate, at the latest
    at [e]. *)
Lemma enclosureLoop_first_enclosed (geom : Geometry) (pre : list Geometry) :
  forall e post w,
    Forall (fun x => (exists b, doesPolygonEnclose x geom = Ok b) /\
                     doesPolygonEnclose geom x = Ok false) pre ->
    doesPolygonEnclose e geom = Ok true ->
    exists cs,
      enclosureLoop geom (pre ++ e :: post) w
      = (Ok true, logged cs [msgEnclosed] w) /\
      Forall isEncloseCall cs.
Proof.
  induction pre as [|x pre IH]; intros e post w Hpre He.
  - exists [CallEnclose e geom]. split; [|repeat constructor].
    exact (enclosureLoop_enclosed geom [] e post w (Forall_nil _) He).
  - inversion Hpre as [|? ? [[b Hb] Hx] Hrest]; subst. destruct b.
    + exists [CallEnclose x geom]. split; [|repeat constructor].
      exact (enclosureLoop_enclosed geom [] x (pre ++ e :: post) w
               (Forall_nil _) Hb).
    + destruct (IH e post
                  (pushCall (CallEnclose geom x) (pushCall (CallEnclose x geom) w))
                  Hrest He) as (cs & Hrun & Hcs).
      exists (CallEnclose x geom :: CallEnclose geom x :: cs).
      split; [|repeat constructor; assumption].
      simpl. unfold bind, callEnclose, bind, update, liftRes. simpl.
      rewrite Hb. simpl. rewrite Hx. simpl. rewrite Hrun.
      rewrite !logged_pushCall. reflexivity.
Qed.

(** X23.  A polygon-type candidate that an existing polygon-type geometry
    [e] encloses, and that encloses none of the geometries before [e] in the
    collection, is rejected with the "would be enclosed" alert: also when it
    encloses [e] in turn (the two coincide), since for each geometry the
    check existing-encloses-candidate comes first.  The store and the refs
    stay as they were, and the only calls made are enclosure checks: no
    overlap check, no trim. *)
Theorem enclosed_candidate_rejected
    (w : World) (ty : FeatureType) (layer : Layer) (fid : string)
    (geom : Geometry) (pre : list Geometry) (e : Geometry)
    (post : list Geometry) :
  isPolygonType ty = true ->
  layerGeometry layer w = (Ok (Some geom), w) ->
  existingPolygonGeometries (features (store w)) = pre ++ e :: post ->
  Forall (fun x => (exists b, doesPolygonEnclose x geom = Ok b) /\
                   doesPolygonEnclose geom x = Ok false) pre ->
  doesPolygonEnclose e geom = Ok true ->
  exists cs,
    finishDrawing ty layer fid w = (Ok tt, logged cs [msgEnclosed] w) /\
    Forall isEncloseCall cs.
Proof.
  intros Hty Hlayer Hsplit Hpre He.
  destruct (enclosureLoop_first_enclosed geom pre e post w Hpre He)
    as (cs & Hrun & Hcs).
  exists cs. split; [|exact Hcs].
  unfold finishDrawing, bind. rewrite Hlayer.
  unfold constrain, bind, gets. simpl. rewrite Hty, Hsplit, Hrun.
  reflexivity.
Qed.

End Coincident.

(* ================================================================== *)
(** * The reference implementation meets the shape contract *)

Module StripFacts.
Import Strip.

Ltac abstract_minmax :=
  repeat match goal with
  | |- context [Qmin ?a ?b] =>
      pose proof (Q.min_spec a b); generalize dependent (Qmin a b); intros
  | |- context [Qmax ?a ?b] =>
      pose proof (Q.max_spec a b); generalize dependent (Qmax a b); intros
  | H : context [Qmin ?a ?b] |- _ =>
      pose proof (Q.min_spec a b); generalize dependent (Qmin a b); intros
  | H : context [Qmax ?a ?b] |- _ =>
      pose proof (Q.max_spec a b); generalize dependent (Qmax a b); intros
  end.

Ltac qsolve :=
  abstract_minmax;
  repeat match goal with
         | H : _ \/ _ |- _ => destruct H
         | H : _ /\ _ |- _ => destruct H
         end;
  first [lra | left; lra | right; lra].

Lemma ringError_ok (r : Ring) : ringError r = None <-> ringOkb r = true.
Proof.
  unfold ringError, ringOkb.
  destruct (List.length r <? 4)%nat eqn:E.
  - apply Nat.ltb_lt in E.
    assert ((4 <=? List.length r)%nat = false) as -> by (apply Nat.leb_gt; lia).
    simpl. split; discriminate.
  - apply Nat.ltb_ge in E.
    assert ((4 <=? List.length r)%nat = true) as -> by (apply Nat.leb_le; lia).
    simpl. destruct (ringClosedb r); split; congruence.
Qed.

Lemma firstError_ok (c : PolygonCoords) :
  firstError c = None <-> wellFormedb c = true.
Proof.
  induction c as [|r c IH]; simpl; [tauto|].
  destruct (ringError r) eqn:E.
  - assert (ringOkb r = false) as ->.
    { destruct (ringOkb r) eqn:E'; [|reflexivity].
      apply ringError_ok in E'. congruence. }
    simpl. split; discriminate.
  - apply ringError_ok in E. rewrite E. simpl. exact IH.
Qed.

Lemma asStrip_le (p : PolyFeature) (w e : Q) :
  asStrip p = Some (w, e) -> w <= e.
Proof.
  unfold asStrip. intros H.
  repeat match type of H with
         | context [match ?x with _ => _ end] =>
             destruct x eqn:?; try discriminate
         end.
  inversion H; subst.
  match goal with
  | E : (_ && _) = true |- _ =>
      rewrite !andb_true_iff in E; apply Qle_bool_iff; tauto
  end.
Qed.

Lemma ringOf_wf (w e : Q) : wellFormedb (ringOf w e) = true.
Proof. apply rectangle_ring_ok. Qed.

(** The parts of a difference: strips of positive width inside [a], to the
    west or to the east of [b]. *)
Lemma difference_parts (a b : PolyFeature) (d : AreaFeature) (c : PolygonCoords) :
  difference a b = Ok (Some d) -> In c (partsOf d) ->
  exists wa ea wb eb wp ep,
    asStrip a = Some (wa, ea) /\ asStrip b = Some (wb, eb) /\
    c = ringOf wp ep /\ wp < ep /\ wa <= wp /\ ep <= ea /\
    (ep <= wb \/ eb <= wp).
Proof.
  unfold difference.
  destruct (asStrip a) as [[wa ea]|] eqn:Ea; try discriminate.
  destruct (asStrip b) as [[wb eb]|] eqn:Eb; try discriminate.
  pose proof (asStrip_le _ _ _ Ea) as Hle.
  destruct (Qltb wa (Qmin ea wb)) eqn:E1;
    destruct (Qltb (Qmax wa eb) ea) eqn:E2;
    intros H; inversion H; subst; simpl;
    try apply Qltb_lt in E1; try apply Qltb_lt in E2;
    intros Hin.
  - destruct Hin as [<-|[<-|[]]].
    + exists wa, ea, wb, eb, wa, (Qmin ea wb).
      repeat split; auto; qsolve.
    + exists wa, ea, wb, eb, (Qmax wa eb), ea.
      repeat split; auto; qsolve.
  - destruct Hin as [<-|[]].
    exists wa, ea, wb, eb, wa, (Qmin ea wb). repeat split; auto; qsolve.
  - destruct Hin as [<-|[]].
    exists wa, ea, wb, eb, (Qmax wa eb), ea. repeat split; auto; qsolve.
Qed.

#[export] Instance shape : LibShape Strip.lib.
Proof.
  constructor; simpl.
  - intros c H. unfold polygon. apply firstError_ok in H. rewrite H. reflexivity.
  - intros c H. unfold polygon. destruct (firstError c) as [m|] eqn:E; eauto.
    apply firstError_ok in E. congruence.
  - intros a b c H.
    destruct (difference_parts a b _ c H (or_introl eq_refl))
      as (wa & ea & wb & eb & wp & ep & _ & _ & -> & _).
    apply ringOf_wf.
  - intros [x y] r p H. unfold circle4 in H. inversion H; subst. simpl.
    unfold wellFormedb, ringOkb, ringClosedb. simpl.
    rewrite pos_eqb_refl. reflexivity.
Qed.

End StripFacts.

(* ================================================================== *)
(** * The theorems at work on the reference implementation *)

Lemma mode_change_discards_session_witness :
  let w := Scenario.drawing in
  let w' := @step Strip.lib w (EvSetDrawingMode None) in
  isDrawing (drawingState (store w)) = true /\
  currentShapeRef w' = None /\
  startPointRef w' = None /\
  polygonPointsRef w' = [] /\
  isDrawing (drawingState (store w')) = false /\
  mode (drawingState (store w')) = None /\
  features (store w') = features (store w) /\
  maxShapes (store w') = maxShapes (store w).
Proof.
  split; [reflexivity|].
  apply (@mode_change_discards_session Strip.lib Scenario.drawing None).
  vm_compute. discriminate.
Defined.

Lemma capacity_gate_witness :
  let w := Scenario.crowded in
  let w' := @step Strip.lib w (EvClick (Strip.ll 5 0) "p1") in
  map type (features (store w)) = [rectangle] /\
  mode (drawingState (store w)) = Some polygon /\
  maxShapes (store w) polygon = 1%Z /\
  store w' = store w /\
  currentShapeRef w' = currentShapeRef w /\
  startPointRef w' = startPointRef w /\
  polygonPointsRef w' = polygonPointsRef w /\
  exists msg, alerts w' = alerts w ++ [msg].
Proof.
  split; [vm_compute; reflexivity|]. split; [reflexivity|].
  split; [reflexivity|].
  apply (proj1 (@capacity_gate Strip.lib Scenario.crowded polygon
                  (Strip.ll 5 0) "p1" eq_refl eq_refl)).
  vm_compute. discriminate.
Defined.

Lemma multipart_keeps_first_largest_witness :
  exists before largest after,
    [mkPoly (Strip.ringOf 0 1); mkPoly (Strip.ringOf 2 5)]
    = before ++ largest :: after /\
    (forall p, In p before -> Strip.areaOr0 p < Strip.areaOr0 largest) /\
    (forall p, In p after -> Strip.areaOr0 p <= Strip.areaOr0 largest) /\
    @trimLoop Strip.lib (mkPoly (Strip.ringOf 0 5)) [Polygon (Strip.ringOf 1 2)]
    = @trimLoop Strip.lib largest [] /\
    @trimLoop Strip.lib (mkPoly (Strip.ringOf 0 5)) [Polygon (Strip.ringOf 1 2)]
    = Ok (Some largest).
Proof.
  apply (@multipart_keeps_first_largest Strip.lib Strip.areaOr0
           (mkPoly (Strip.ringOf 0 5)) (Polygon (Strip.ringOf 1 2)) []
           (mkPoly (Strip.ringOf 1 2))
           (FPolygon (Strip.ringOf 1 2))
           [Strip.ringOf 0 1; Strip.ringOf 2 5]);
    try (vm_compute; reflexivity).
  - discriminate.
  - intros p [<-|[<-|[]]]; vm_compute; reflexivity.
Defined.

Lemma trim_nothing_validates_witness :
  @trimPolygonOverlap Strip.lib (Polygon (Strip.ringOf 0 1)) []
  = Ok (Some (Polygon (Strip.ringOf 0 1))).
Proof.
  apply (@trim_nothing_validates Strip.lib (Strip.ringOf 0 1)
           (mkPoly (Strip.ringOf 0 1)) 1); reflexivity.
Defined.


(** C5 as stated fails: the two parts of this difference have the same
    planar area, one square degree each, and the loop goes on with the
    second, the one nearer to the equator, whose area on the sphere is the
    larger. *)
Lemma equal_planar_parts_second_kept :
  let cur := mkPoly (Band.ringOf (-4) (-1)) in
  let e := Band.ringOf (-3) (-2) in
  let south := Band.ringOf (-4) (-3) in
  let north := Band.ringOf (-2) (-1) in
  @turf_difference Band.lib cur (mkPoly e)
  = Ok (Some (FMultiPolygon [south; north])) /\
  planarArea south == planarArea north /\
  @trimLoop Band.lib cur [Polygon e] = Ok (Some (mkPoly north)) /\
  @trimLoop Band.lib cur [Polygon e] <> Ok (Some (mkPoly south)) /\
  @trimPolygonOverlap Band.lib (Polygon (Band.ringOf (-4) (-1))) [Polygon e]
  = Ok (Some (Polygon north)).
Proof.
  split; [vm_compute; reflexivity|].
  split; [vm_compute; reflexivity|].
  split; [vm_compute; reflexivity|].
  split; [vm_compute; discriminate|].
  vm_compute. reflexivity.
Qed.

Lemma trimmed_geometry_is_not_rechecked_witness :
  let w := RoundedScenario.secondDrawing in
  let first := Polygon (Strip.ringOf 0 (5 # 3)) in
  let trimmed := Polygon (Strip.ringOf (16 # 10) (30 # 10)) in
  let w' :=
    snd (@finishDrawing Coarse.lib rectangle RoundedScenario.secondLayer
           "f2" w) in
  @reachable Coarse.lib w /\
  currentShapeRef w = Some RoundedScenario.secondLayer /\
  features (store (@step Coarse.lib w (EvClick (Strip.ll 3 1) "f2")))
  = features (store w') /\
  map geometry (features (store w')) = [first; trimmed] /\
  alerts w' = alerts w /\
  @doPolygonsOverlap Coarse.lib trimmed first = Ok true /\
  @doPolygonsOverlap Coarse.lib first trimmed = Ok true.
Proof.
  destruct (@trimmed_geometry_is_not_rechecked Coarse.lib
              RoundedScenario.secondDrawing rectangle
              RoundedScenario.secondLayer "f2"
              (Polygon (Strip.ringOf 1 3))
              (Polygon (Strip.ringOf (16 # 10) (30 # 10)))
              [] (Polygon (Strip.ringOf 0 (5 # 3))) []
              (newFeature "f1" rectangle (Polygon (Strip.ringOf 0 (5 # 3)))))
    as (Hfs & Hal & _).
  - reflexivity.
  - reflexivity.
  - constructor; [split; reflexivity|constructor].
  - reflexivity.
  - constructor.
  - reflexivity.
  - vm_compute. reflexivity.
  - left. reflexivity.
  - reflexivity.
  - reflexivity.
  - split; [do 2 apply reachable_run; apply reachable_init|].
    split; [reflexivity|].
    split; [vm_compute; reflexivity|].
    split; [rewrite Hfs; vm_compute; reflexivity|].
    split; [exact Hal|].
    split; reflexivity.
Defined.

Lemma committed_geometry_shape_witness :
  let w := Scenario.twoCommitted in
  let f := newFeature "f2" rectangle (Polygon (Strip.ringOf 2 3)) in
  In f (features (store w)) /\
  exists c, geometry f = Polygon c /\
    forall ring, In ring c ->
      (4 <= List.length ring)%nat /\
      exists p, hd_error ring = Some p /\ pos_eqb (last ring p) p = true.
Proof.
  assert (Hin : In (newFeature "f2" rectangle (Polygon (Strip.ringOf 2 3)))
                  (features (store Scenario.twoCommitted))).
  { right. left. reflexivity. }
  split; [exact Hin|].
  apply (proj1 (@committed_geometry_shape Strip.lib StripFacts.shape
                  Scenario.twoCommitted
                  (newFeature "f2" rectangle (Polygon (Strip.ringOf 2 3)))
                  (reachable_run Strip.twoRectangles initialWorld
                     reachable_init)
                  Hin)).
  reflexivity.
Defined.

(** C8 as stated fails: after a click and a double click with the polygon
    tool the store holds a polygon whose closed ring has two distinct
    vertices only. *)
Lemma two_vertex_polygon_committed :
  let w := Scenario.sliver in
  @reachable Strip.lib w /\
  map type (features (store w)) = [polygon] /\
  map geometry (features (store w))
  = [Polygon [[ (0, 0); (1, 0); (1, 0); (0, 0) ]]] /\
  ~ threeDistinct [ (0, 0); (1, 0); (1, 0); (0, 0) ].
Proof.
  split; [apply reachable_run; apply reachable_init|].
  split; [reflexivity|]. split; [reflexivity|].
  intros (a & b & c & Ha & Hb & Hc & H1 & H2 & H3).
  simpl in Ha, Hb, Hc.
  repeat match goal with
         | H : _ \/ _ |- _ => destruct H
         | H : False |- _ => destruct H
         end; subst; vm_compute in H1, H2, H3; discriminate.
Qed.

(* ================================================================== *)
(** * Further properties of the constraint engine *)

Section EngineFacts.
Context {L : Lib}.

Lemma geometryToPolygon_non_polygon (g : Geometry) :
  isPolygonGeometry g = false -> geometryToPolygon g = Ok None.
Proof. destruct g; simpl; intros H; congruence. Qed.

(** X1.  A geometry that is not a polygon overlaps nothing and encloses
    nothing, in either position, as long as the other geometry converts; and
    as a candidate it is trimmed to none, whatever the existing geometries. *)
Theorem non_polygon_is_inert (g other : Geometry) (p : option PolyFeature) :
  isPolygonGeometry g = false ->
  geometryToPolygon other = Ok p ->
  doPolygonsOverlap g other = Ok false /\
  doPolygonsOverlap other g = Ok false /\
  doesPolygonEnclose g other = Ok false /\
  doesPolygonEnclose other g = Ok false /\
  forall existing, trimPolygonOverlap g existing = Ok None.
Proof.
  intros Hg Ho. apply geometryToPolygon_non_polygon in Hg.
  unfold doPolygonsOverlap, doesPolygonEnclose, trimPolygonOverlap.
  rewrite Hg, Ho. simpl. destruct p; repeat split; reflexivity.
Qed.

Lemma trimLoop_skips_non_polygons (existing : list Geometry) :
  forall cur,
    trimLoop cur (filter isPolygonGeometry existing) = trimLoop cur existing.
Proof.
  induction existing as [|x rest IH]; intros cur; [reflexivity|].
  simpl. destruct (isPolygonGeometry x) eqn:Ex.
  - simpl.
    destruct (geometryToPolygon x) as [[ePoly|]|m]; simpl; auto.
    destruct (turf_intersect cur ePoly) as [[i|]|m]; simpl; auto.
    destruct (turf_difference cur ePoly) as [[[c|parts]|]|m]; simpl; auto.
    destruct (mapRes turf_polygon parts) as [polygons|m]; simpl; auto.
    destruct (largestPolygon polygons) as [largest|m]; simpl; auto.
  - rewrite (geometryToPolygon_non_polygon x Ex). simpl. apply IH.
Qed.

(** X2.  The existing geometries that are not polygons play no role in a
    trim: dropping them from the list gives the same result. *)
Theorem trim_skips_non_polygons (g : Geometry) (existing : list Geometry) :
  trimPolygonOverlap g (filter isPolygonGeometry existing)
  = trimPolygonOverlap g existing.
Proof.
  unfold trimPolygonOverlap, trimBody.
  destruct (geometryToPolygon g) as [[cur|]|m]; simpl; try reflexivity.
  rewrite trimLoop_skips_non_polygons. reflexivity.
Qed.

(** X3.  When no existing geometry touches the candidate, the trim returns
    the candidate's own geometry if its area is at least 0.0001, and none
    otherwise. *)
Theorem trim_without_contact
    (g : Geometry) (existing : list Geometry) (cand : PolyFeature) (a : Q) :
  geometryToPolygon g = Ok (Some cand) ->
  Forall (untouchedBy cand) existing ->
  turf_area cand = Ok a ->
  trimPolygonOverlap g existing
  = Ok (if Qltb a MIN_AREA then None else Some (geometryOf cand)).
Proof.
  intros Hg Hall Ha. unfold trimPolygonOverlap, trimBody. rewrite Hg. simpl.
  rewrite <- (app_nil_r existing).
  rewrite (trimLoop_untouched cand existing [] Hall). simpl.
  rewrite Ha. simpl. destruct (Qltb a MIN_AREA); reflexivity.
Qed.

(** X4.  Once both geometries convert, an exception of the library is
    answered by [false]: a failing intersection means no overlap, a failing
    containment test means no enclosure; and a trim of a converted candidate
    always returns, with a geometry or with none. *)
Theorem library_failures_fail_open
    (g1 g2 : Geometry) (p1 p2 : PolyFeature) :
  geometryToPolygon g1 = Ok (Some p1) ->
  geometryToPolygon g2 = Ok (Some p2) ->
  (forall m, turf_intersect p1 p2 = Throw m ->
             doPolygonsOverlap g1 g2 = Ok false) /\
  (forall m, turf_booleanContains p1 p2 = Throw m ->
             doesPolygonEnclose g1 g2 = Ok false) /\
  (forall existing, exists r, trimPolygonOverlap g1 existing = Ok r).
Proof.
  intros H1 H2. unfold doPolygonsOverlap, doesPolygonEnclose.
  rewrite H1, H2. simpl. repeat split.
  - intros m Hm. rewrite Hm. reflexivity.
  - intros m Hm. rewrite Hm. reflexivity.
  - intros existing. eapply trimPolygonOverlap_catches. exact H1.
Qed.

End EngineFacts.

Section EngineShape.
Context {L : Lib} {HS : LibShape L}.

(** X5.  When [turf.polygon] makes its two checks and a single-part
    difference passes them, a geometry returned by the trim is a polygon
    all of whose rings are closed and have four or more positions, and the
    library converts it again without an exception; its area, as the
    library measures it, is at least 0.0001. *)
Theorem trim_result_is_well_formed
    (geom : Geometry) (existing : list Geometry) (g : Geometry) :
  trimPolygonOverlap geom existing = Ok (Some g) ->
  exists c,
    g = Polygon c /\
    (forall ring, In ring c ->
       (4 <= List.length ring)%nat /\
       exists p, hd_error ring = Some p /\ pos_eqb (last ring p) p = true) /\
    geometryToPolygon g = Ok (Some (mkPoly c)) /\
    exists a, turf_area (mkPoly c) = Ok a /\ MIN_AREA <= a.
Proof.
  intros H. destruct (trimmed_wf geom existing g H) as (c & Hg & Hwf).
  exists c. split; [exact Hg|]. split.
  - intros ring Hring. apply ringOkb_closed. unfold wellFormedb in Hwf.
    rewrite forallb_forall in Hwf. auto.
  - split; [rewrite Hg; apply geometryToPolygon_wf; exact Hwf|].
    destruct (trimPolygonOverlap_some _ _ _ H)
      as (cur & p & a & _ & _ & Ha & Hle & Hgp).
    rewrite Hg in Hgp. unfold geometryOf in Hgp. inversion Hgp; subst.
    rewrite mkPoly_eta. eauto.
Qed.

End EngineShape.

(* ================================================================== *)
(** * Further properties of the store *)

Lemma filter_none {A : Type} (f : A -> bool) (l : list A) :
  (forall x, In x l -> f x = true) -> filter f l = l.
Proof.
  induction l as [|x l IH]; simpl; intros H; [reflexivity|].
  rewrite (H x (or_introl eq_refl)). f_equal. apply IH. auto.
Qed.

(** X6.  Removing by id undoes the addition of a feature whose id no
    feature of the store has; and removing an id twice is removing it once,
    whatever the store holds. *)
Theorem remove_undoes_add (f : Feature) (s : MapStore) (i : string) :
  ((forall f', In f' (features s) -> id f' <> id f) ->
   removeFeature (id f) (addFeature f s) = s) /\
  removeFeature i (removeFeature i s) = removeFeature i s.
Proof.
  destruct s as [fs ds ms]. unfold removeFeature, addFeature. simpl. split.
  - intros Hfresh. f_equal.
    rewrite filter_app. simpl. rewrite String.eqb_refl. simpl.
    rewrite app_nil_r. apply filter_none. intros x Hx.
    apply negb_true_iff. apply String.eqb_neq. auto.
  - f_equal. apply filter_none. intros x Hx. apply filter_In in Hx. tauto.
Qed.

Lemma countType_filter_le (t : FeatureType) (p : Feature -> bool) (fs : list Feature) :
  (countType t (filter p fs) <= countType t fs)%nat.
Proof.
  unfold countType. induction fs as [|x l IH]; simpl; [lia|].
  destruct (p x); simpl; destruct (FeatureType_eqb (type x) t); simpl; lia.
Qed.

Lemma countType_snoc (t : FeatureType) (fs : list Feature) (f : Feature) :
  countType t (fs ++ [f])
  = (countType t fs + (if FeatureType_eqb (type f) t then 1 else 0))%nat.
Proof.
  unfold countType. rewrite filter_app, length_app. simpl.
  destruct (FeatureType_eqb (type f) t); reflexivity.
Qed.

Lemma countType_polygon_le (fs : list Feature) :
  (countType polygon fs <= countPolygonType fs)%nat.
Proof.
  unfold countType, countPolygonType.
  induction fs as [|x l IH]; simpl; [lia|].
  destruct (type x); simpl; lia.
Qed.

(* ================================================================== *)
(** * Further properties of the drawing sessions *)

Section Outcomes.
Context {L : Lib}.

(** finishDrawing ends in one of three ways: a feature is committed and the
    refs are cleared, without alert; or one alert is shown; or an exception
    escapes.  In the last two nothing but the logs changes. *)
Lemma finishDrawing_outcomes
    (ty : FeatureType) (layer : Layer) (fid : string) (w : World) :
  (exists g cs,
      finishDrawing ty layer fid w
      = (Ok tt, committed fid ty g (logged cs [] w))) \/
  (exists cs msg,
      finishDrawing ty layer fid w = (Ok tt, logged cs [msg] w)) \/
  (exists cs m,
      finishDrawing ty layer fid w = (Throw m, logged cs [] w)).
Proof.
  unfold finishDrawing, bind.
  destruct (layerGeometry_run layer w) as [[geom Hl]|[[m Hl]|[m Hl]]];
    rewrite Hl.
  - destruct (constrain_run ty geom w)
      as (r & cs1 & cs2 & als & tail & Hrun & Hlin & Hpoly).
    rewrite Hrun.
    destruct (isPolygonType ty) eqn:Ety.
    + destruct (Hpoly eq_refl) as (_ & _ & _ & Hsome & Hnone & Hthrow).
      destruct r as [[g|]|m].
      * left. exists g, (cs1 ++ cs2).
        destruct (Hsome g eq_refl) as (-> & _). reflexivity.
      * right. left. unfold ret.
        destruct (Hnone eq_refl) as [Ha|[Ha|Ha]]; rewrite Ha; eauto.
      * right. right. rewrite (Hthrow m eq_refl). eauto.
    + destruct (Hlin eq_refl) as (-> & -> & -> & ->).
      left. exists geom, []. reflexivity.
  - right. left. unfold ret. eauto.
  - right. right. exists [], m. rewrite logged_nil. reflexivity.
Qed.

(** A property of the three possible worlds after
    [finishDrawing(...); setIsDrawing(false)]. *)
Lemma finish_then_stop_cases
    (P : World -> Prop) (ty : FeatureType) (layer : Layer) (fid : string)
    (w : World) :
  (forall g cs,
      P (withStore (setIsDrawing false) (committed fid ty g (logged cs [] w)))) ->
  (forall cs msg, P (withStore (setIsDrawing false) (logged cs [msg] w))) ->
  (forall cs, P (logged cs [] w)) ->
  P (snd (bind (finishDrawing ty layer fid)
            (fun _ => update (withStore (setIsDrawing false))) w)).
Proof.
  intros Hc Hr Ht. unfold bind.
  destruct (finishDrawing_outcomes ty layer fid w)
    as [(g & cs & H)|[(cs & msg & H)|(cs & m & H)]]; rewrite H; simpl; auto.
Qed.

End Outcomes.

Lemma Tidy_logged (cs : list Call) (als : list string) (w : World) :
  Tidy w -> Tidy (logged cs als w).
Proof. intros H. exact H. Qed.

Lemma withinLimits_logged (cs : list Call) (als : list string) (w : World) :
  withinLimits w -> withinLimits (logged cs als w).
Proof. intros H. exact H. Qed.

Lemma plain_newFeature (fid : string) (ty : FeatureType) (g : Geometry) :
  plainProperties (newFeature fid ty g).
Proof. reflexivity. Qed.

Lemma Tidy_stopped_commit
    (fid : string) (ty : FeatureType) (g : Geometry) (w : World) :
  Tidy w -> mode (drawingState (store w)) <> None ->
  Tidy (withStore (setIsDrawing false) (committed fid ty g w)).
Proof.
  unfold Tidy, pointTool, areaTool. simpl.
  intros (H1 & H2 & H3 & H4 & H5 & H6) Hm.
  repeat split; try discriminate; try tauto.
  apply Forall_app. split; [exact H6|].
  constructor; [apply plain_newFeature | constructor].
Qed.

Lemma Tidy_stopped (w : World) :
  Tidy w -> mode (drawingState (store w)) <> None ->
  Tidy (withStore (setIsDrawing false) w).
Proof.
  unfold Tidy, pointTool, areaTool. simpl.
  intros (H1 & H2 & H3 & H4 & H5 & H6) Hm.
  repeat split; try discriminate; try tauto.
Qed.

Ltac tidy :=
  unfold Tidy, pointTool, areaTool in *; simpl in *;
  repeat match goal with H : _ /\ _ |- _ => destruct H end;
  repeat split; intros;
  try congruence; try (intuition congruence); eauto.

Section TidyStep.
Context {L : Lib}.

Lemma finish_then_stop_Tidy
    (ty : FeatureType) (layer : Layer) (fid : string) (w : World) :
  Tidy w -> mode (drawingState (store w)) <> None ->
  Tidy (snd (bind (finishDrawing ty layer fid)
               (fun _ => update (withStore (setIsDrawing false))) w)).
Proof.
  intros HT Hm. apply finish_then_stop_cases.
  - intros g cs. apply Tidy_stopped_commit; [apply Tidy_logged|]; assumption.
  - intros cs msg. apply Tidy_stopped; [apply Tidy_logged|]; assumption.
  - intros cs. apply Tidy_logged. assumption.
Qed.

Lemma handleCircleClick_Tidy (latlng : LatLng) (fid : string) (w : World) :
  Tidy w -> mode (drawingState (store w)) = Some circle ->
  Tidy (snd (handleCircleClick latlng (isDrawing (drawingState (store w))) fid w)).
Proof.
  intros HT Hmode. unfold handleCircleClick.
  unfold bind at 1 2. unfold gets at 1 2. simpl.
  assert (Hm : mode (drawingState (store w)) <> None) by congruence.
  destruct (isDrawing (drawingState (store w))) eqn:Ed.
  - unfold bind at 1. unfold gets at 1.
    destruct (currentShapeRef w) as [layer|] eqn:Es.
    + destruct (instanceofCircle layer).
      * apply finish_then_stop_Tidy; assumption.
      * apply Tidy_stopped; assumption.
    + apply Tidy_stopped; assumption.
  - destruct (Z.leb _ _); [exact HT|].
    unfold bind, update. simpl. tidy.
    all: try (eexists; split; [reflexivity|]; simpl; assumption).
Qed.

Lemma handleRectangleClick_Tidy (latlng : LatLng) (fid : string) (w : World) :
  Tidy w -> mode (drawingState (store w)) = Some rectangle ->
  Tidy (snd (handleRectangleClick latlng (isDrawing (drawingState (store w)))
               fid w)).
Proof.
  intros HT Hmode. unfold handleRectangleClick.
  unfold bind at 1 2. unfold gets at 1 2. simpl.
  assert (Hm : mode (drawingState (store w)) <> None) by congruence.
  destruct (isDrawing (drawingState (store w))) eqn:Ed.
  - unfold bind at 1. unfold gets at 1.
    destruct (currentShapeRef w) as [layer|] eqn:Es.
    + destruct (instanceofRectangle layer).
      * apply finish_then_stop_Tidy; assumption.
      * apply Tidy_stopped; assumption.
    + apply Tidy_stopped; assumption.
  - destruct (Z.leb _ _); [exact HT|].
    unfold bind, update. simpl. tidy.
    all: try (eexists; split; [reflexivity|]; simpl; assumption).
Qed.

Lemma app_not_nil {A : Type} (l : list A) (x : A) : l ++ [x] <> [].
Proof. destruct l; discriminate. Qed.

Lemma handlePolygonClick_Tidy (latlng : LatLng) (w : World) :
  Tidy w -> mode (drawingState (store w)) = Some polygon ->
  Tidy (snd (handlePolygonClick latlng (isDrawing (drawingState (store w))) w)).
Proof.
  intros HT Hmode. unfold handlePolygonClick, bind, gets, update, alert, ret.
  simpl.
  destruct (isDrawing (drawingState (store w))) eqn:Ed; simpl.
  - destruct (currentShapeRef w) as [layer|] eqn:Es; simpl.
    + destruct (instanceofPolygon layer); simpl.
      * tidy; try apply app_not_nil.
        all: try (eexists; split; [reflexivity|]; rewrite setLatLngs_kind;
                  match goal with
                  | H : isDrawing _ = true -> exists _, _,
                    E : isDrawing _ = true |- _ =>
                      destruct (H E) as (l0 & Hl & Hk); congruence
                  end).
      * tidy; try apply app_not_nil.
    + tidy; try apply app_not_nil.
  - destruct (Z.leb _ _); simpl.
    + tidy.
    + tidy.
      all: try (eexists; split; [reflexivity|]; simpl; assumption).
Qed.

Lemma handleLineStringClick_Tidy (latlng : LatLng) (w : World) :
  Tidy w -> mode (drawingState (store w)) = Some linestring ->
  Tidy (snd (handleLineStringClick latlng
               (isDrawing (drawingState (store w))) w)).
Proof.
  intros HT Hmode. unfold handleLineStringClick, bind, gets, update, alert, ret.
  simpl.
  destruct (isDrawing (drawingState (store w))) eqn:Ed; simpl.
  - destruct (currentShapeRef w) as [layer|] eqn:Es; simpl.
    + destruct (instanceofPolyline layer); simpl.
      * tidy; try apply app_not_nil.
        all: try (eexists; split; [reflexivity|]; rewrite setLatLngs_kind;
                  match goal with
                  | H : isDrawing _ = true -> exists _, _,
                    E : isDrawing _ = true |- _ =>
                      destruct (H E) as (l0 & Hl & Hk); congruence
                  end).
      * tidy; try apply app_not_nil.
    + tidy; try apply app_not_nil.
  - destruct (Z.leb _ _); simpl.
    + tidy.
    + tidy.
      all: try (eexists; split; [reflexivity|]; simpl; assumption).
Qed.

Lemma finishPolygonOrLineString_Tidy (ty : FeatureType) (fid : string) (w : World) :
  Tidy w -> mode (drawingState (store w)) <> None ->
  Tidy (snd (finishPolygonOrLineString ty fid w)).
Proof.
  intros HT Hm. unfold finishPolygonOrLineString.
  unfold bind at 1. unfold gets at 1.
  destruct (currentShapeRef w) as [layer|]; [|exact HT].
  unfold bind at 1. unfold gets at 1.
  destruct (_ && _); [exact HT|].
  destruct (_ && _); [exact HT|].
  apply finish_then_stop_Tidy; assumption.
Qed.

Lemma setCurrentShape_Tidy (l l' : Layer) (w : World) :
  Tidy w -> currentShapeRef w = Some l -> layerKind l' = layerKind l ->
  Tidy (setCurrentShape (Some l') w).
Proof.
  intros HT Hl Hk. tidy.
  match goal with
  | H : isDrawing _ = true -> exists _, _, E : isDrawing _ = true |- _ =>
      destruct (H E) as (l0 & Hl0 & Hk0)
  end.
  exists l'. split; [reflexivity|]. congruence.
Qed.

Lemma handleMapMouseMove_Tidy (latlng : LatLng) (w : World) :
  Tidy w -> Tidy (snd (handleMapMouseMove latlng w)).
Proof.
  intros HT. unfold handleMapMouseMove, bind, gets, update, ret. simpl.
  destruct (mode (drawingState (store w))) as [m|]; [|exact HT].
  destruct (isDrawing (drawingState (store w))); [|exact HT].
  destruct (startPointRef w) as [sp|]; [|exact HT].
  destruct (currentShapeRef w) as [layer|] eqn:Es; [|destruct m; exact HT].
  destruct m, layer; simpl; try exact HT;
    try match goal with
        | |- context [if ?b then _ else _] => destruct b; simpl
        end;
    try exact HT;
    (eapply setCurrentShape_Tidy; [exact HT|exact Es|]); try reflexivity;
    destruct (polygonPointsRef w ++ [latlng]); reflexivity.
Qed.

Lemma afterStoreAction_Tidy (f : MapStore -> MapStore) (w : World) :
  Tidy w ->
  Forall plainProperties (features (f (store w))) ->
  (isDrawing (drawingState (f (store w))) = isDrawing (drawingState (store w))
   \/ isDrawing (drawingState (f (store w))) = false) ->
  Tidy (snd (afterStoreAction f w)).
Proof.
  intros HT Hf Hd. unfold afterStoreAction, bind, gets, update, ret.
  simpl. destruct (mode_eqb _ _) eqn:E; simpl.
  - apply mode_eqb_eq in E. unfold Tidy, pointTool, areaTool in *. simpl.
    rewrite <- E.
    destruct HT as (H1 & H2 & H3 & H4 & H5 & H6).
    assert (Hdr : isDrawing (drawingState (f (store w))) = true ->
                  isDrawing (drawingState (store w)) = true).
    { destruct Hd as [Hd|Hd]; congruence. }
    repeat split; auto;
      match goal with
      | Hn : mode _ = None |- _ => destruct (H2 Hn) as (A & B & C & D)
      end; auto.
    destruct Hd as [Hd|Hd]; congruence.
  - unfold Tidy, pointTool, areaTool. simpl.
    repeat split; auto; discriminate.
Qed.

Lemma step_Tidy (w : World) (ev : Event) : Tidy w -> Tidy (step w ev).
Proof.
  intros HT. unfold step. destruct ev as [m|latlng fid|fid|latlng|i| |t max];
    simpl.
  - apply afterStoreAction_Tidy;
      [exact HT|exact (proj2 (proj2 (proj2 (proj2 (proj2 HT)))))|left; reflexivity].
  - unfold handleMapClick. unfold bind at 1 2. unfold gets at 1 2.
    destruct (mode (drawingState (store w))) as [[]|] eqn:Em; [| | | |exact HT].
    + apply handlePolygonClick_Tidy; assumption.
    + apply handleRectangleClick_Tidy; assumption.
    + apply handleCircleClick_Tidy; assumption.
    + apply handleLineStringClick_Tidy; assumption.
  - unfold handleMapDoubleClick. unfold bind at 1 2. unfold gets at 1 2.
    destruct (mode (drawingState (store w))) as [[]|] eqn:Em; try exact HT;
      destruct (isDrawing (drawingState (store w))) eqn:Ed; try exact HT;
      apply finishPolygonOrLineString_Tidy; congruence.
  - apply handleMapMouseMove_Tidy. exact HT.
  - apply afterStoreAction_Tidy; [exact HT| |left; reflexivity].
    simpl. apply Forall_filter.
    exact (proj2 (proj2 (proj2 (proj2 (proj2 HT))))).
  - apply afterStoreAction_Tidy; [exact HT| |right; reflexivity].
    simpl. constructor.
  - apply afterStoreAction_Tidy;
      [exact HT|exact (proj2 (proj2 (proj2 (proj2 (proj2 HT)))))|left; reflexivity].
Qed.

Lemma reachable_Tidy (w : World) : reachable w -> Tidy w.
Proof.
  induction 1 as [|w ev _ IH]; [|apply step_Tidy; exact IH].
  unfold Tidy, pointTool, areaTool. simpl.
  repeat split; try discriminate; try constructor;
    intros [H|H]; discriminate.
Qed.

End TidyStep.

Section SessionFacts.
Context {L : Lib}.

(** X7.  In every reachable state: a running session has a provisional
    shape, of the selected tool, and with it a first point (polygon, line)
    or an anchor (circle, rectangle); the anchor is unset while the polygon
    or the line tool is selected; and with no tool selected there is no
    session, no shape, no anchor and no point. *)
Theorem session_state_is_consistent (w : World) :
  reachable w ->
  let ds := drawingState (store w) in
  (isDrawing ds = true ->
     exists l, currentShapeRef w = Some l /\ mode ds = Some (layerKind l)) /\
  (isDrawing ds = true -> pointTool (mode ds) -> polygonPointsRef w <> []) /\
  (isDrawing ds = true -> areaTool (mode ds) -> startPointRef w <> None) /\
  (pointTool (mode ds) -> startPointRef w = None) /\
  (mode ds = None ->
     isDrawing ds = false /\ currentShapeRef w = None /\
     startPointRef w = None /\ polygonPointsRef w = []).
Proof.
  intros Hr. destruct (reachable_Tidy w Hr) as (H1 & H2 & H3 & H4 & H5 & _).
  simpl. repeat split; auto; apply H2; assumption.
Qed.

Lemma getFeatureColor_not_empty (t : FeatureType) :
  String.eqb (getFeatureColor t) "" = false.
Proof. destruct t; reflexivity. Qed.

(** X8.  In every reachable state each feature has no name and the colour
    of its type; it is drawn in that colour, and exported with it. *)
Theorem features_carry_their_type_colour (w : World) (f : Feature) :
  reachable w ->
  In f (features (store w)) ->
  prop_name (properties f) = None /\
  prop_color (properties f) = Some (getFeatureColor (type f)) /\
  style_color (featureStyle f) = getFeatureColor (type f) /\
  In {| exp_geometry := geometry f;
        exp_properties :=
          {| exp_id := id f; exp_type := type f; exp_name := None;
             exp_color := Some (getFeatureColor (type f)) |} |}
     (featureCollection (features (store w))).
Proof.
  intros Hr Hin.
  destruct (reachable_Tidy w Hr) as (_ & _ & _ & _ & _ & Hplain).
  rewrite Forall_forall in Hplain. pose proof (Hplain f Hin) as Hf.
  unfold plainProperties in Hf. repeat split.
  - rewrite Hf. reflexivity.
  - rewrite Hf. reflexivity.
  - unfold featureStyle, orElse. simpl. rewrite Hf. simpl.
    rewrite getFeatureColor_not_empty. reflexivity.
  - unfold featureCollection. apply in_map_iff. exists f.
    split; [|exact Hin]. rewrite Hf. reflexivity.
Qed.

Lemma handleMapMouseMove_frame (w : World) (p : LatLng) :
  fst (handleMapMouseMove p w) = Ok tt /\
  store (step w (EvMouseMove p)) = store w /\
  startPointRef (step w (EvMouseMove p)) = startPointRef w /\
  polygonPointsRef (step w (EvMouseMove p)) = polygonPointsRef w /\
  alerts (step w (EvMouseMove p)) = alerts w /\
  (currentShapeRef (step w (EvMouseMove p)) = currentShapeRef w \/
   exists l l', currentShapeRef w = Some l /\
                currentShapeRef (step w (EvMouseMove p)) = Some l' /\
                layerKind l' = layerKind l).
Proof.
  unfold step, handle, handleMapMouseMove, bind, gets, update, ret. simpl.
  destruct (mode (drawingState (store w))) as [m|] eqn:Em;
    [|repeat split; auto].
  destruct (isDrawing (drawingState (store w))) eqn:Ed;
    [|repeat split; auto].
  destruct (startPointRef w) as [sp|] eqn:Esp; [|repeat split; auto].
  destruct (currentShapeRef w) as [layer|] eqn:Es;
    [|destruct m; repeat split; auto].
  destruct m, layer; simpl;
    try match goal with
        | |- context [if ?b then _ else _] => destruct b; simpl
        end;
    repeat split; auto;
    try (right; eexists; eexists;
         (split; [reflexivity|split; [reflexivity|]]); try reflexivity;
         destruct (polygonPointsRef w ++ [p]); reflexivity).
Qed.

(** X9.  A mouse move never throws and touches nothing but the provisional
    shape, which keeps its kind: the store, the anchor, the points and the
    alerts are as before.  In a reachable state with the polygon tool, the
    line tool or no tool selected it changes nothing at all. *)
Theorem mouse_move_only_reshapes (w : World) (p : LatLng) :
  (fst (handleMapMouseMove p w) = Ok tt /\
   store (step w (EvMouseMove p)) = store w /\
   startPointRef (step w (EvMouseMove p)) = startPointRef w /\
   polygonPointsRef (step w (EvMouseMove p)) = polygonPointsRef w /\
   alerts (step w (EvMouseMove p)) = alerts w /\
   (currentShapeRef (step w (EvMouseMove p)) = currentShapeRef w \/
    exists l l', currentShapeRef w = Some l /\
                 currentShapeRef (step w (EvMouseMove p)) = Some l' /\
                 layerKind l' = layerKind l)) /\
  (reachable w -> ~ areaTool (mode (drawingState (store w))) ->
   step w (EvMouseMove p) = w).
Proof.
  split; [apply handleMapMouseMove_frame|].
  intros Hr Hna.
  destruct (reachable_Tidy w Hr) as (_ & H2 & H3 & _).
  unfold step, handle, handleMapMouseMove, bind, gets, update, ret. simpl.
  unfold areaTool, pointTool in *.
  destruct (mode (drawingState (store w))) as [[]|] eqn:Em;
    try reflexivity; try (exfalso; apply Hna; auto; fail);
    destruct (isDrawing (drawingState (store w))); try reflexivity;
    rewrite H3 by auto; reflexivity.
Qed.

(** X10.  In a reachable state, a double click that comes with fewer than
    three points of a polygon, or fewer than two of a line, only shows the
    matching alert: the session goes on with the points it has. *)
Theorem too_few_points_keeps_session (w : World) (fid : string) :
  reachable w ->
  isDrawing (drawingState (store w)) = true ->
  (mode (drawingState (store w)) = Some polygon ->
   (List.length (polygonPointsRef w) < 3)%nat ->
   step w (EvDoubleClick fid) = pushAlert msgPolygonPoints w) /\
  (mode (drawingState (store w)) = Some linestring ->
   (List.length (polygonPointsRef w) < 2)%nat ->
   step w (EvDoubleClick fid) = pushAlert msgLinePoints w).
Proof.
  intros Hr Hd.
  destruct (reachable_Tidy w Hr) as (H1 & _).
  destruct (H1 Hd) as (l & Hl & _).
  split; intros Hm Hlen; apply Nat.ltb_lt in Hlen;
    unfold step, handle, handleMapDoubleClick, finishPolygonOrLineString,
      bind, gets, alert, update; simpl;
    rewrite Hm, Hd; simpl; rewrite Hl; simpl; rewrite Hlen; simpl.
  - reflexivity.
  - reflexivity.
Qed.

End SessionFacts.

Section PointerFacts.
Context {L : Lib}.

Lemma finish_then_stop_appends
    (ty : FeatureType) (layer : Layer) (fid : string) (w : World) :
  mode (drawingState (store w)) = Some ty ->
  appendsAtMost w
    (snd (bind (finishDrawing ty layer fid)
            (fun _ => update (withStore (setIsDrawing false))) w)).
Proof.
  intros Hm. apply finish_then_stop_cases; unfold appendsAtMost; simpl.
  - intros g cs. repeat split; auto. right. exists ty, g, fid. auto.
  - intros cs msg. repeat split; auto.
  - intros cs. repeat split; auto.
Qed.

Lemma appendsAtMost_refl (w w' : World) :
  store w' = store w -> appendsAtMost w w'.
Proof. intros H. unfold appendsAtMost. rewrite H. auto. Qed.

Lemma appendsAtMost_drawing (b : bool) (w w' : World) :
  store w' = setIsDrawing b (store w) -> appendsAtMost w w'.
Proof. intros H. unfold appendsAtMost. rewrite H. simpl. auto. Qed.

(** X11.  A click, a double click or a mouse move never changes the
    selected tool or a limit, and never removes or rewrites a feature: the
    features are as before, or one feature of the selected tool's type was
    added at the end. *)
Theorem pointer_events_only_append (w : World) (ev : Event) :
  isPointerEvent ev -> appendsAtMost w (step w ev).
Proof.
  intros Hev. destruct ev as [m|latlng fid|fid|latlng|i| |t max];
    simpl in Hev; try contradiction; unfold step; simpl.
  - unfold handleMapClick. unfold bind at 1 2. unfold gets at 1 2.
    destruct (mode (drawingState (store w))) as [[]|] eqn:Em;
      [| | | |apply appendsAtMost_refl; reflexivity].
    + unfold handlePolygonClick, bind, gets, update, alert, ret. simpl.
      destruct (isDrawing (drawingState (store w))); simpl.
      * destruct (currentShapeRef w) as [layer|]; simpl;
          [destruct (instanceofPolygon layer); simpl|];
          apply appendsAtMost_refl; reflexivity.
      * destruct (Z.leb _ _); simpl;
          [apply appendsAtMost_refl; reflexivity|].
        eapply appendsAtMost_drawing. reflexivity.
    + unfold handleRectangleClick.
      unfold bind at 1 2. unfold gets at 1 2. simpl.
      destruct (isDrawing (drawingState (store w))).
      * unfold bind at 1. unfold gets at 1.
        destruct (currentShapeRef w) as [layer|];
          [destruct (instanceofRectangle layer)|].
        -- apply finish_then_stop_appends. exact Em.
        -- eapply appendsAtMost_drawing. reflexivity.
        -- eapply appendsAtMost_drawing. reflexivity.
      * destruct (Z.leb _ _); [apply appendsAtMost_refl; reflexivity|].
        eapply appendsAtMost_drawing. reflexivity.
    + unfold handleCircleClick.
      unfold bind at 1 2. unfold gets at 1 2. simpl.
      destruct (isDrawing (drawingState (store w))).
      * unfold bind at 1. unfold gets at 1.
        destruct (currentShapeRef w) as [layer|];
          [destruct (instanceofCircle layer)|].
        -- apply finish_then_stop_appends. exact Em.
        -- eapply appendsAtMost_drawing. reflexivity.
        -- eapply appendsAtMost_drawing. reflexivity.
      * destruct (Z.leb _ _); [apply appendsAtMost_refl; reflexivity|].
        eapply appendsAtMost_drawing. reflexivity.
    + unfold handleLineStringClick, bind, gets, update, alert, ret. simpl.
      destruct (isDrawing (drawingState (store w))); simpl.
      * destruct (currentShapeRef w) as [layer|]; simpl;
          [destruct (instanceofPolyline layer); simpl|];
          apply appendsAtMost_refl; reflexivity.
      * destruct (Z.leb _ _); simpl;
          [apply appendsAtMost_refl; reflexivity|].
        eapply appendsAtMost_drawing. reflexivity.
  - unfold handleMapDoubleClick. unfold bind at 1 2. unfold gets at 1 2.
    destruct (mode (drawingState (store w))) as [[]|] eqn:Em;
      try (apply appendsAtMost_refl; reflexivity);
      destruct (isDrawing (drawingState (store w)));
      try (apply appendsAtMost_refl; reflexivity);
      unfold finishPolygonOrLineString;
      unfold bind at 1; unfold gets at 1;
      (destruct (currentShapeRef w) as [layer|];
       [|apply appendsAtMost_refl; reflexivity]);
      unfold bind at 1; unfold gets at 1;
      (destruct (_ && _); [apply appendsAtMost_refl; reflexivity|]);
      (destruct (_ && _); [apply appendsAtMost_refl; reflexivity|]);
      apply finish_then_stop_appends; exact Em.
  - apply appendsAtMost_refl.
    exact (proj1 (proj2 (handleMapMouseMove_frame w latlng))).
Qed.



End PointerFacts.

(* ================================================================== *)
(** * Further properties: the limits *)

Section Limits.
Context {L : Lib}.

Lemma limits_commit
    (fid : string) (ty : FeatureType) (g : Geometry) (layer : Layer) (w : World) :
  withinLimits w ->
  isDrawing (drawingState (store w)) = true ->
  currentShapeRef w = Some layer ->
  layerKind layer = ty ->
  withinLimits (withStore (setIsDrawing false) (committed fid ty g w)).
Proof.
  intros [H1 H2] Hd Hs Hk. split; simpl; [|discriminate].
  intros t. rewrite countType_snoc. simpl.
  specialize (H2 Hd layer Hs). rewrite Hk in H2. specialize (H1 t).
  destruct (FeatureType_eqb ty t) eqn:E.
  - apply FeatureType_eqb_eq in E. subst t. lia.
  - lia.
Qed.

Lemma limits_stopped (w : World) :
  withinLimits w -> withinLimits (withStore (setIsDrawing false) w).
Proof. intros [H1 H2]. split; simpl; [exact H1|discriminate]. Qed.

Lemma finish_then_stop_limits
    (ty : FeatureType) (layer : Layer) (fid : string) (w : World) :
  withinLimits w ->
  isDrawing (drawingState (store w)) = true ->
  currentShapeRef w = Some layer ->
  layerKind layer = ty ->
  withinLimits (snd (bind (finishDrawing ty layer fid)
                       (fun _ => update (withStore (setIsDrawing false))) w)).
Proof.
  intros HW Hd Hs Hk. apply finish_then_stop_cases.
  - intros g cs. eapply limits_commit; eauto.
  - intros cs msg. apply limits_stopped. exact HW.
  - intros cs. exact HW.
Qed.

Lemma limits_reshaped (l l' : Layer) (w : World) :
  withinLimits w -> currentShapeRef w = Some l -> layerKind l' = layerKind l ->
  withinLimits (setCurrentShape (Some l') w).
Proof.
  intros [H1 H2] Hl Hk. split; simpl; [exact H1|].
  intros Hd l0 Hl0. inversion Hl0; subst. rewrite Hk. apply H2; assumption.
Qed.

Lemma step_withinLimits (w : World) (ev : Event) :
  Tidy w -> withinLimits w -> keepsLimits w ev -> withinLimits (step w ev).
Proof.
  intros HT HW Hk. pose proof HW as [W1 W2].
  destruct HT as (T1 & _).
  unfold step. destruct ev as [m|latlng fid|fid|latlng|i| |t max]; simpl.
  - unfold afterStoreAction, bind, gets, update, ret. simpl.
    destruct (mode_eqb _ _); simpl; split; simpl; auto; discriminate.
  - unfold handleMapClick. unfold bind at 1 2. unfold gets at 1 2.
    destruct (mode (drawingState (store w))) as [[]|] eqn:Em; [| | | |exact HW].
    + unfold handlePolygonClick, bind, gets, update, alert, ret. simpl.
      destruct (isDrawing (drawingState (store w))) eqn:Ed; simpl.
      * destruct (currentShapeRef w) as [layer|] eqn:Es; simpl;
          [destruct (instanceofPolygon layer); simpl|]; try exact HW.
        split; simpl; [exact W1|]. intros _ l0 Hl0. inversion Hl0; subst.
        rewrite setLatLngs_kind. apply W2; auto.
      * destruct (Z.leb_spec (maxShapes (store w) polygon)
                    (Z.of_nat (countPolygonType (features (store w)))));
          simpl; [exact HW|].
        split; simpl; [exact W1|]. intros _ l0 Hl0. inversion Hl0; subst.
        simpl. pose proof (countType_polygon_le (features (store w))). lia.
    + unfold handleRectangleClick.
      unfold bind at 1 2. unfold gets at 1 2. simpl.
      destruct (isDrawing (drawingState (store w))) eqn:Ed.
      * unfold bind at 1. unfold gets at 1.
        destruct (currentShapeRef w) as [layer|] eqn:Es;
          [destruct (instanceofRectangle layer) eqn:Ei|].
        -- apply (finish_then_stop_limits rectangle layer); auto.
           apply instanceofRectangle_kind. exact Ei.
        -- apply limits_stopped. exact HW.
        -- apply limits_stopped. exact HW.
      * destruct (Z.leb_spec (maxShapes (store w) rectangle)
                    (Z.of_nat (countType rectangle (features (store w)))));
          [exact HW|].
        unfold bind, update. simpl.
        split; simpl; [exact W1|]. intros _ l0 Hl0. inversion Hl0; subst.
        simpl. lia.
    + unfold handleCircleClick.
      unfold bind at 1 2. unfold gets at 1 2. simpl.
      destruct (isDrawing (drawingState (store w))) eqn:Ed.
      * unfold bind at 1. unfold gets at 1.
        destruct (currentShapeRef w) as [layer|] eqn:Es;
          [destruct (instanceofCircle layer) eqn:Ei|].
        -- apply (finish_then_stop_limits circle layer); auto.
           apply instanceofCircle_kind. exact Ei.
        -- apply limits_stopped. exact HW.
        -- apply limits_stopped. exact HW.
      * destruct (Z.leb_spec (maxShapes (store w) circle)
                    (Z.of_nat (countType circle (features (store w)))));
          [exact HW|].
        unfold bind, update. simpl.
        split; simpl; [exact W1|]. intros _ l0 Hl0. inversion Hl0; subst.
        simpl. lia.
    + unfold handleLineStringClick, bind, gets, update, alert, ret. simpl.
      destruct (isDrawing (drawingState (store w))) eqn:Ed; simpl.
      * destruct (currentShapeRef w) as [layer|] eqn:Es; simpl;
          [destruct (instanceofPolyline layer); simpl|]; try exact HW.
        split; simpl; [exact W1|]. intros _ l0 Hl0. inversion Hl0; subst.
        rewrite setLatLngs_kind. apply W2; auto.
      * destruct (Z.leb_spec (maxShapes (store w) linestring)
                    (Z.of_nat (countType linestring (features (store w)))));
          simpl; [exact HW|].
        split; simpl; [exact W1|]. intros _ l0 Hl0. inversion Hl0; subst.
        simpl. lia.
  - unfold handleMapDoubleClick. unfold bind at 1 2. unfold gets at 1 2.
    destruct (mode (drawingState (store w))) as [[]|] eqn:Em; try exact HW;
      destruct (isDrawing (drawingState (store w))) eqn:Ed; try exact HW;
      unfold finishPolygonOrLineString;
      unfold bind at 1; unfold gets at 1;
      destruct (T1 eq_refl) as (l & Hl & Hkind);
      rewrite Hl; unfold bind at 1; unfold gets at 1;
      (destruct (_ && _); [exact HW|]);
      (destruct (_ && _); [exact HW|]);
      apply (finish_then_stop_limits _ l); auto; congruence.
  - destruct (handleMapMouseMove_frame w latlng)
      as (_ & Hst & _ & _ & _ & Hshape).
    unfold step in Hst, Hshape. simpl in Hst, Hshape.
    split; rewrite Hst; [exact W1|].
    intros Hd l0 Hl0.
    destruct Hshape as [Hsame|(l & l' & Hl & Hl' & Hkind)].
    + rewrite Hsame in Hl0. apply W2; assumption.
    + rewrite Hl' in Hl0. inversion Hl0; subst. rewrite Hkind.
      apply W2; assumption.
  - unfold afterStoreAction, bind, gets, update, ret. simpl.
    assert (Hc : forall t,
               (Z.of_nat (countType t
                  (filter (fun f => negb (id f =? i)%string)
                     (features (store w))))
                <= Z.of_nat (countType t (features (store w))))%Z).
    { intros t. apply inj_le. apply countType_filter_le. }
    destruct (mode_eqb _ _); simpl; split; simpl;
      try discriminate.
    + intros t. specialize (Hc t). specialize (W1 t). lia.
    + intros Hd l Hl. specialize (W2 Hd l Hl). specialize (Hc (layerKind l)).
      lia.
    + intros t. specialize (Hc t). specialize (W1 t). lia.
  - unfold afterStoreAction, bind, gets, update, ret. simpl.
    destruct (mode_eqb _ _); simpl; split; simpl; try discriminate;
      intros t; specialize (W1 t); simpl; lia.
  - simpl in Hk.
    unfold afterStoreAction, bind, gets, update, ret. simpl.
    destruct (mode_eqb _ _); simpl; split; simpl; try discriminate.
    + intros t'. specialize (W1 t').
      destruct (FeatureType_eqb t' t) eqn:E; [|exact W1].
      apply FeatureType_eqb_eq in E. subst. lia.
    + intros Hd l Hl. specialize (W2 Hd l Hl).
      destruct (FeatureType_eqb (layerKind l) t) eqn:E; [|exact W2].
      apply FeatureType_eqb_eq in E. rewrite E in *. lia.
    + intros t'. specialize (W1 t').
      destruct (FeatureType_eqb t' t) eqn:E; [|exact W1].
      apply FeatureType_eqb_eq in E. subst. lia.
Qed.

Lemma run_withinLimits (evs : list Event) :
  forall w, Tidy w -> withinLimits w -> limitsNeverLowered w evs ->
            withinLimits (run evs w).
Proof.
  induction evs as [|ev evs IH]; intros w HT HW Hl; simpl; [exact HW|].
  destruct Hl as [Hk Hrest].
  apply IH; [apply step_Tidy; exact HT| |exact Hrest].
  apply step_withinLimits; assumption.
Qed.

(** X13.  As long as no limit is lowered, no feature type ever has more
    committed features than its limit: after any sequence of events from
    the initial state, the count of each type is at most its current
    maximum. *)
Theorem limits_are_respected (evs : list Event) (t : FeatureType) :
  limitsNeverLowered initialWorld evs ->
  (Z.of_nat (countType t (features (store (run evs initialWorld))))
   <= maxShapes (store (run evs initialWorld)) t)%Z.
Proof.
  intros Hl.
  apply (run_withinLimits evs initialWorld); [| |exact Hl].
  - apply reachable_Tidy. apply reachable_init.
  - split; simpl; [|discriminate]. intros []; simpl; lia.
Qed.

End Limits.

(* ================================================================== *)
(** * Further properties: whole sessions *)

Section Sessions.
Context {L : Lib}.

Lemma run_app (evs1 evs2 : list Event) (w : World) :
  run (evs1 ++ evs2) w = run evs2 (run evs1 w).
Proof. unfold run. apply fold_left_app. Qed.

Lemma line_clicks (ps : list LatLng) (fid : string) :
  forall pts w,
    mode (drawingState (store w)) = Some linestring ->
    isDrawing (drawingState (store w)) = true ->
    run (clicks ps fid) (collecting LPolyline pts w)
    = collecting LPolyline (pts ++ ps) w.
Proof.
  induction ps as [|p ps IH]; intros pts w Hm Hd; simpl.
  - rewrite app_nil_r. reflexivity.
  - replace (step (collecting LPolyline pts w) (EvClick p fid))
      with (collecting LPolyline (pts ++ [p]) w).
    + rewrite IH by assumption. rewrite <- app_assoc. reflexivity.
    + unfold step, handle, handleMapClick, handleLineStringClick,
        bind, gets, update. simpl. rewrite Hm, Hd. reflexivity.
Qed.

Lemma polygon_clicks (ps : list LatLng) (fid : string) :
  forall pts w,
    mode (drawingState (store w)) = Some polygon ->
    isDrawing (drawingState (store w)) = true ->
    run (clicks ps fid) (collecting LPolygon pts w)
    = collecting LPolygon (pts ++ ps) w.
Proof.
  induction ps as [|p ps IH]; intros pts w Hm Hd; simpl.
  - rewrite app_nil_r. reflexivity.
  - replace (step (collecting LPolygon pts w) (EvClick p fid))
      with (collecting LPolygon (pts ++ [p]) w).
    + rewrite IH by assumption. rewrite <- app_assoc. reflexivity.
    + unfold step, handle, handleMapClick, handlePolygonClick,
        bind, gets, update. simpl. rewrite Hm, Hd. reflexivity.
Qed.

Lemma line_finish (pts : list LatLng) (fid : string) (w : World) :
  mode (drawingState (store w)) = Some linestring ->
  isDrawing (drawingState (store w)) = true ->
  (2 <= List.length pts)%nat ->
  step (collecting LPolyline pts w) (EvDoubleClick fid)
  = withStore (setIsDrawing false)
      (committed fid linestring (LineString (toCoords pts))
         (collecting LPolyline pts w)).
Proof.
  intros Hm Hd Hlen.
  unfold step, handle, handleMapDoubleClick, finishPolygonOrLineString,
    bind, gets. simpl. rewrite Hm, Hd. simpl.
  assert (Hlt : (List.length pts <? 2)%nat = false)
    by (apply Nat.ltb_ge; exact Hlen).
  rewrite Hlt.
  rewrite (linestring_commits_unchecked (collecting LPolyline pts w) pts fid)
    by exact Hlen.
  reflexivity.
Qed.

(** X14.  A whole line session: with the line tool selected, no session
    running and room for one more line, clicks on two or more points and a
    double click append one line string through exactly these points, in the
    order they were clicked; the session is over, the refs are cleared, and
    neither an alert nor a call to the constraint engine was made. *)
Theorem line_session
    (w : World) (p0 : LatLng) (ps : list LatLng) (fid : string) :
  mode (drawingState (store w)) = Some linestring ->
  isDrawing (drawingState (store w)) = false ->
  (Z.of_nat (countType linestring (features (store w)))
   < maxShapes (store w) linestring)%Z ->
  ps <> [] ->
  let w' := run (clicks (p0 :: ps) fid ++ [EvDoubleClick fid]) w in
  features (store w')
  = features (store w)
      ++ [newFeature fid linestring (LineString (toCoords (p0 :: ps)))] /\
  drawingState (store w') = drawingState (store w) /\
  currentShapeRef w' = None /\
  polygonPointsRef w' = [] /\
  alerts w' = alerts w /\
  calls w' = calls w.
Proof.
  intros Hm Hd Hroom Hps w'.
  assert (Hlen : (2 <= List.length (p0 :: ps))%nat).
  { destruct ps; [congruence|simpl; lia]. }
  assert (Hw : w' = withStore (setIsDrawing false)
                 (committed fid linestring (LineString (toCoords (p0 :: ps)))
                    (collecting LPolyline (p0 :: ps)
                       (withStore (setIsDrawing true) w)))).
  { subst w'. rewrite run_app. simpl clicks. simpl run at 2.
    replace (step w (EvClick p0 fid))
      with (collecting LPolyline [p0] (withStore (setIsDrawing true) w)).
    2:{ unfold step, handle, handleMapClick, handleLineStringClick,
          bind, gets, update, alert. simpl. rewrite Hm, Hd. simpl.
        destruct (Z.leb_spec (maxShapes (store w) linestring)
                    (Z.of_nat (countType linestring (features (store w)))));
          [lia|reflexivity]. }
    rewrite line_clicks by (simpl; auto).
    simpl run. apply line_finish; simpl; auto. }
  rewrite Hw. simpl.
  destruct (drawingState (store w)) as [md dr] eqn:Eds. simpl in *.
  subst. repeat split; reflexivity.
Qed.

Lemma first_shape_unconstrained (ty : FeatureType) (geom : Geometry) (w : World) :
  existingPolygonGeometries (features (store w)) = [] ->
  constrain ty geom w = (Ok (Some geom), w).
Proof.
  intros H. unfold constrain, bind, gets. simpl.
  destruct (isPolygonType ty); [|reflexivity]. rewrite H. reflexivity.
Qed.

Lemma polygon_finish (pts : list LatLng) (fid : string) (w : World) :
  mode (drawingState (store w)) = Some polygon ->
  isDrawing (drawingState (store w)) = true ->
  (3 <= List.length pts)%nat ->
  existingPolygonGeometries (features (store w)) = [] ->
  step (collecting LPolygon pts w) (EvDoubleClick fid)
  = withStore (setIsDrawing false)
      (committed fid polygon (Polygon (closedRing pts))
         (collecting LPolygon pts w)).
Proof.
  intros Hm Hd Hlen Hex.
  unfold step, handle, handleMapDoubleClick, finishPolygonOrLineString,
    bind, gets. simpl. rewrite Hm, Hd. simpl.
  assert (Hlt : (List.length pts <? 3)%nat = false)
    by (apply Nat.ltb_ge; exact Hlen).
  rewrite Hlt. simpl.
  unfold finishDrawing, layerGeometry, bind, gets. simpl. rewrite Hlt.
  unfold ret at 1.
  rewrite (first_shape_unconstrained polygon _ (collecting LPolygon pts w))
    by exact Hex.
  reflexivity.
Qed.

(** X15.  A whole polygon session while no area-type feature is committed:
    with the polygon tool selected, no session running and a positive limit,
    clicks on three or more points and a double click append one polygon
    whose ring is these points in the order they were clicked, closed by the
    first; the refs are cleared, and neither an alert nor a call to the
    constraint engine was made. *)
Theorem polygon_session
    (w : World) (p0 : LatLng) (ps : list LatLng) (fid : string) :
  mode (drawingState (store w)) = Some polygon ->
  isDrawing (drawingState (store w)) = false ->
  existingPolygonGeometries (features (store w)) = [] ->
  (0 < maxShapes (store w) polygon)%Z ->
  (2 <= List.length ps)%nat ->
  let w' := run (clicks (p0 :: ps) fid ++ [EvDoubleClick fid]) w in
  features (store w')
  = features (store w)
      ++ [newFeature fid polygon
            (Polygon [toCoords (p0 :: ps) ++ [(lng p0, lat p0)]])] /\
  drawingState (store w') = drawingState (store w) /\
  currentShapeRef w' = None /\
  polygonPointsRef w' = [] /\
  alerts w' = alerts w /\
  calls w' = calls w.
Proof.
  intros Hm Hd Hex Hmax Hps w'.
  assert (Hcount : countPolygonType (features (store w)) = 0%nat).
  { unfold existingPolygonGeometries in Hex. unfold countPolygonType.
    rewrite <- (length_map geometry). rewrite Hex. reflexivity. }
  assert (Hw : w' = withStore (setIsDrawing false)
                 (committed fid polygon (Polygon (closedRing (p0 :: ps)))
                    (collecting LPolygon (p0 :: ps)
                       (withStore (setIsDrawing true) w)))).
  { subst w'. rewrite run_app. simpl clicks. simpl run at 2.
    replace (step w (EvClick p0 fid))
      with (collecting LPolygon [p0] (withStore (setIsDrawing true) w)).
    2:{ unfold step, handle, handleMapClick, handlePolygonClick,
          bind, gets, update, alert. simpl. rewrite Hm, Hd. simpl.
        rewrite Hcount.
        destruct (Z.leb_spec (maxShapes (store w) polygon) (Z.of_nat 0));
          [simpl in *; lia|reflexivity]. }
    rewrite polygon_clicks by (simpl; auto).
    simpl run. apply polygon_finish; simpl; auto. lia. }
  rewrite Hw. simpl.
  destruct (drawingState (store w)) as [md dr] eqn:Eds. simpl in *.
  subst. repeat split; reflexivity.
Qed.

Lemma rectangle_moves (a : LatLng) (moves : list LatLng) :
  forall b w,
    mode (drawingState (store w)) = Some rectangle ->
    isDrawing (drawingState (store w)) = true ->
    startPointRef w = Some a ->
    run (map EvMouseMove moves) (sizing b w)
    = sizing (match moves with
              | [] => b
              | _ => latLngBounds a [last moves a]
              end) w.
Proof.
  induction moves as [|p moves IH]; intros b w Hm Hd Hs; [reflexivity|].
  simpl run.
  replace (step (sizing b w) (EvMouseMove p))
    with (sizing (latLngBounds a [p]) w).
  2:{ unfold step, handle, handleMapMouseMove, bind, gets, update. simpl.
      rewrite Hm, Hd, Hs. reflexivity. }
  rewrite IH by assumption. destruct moves; reflexivity.
Qed.

(** X16.  A whole rectangle session while no area-type feature is
    committed: a click on the anchor, any mouse moves and a second click
    append one rectangle whose ring runs around the bounds of the anchor and
    the last mouse position (of the anchor alone when the mouse did not
    move); the position of the second click plays no role. *)
Theorem rectangle_session
    (w : World) (a c : LatLng) (moves : list LatLng) (fid0 fid : string) :
  mode (drawingState (store w)) = Some rectangle ->
  isDrawing (drawingState (store w)) = false ->
  existingPolygonGeometries (features (store w)) = [] ->
  (Z.of_nat (countType rectangle (features (store w)))
   < maxShapes (store w) rectangle)%Z ->
  let w' := run (EvClick a fid0 :: map EvMouseMove moves ++ [EvClick c fid]) w in
  features (store w')
  = features (store w)
      ++ [newFeature fid rectangle
            (Polygon (boundsRing (latLngBounds a [last moves a])))] /\
  drawingState (store w') = drawingState (store w) /\
  currentShapeRef w' = None /\
  alerts w' = alerts w /\
  calls w' = calls w.
Proof.
  intros Hm Hd Hex Hroom w'.
  set (w1 := setStartPoint (Some a) (withStore (setIsDrawing true) w)).
  set (b := latLngBounds a [last moves a]).
  assert (Hw : w' = withStore (setIsDrawing false)
                 (committed fid rectangle (Polygon (boundsRing b))
                    (sizing b w1))).
  { subst w'. simpl run.
    replace (step w (EvClick a fid0)) with (sizing (latLngBounds a [a]) w1).
    2:{ unfold step, handle, handleMapClick, handleRectangleClick,
          bind, gets, update, alert. simpl. rewrite Hm, Hd. simpl.
        destruct (Z.leb_spec (maxShapes (store w) rectangle)
                    (Z.of_nat (countType rectangle (features (store w)))));
          [lia|reflexivity]. }
    fold (run (map EvMouseMove moves ++ [EvClick c fid])
            (sizing (latLngBounds a [a]) w1)).
    rewrite run_app.
    rewrite (rectangle_moves a moves) by (subst w1; simpl; auto).
    assert (Hb : match moves with
                 | [] => latLngBounds a [a]
                 | _ :: _ => latLngBounds a [last moves a]
                 end = b) by (subst b; destruct moves; reflexivity).
    rewrite Hb. simpl run.
    unfold step, handle, handleMapClick, handleRectangleClick, bind, gets.
    simpl. rewrite Hm. simpl.
    unfold finishDrawing, layerGeometry, bind. unfold ret at 1.
    rewrite (first_shape_unconstrained rectangle _ (sizing b w1))
      by exact Hex.
    reflexivity. }
  rewrite Hw. simpl.
  destruct (drawingState (store w)) as [md dr] eqn:Eds. simpl in *.
  subst. repeat split; reflexivity.
Qed.

End Sessions.

(* ================================================================== *)
(** * Further properties: commits, the toolbar, the export *)

Section CommitPaths.
Context {L : Lib}.

(** X17.  The two ways a polygon-type candidate is committed, once no
    enclosure was found: when it overlaps no existing geometry it is
    committed as drawn, after every enclosure and every overlap check and
    without a trim; when it overlaps one, the geometry committed is the one
    the trim returned.  In both the refs are cleared and no alert is
    shown. *)
Theorem commit_paths
    (w : World) (ty : FeatureType) (layer : Layer) (fid : string)
    (geom : Geometry) :
  isPolygonType ty = true ->
  layerGeometry layer w = (Ok (Some geom), w) ->
  Forall (noEnclosure geom) (existingPolygonGeometries (features (store w))) ->
  let existing := existingPolygonGeometries (features (store w)) in
  (Forall (noOverlap geom) existing ->
   finishDrawing ty layer fid w
   = (Ok tt,
      committed fid ty geom
        (logged (enclosureCalls geom existing ++ overlapCalls geom existing)
           [] w))) /\
  (forall pre e post g,
      existing = pre ++ e :: post ->
      Forall (noOverlap geom) pre ->
      doPolygonsOverlap geom e = Ok true ->
      trimPolygonOverlap geom existing = Ok (Some g) ->
      finishDrawing ty layer fid w
      = (Ok tt,
         committed fid ty g
           (logged (enclosureCalls geom existing
                      ++ overlapCalls geom (pre ++ [e])
                      ++ [CallTrim geom existing])
              [] w))).
Proof.
  intros Hty Hlayer Hall existing. split.
  - intros Hno. unfold finishDrawing, bind. rewrite Hlayer.
    unfold constrain, bind, gets. simpl. rewrite Hty. fold existing.
    rewrite enclosureLoop_pass by assumption.
    rewrite overlapLoop_pass by assumption.
    unfold ret, update. simpl. rewrite logged_logged. reflexivity.
  - intros pre e post g Heq Hpre He Htrim.
    unfold finishDrawing, bind. rewrite Hlayer.
    unfold constrain, bind, gets. simpl. rewrite Hty. fold existing.
    rewrite enclosureLoop_pass by assumption.
    assert (Hhit : forall w0, overlapLoop geom existing w0
              = (Ok true, logged (overlapCalls geom (pre ++ [e])) [] w0)).
    { intros w0. rewrite Heq. apply overlapLoop_hit; assumption. }
    rewrite Hhit.
    unfold callTrim, bind, update, liftRes, ret. simpl.
    rewrite Htrim. simpl.
    rewrite pushCall_logged, !logged_logged.
    simpl. rewrite <- ?app_assoc. reflexivity.
Qed.

End CommitPaths.

Section Gate.
Context {L : Lib}.


Lemma click_refused (w : World) (t : FeatureType) (p : LatLng) (fid : string) :
  mode (drawingState (store w)) = Some t ->
  isDrawing (drawingState (store w)) = false ->
  (maxShapes (store w) t <= Z.of_nat (bucketCount t (features (store w))))%Z ->
  exists msg, step w (EvClick p fid) = pushAlert msg w.
Proof.
  intros Hm Hd Hfull.
  unfold step, handle, handleMapClick, bind, gets; simpl.
  rewrite Hm, Hd.
  destruct t; simpl in *;
    unfold handlePolygonClick, handleRectangleClick, handleCircleClick,
      handleLineStringClick, bind, gets, alert, update; simpl;
    match goal with
    | |- context [Z.leb ?a ?b] => destruct (Z.leb_spec a b)
    end; simpl; try lia; eauto.
Qed.


(** X20.  What a click on a tool button does.  A disabled button does
    nothing.  An enabled one deselects its tool when it is the selected
    one and selects it otherwise, and in both cases ends any session: not
    drawing, no provisional shape, no anchor, no points; the features and
    the limits are untouched. *)
Theorem tool_button_click (w : World) (t : FeatureType) :
  let w' := snd (toolButtonClick t w) in
  (isDisabled (store w) t = true -> w' = w) /\
  (isDisabled (store w) t = false ->
   mode (drawingState (store w'))
   = (if mode_eqb (mode (drawingState (store w))) (Some t)
      then None else Some t) /\
   isDrawing (drawingState (store w')) = false /\
   currentShapeRef w' = None /\
   startPointRef w' = None /\
   polygonPointsRef w' = [] /\
   features (store w') = features (store w) /\
   maxShapes (store w') = maxShapes (store w)).
Proof.
  assert (Hchange : mode_eqb (mode (drawingState (store w)))
                      (mode (drawingState (handleToolClick t (store w))))
                    = false).
  { unfold handleToolClick.
    destruct (mode_eqb (mode (drawingState (store w))) (Some t)) eqn:E;
      simpl; [|exact E].
    apply mode_eqb_eq in E. rewrite E. reflexivity. }
  assert (Hnew : mode (drawingState (handleToolClick t (store w)))
                 = (if mode_eqb (mode (drawingState (store w))) (Some t)
                    then None else Some t)).
  { unfold handleToolClick.
    destruct (mode_eqb (mode (drawingState (store w))) (Some t));
      reflexivity. }
  assert (Hfs : features (handleToolClick t (store w)) = features (store w)
                /\ maxShapes (handleToolClick t (store w))
                   = maxShapes (store w)).
  { unfold handleToolClick.
    destruct (mode_eqb (mode (drawingState (store w))) (Some t));
      split; reflexivity. }
  unfold toolButtonClick, bind, gets. cbn beta iota delta [fst snd].
  split; intros Hdis; rewrite Hdis.
  - reflexivity.
  - unfold afterStoreAction, bind, gets, update, ret.
    cbn [store withStore fst snd]. rewrite Hchange.
    unfold drawingEffect, bind, update. cbn.
    rewrite Hnew. destruct Hfs as [Hf Hmx]. rewrite Hf, Hmx.
    repeat split; reflexivity.
Qed.

(** X21.  The toolbar and the click handlers count differently.  A tool the
    toolbar disables is always refused by the click gate, and for the
    rectangle, circle and line tools the two agree; but the polygon button
    counts polygons only while the gate counts every area-type feature: with
    fewer polygons than the limit and at least as many area-type features,
    the button is enabled and every click that would start a polygon is
    refused. *)
Theorem toolbar_and_gate (w : World) (t : FeatureType) :
  (isDisabled (store w) t = true ->
   (maxShapes (store w) t
    <= Z.of_nat (bucketCount t (features (store w))))%Z) /\
  (t <> polygon ->
   (maxShapes (store w) t
    <= Z.of_nat (bucketCount t (features (store w))))%Z ->
   isDisabled (store w) t = true) /\
  (mode (drawingState (store w)) = Some polygon ->
   isDrawing (drawingState (store w)) = false ->
   (Z.of_nat (countType polygon (features (store w)))
    < maxShapes (store w) polygon)%Z ->
   (maxShapes (store w) polygon
    <= Z.of_nat (countPolygonType (features (store w))))%Z ->
   isDisabled (store w) polygon = false /\
   forall p fid, exists msg, step w (EvClick p fid) = pushAlert msg w).
Proof.
  unfold isDisabled, getToolCount.
  fold (countType t (features (store w))).
  fold (countType polygon (features (store w))).
  repeat split.
  - intros H. apply Z.leb_le in H.
    destruct t; simpl; auto.
    pose proof (countType_polygon_le (features (store w))). lia.
  - intros Hne H. apply Z.leb_le. destruct t; simpl in *; auto. congruence.
  - apply Z.leb_gt. assumption.
  - intros p fid. apply (click_refused w polygon); assumption.
Qed.

End Gate.

(** X22.  The export loses nothing: the collection has one entry per
    feature, in the order of the store, and each feature (id, type,
    geometry, name and colour) is read back from its entry. *)
Theorem export_is_lossless (fs : list Feature) :
  List.length (featureCollection fs) = List.length fs /\
  map featureOfExport (featureCollection fs) = fs /\
  map exp_geometry (featureCollection fs) = map geometry fs.
Proof.
  unfold featureCollection. repeat split.
  - apply length_map.
  - rewrite map_map. rewrite <- (map_id fs) at 2. apply map_ext.
    intros [i t g [n c]]. reflexivity.
  - rewrite map_map. reflexivity.
Qed.

(* ================================================================== *)
(** * The further theorems at work on the reference implementation *)

Lemma non_polygon_is_inert_witness :
  let line := LineString [ (0, 0); (3, 1) ] in
  let box := Polygon (Strip.ringOf 0 2) in
  @doPolygonsOverlap Strip.lib line box = Ok false /\
  @doPolygonsOverlap Strip.lib box line = Ok false /\
  @doesPolygonEnclose Strip.lib line box = Ok false /\
  @doesPolygonEnclose Strip.lib box line = Ok false /\
  forall existing, @trimPolygonOverlap Strip.lib line existing = Ok None.
Proof.
  apply (@non_polygon_is_inert Strip.lib (LineString [ (0, 0); (3, 1) ])
           (Polygon (Strip.ringOf 0 2))
           (Some (mkPoly (Strip.ringOf 0 2)))); reflexivity.
Defined.

Lemma trim_without_contact_witness :
  @trimPolygonOverlap Strip.lib (Polygon (Strip.ringOf 0 1))
    [Polygon (Strip.ringOf 2 3); LineString [ (0, 0); (3, 1) ]]
  = Ok (Some (Polygon (Strip.ringOf 0 1))).
Proof.
  apply (@trim_without_contact Strip.lib (Polygon (Strip.ringOf 0 1))
           [Polygon (Strip.ringOf 2 3); LineString [ (0, 0); (3, 1) ]]
           (mkPoly (Strip.ringOf 0 1)) 1); try reflexivity.
  constructor; [|constructor; [|constructor]].
  - right. exists (mkPoly (Strip.ringOf 2 3)). split; reflexivity.
  - left. reflexivity.
Defined.

Lemma library_failures_fail_open_witness :
  @turf_intersect Strip.lib (mkPoly (Strip.ringOf 0 1))
    (mkPoly [[ (0, 0); (1, 0); (0, 1); (0, 0) ]])
  = Throw "unsupported geometry" /\
  @doPolygonsOverlap Strip.lib (Polygon (Strip.ringOf 0 1)) Scenario.triangle
  = Ok false.
Proof.
  split; [reflexivity|].
  apply (proj1 (@library_failures_fail_open Strip.lib
                  (Polygon (Strip.ringOf 0 1)) Scenario.triangle
                  (mkPoly (Strip.ringOf 0 1))
                  (mkPoly [[ (0, 0); (1, 0); (0, 1); (0, 0) ]])
                  eq_refl eq_refl) "unsupported geometry").
  reflexivity.
Defined.

Lemma trim_result_is_well_formed_witness :
  @trimPolygonOverlap Strip.lib (Polygon (Strip.ringOf 1 3))
    [Polygon (Strip.ringOf 0 2)]
  = Ok (Some (Polygon (Strip.ringOf 2 3))) /\
  exists c,
    Polygon (Strip.ringOf 2 3) = Polygon c /\
    (forall ring, In ring c ->
       (4 <= List.length ring)%nat /\
       exists p, hd_error ring = Some p /\ pos_eqb (last ring p) p = true) /\
    @geometryToPolygon Strip.lib (Polygon (Strip.ringOf 2 3))
    = Ok (Some (mkPoly c)) /\
    exists a, @turf_area Strip.lib (mkPoly c) = Ok a /\ MIN_AREA <= a.
Proof.
  assert (Htrim : @trimPolygonOverlap Strip.lib (Polygon (Strip.ringOf 1 3))
                    [Polygon (Strip.ringOf 0 2)]
                  = Ok (Some (Polygon (Strip.ringOf 2 3))))
    by (vm_compute; reflexivity).
  split; [exact Htrim|].
  exact (@trim_result_is_well_formed Strip.lib StripFacts.shape
           (Polygon (Strip.ringOf 1 3)) [Polygon (Strip.ringOf 0 2)]
           (Polygon (Strip.ringOf 2 3)) Htrim).
Defined.

Lemma remove_undoes_add_witness :
  let s := store Scenario.twoCommitted in
  let f := newFeature "f9" linestring (LineString [ (0, 0); (3, 1) ]) in
  removeFeature "f9" (addFeature f s) = s /\
  map id (features (removeFeature "f1" s)) = ["f2"] /\
  removeFeature "f1" (removeFeature "f1" s) = removeFeature "f1" s.
Proof.
  split; [|split; [vm_compute; reflexivity|]].
  - apply (proj1 (remove_undoes_add
                    (newFeature "f9" linestring (LineString [ (0, 0); (3, 1) ]))
                    (store Scenario.twoCommitted) "f1")).
    intros f' Hin. vm_compute in Hin. destruct Hin as [<-|[<-|[]]];
      vm_compute; discriminate.
  - apply (proj2 (remove_undoes_add
                    (newFeature "f9" linestring (LineString [ (0, 0); (3, 1) ]))
                    (store Scenario.twoCommitted) "f1")).
Defined.

Lemma session_state_is_consistent_witness :
  let w := Scenario.drawing in
  isDrawing (drawingState (store w)) = true /\
  mode (drawingState (store w)) = Some rectangle /\
  (exists l, currentShapeRef w = Some l /\
             mode (drawingState (store w)) = Some (layerKind l)) /\
  startPointRef w <> None.
Proof.
  destruct (@session_state_is_consistent Strip.lib Scenario.drawing
              (reachable_run _ _ reachable_init)) as (H1 & _ & H3 & _).
  split; [reflexivity|]. split; [reflexivity|].
  split; [apply H1; reflexivity|].
  apply H3; [reflexivity|right; reflexivity].
Defined.

Lemma features_carry_their_type_colour_witness :
  let w := Scenario.twoCommitted in
  let f := newFeature "f2" rectangle (Polygon (Strip.ringOf 2 3)) in
  In f (features (store w)) /\
  prop_color (properties f) = Some "#10b981" /\
  style_color (featureStyle f) = "#10b981".
Proof.
  assert (Hin : In (newFeature "f2" rectangle (Polygon (Strip.ringOf 2 3)))
                  (features (store Scenario.twoCommitted)))
    by (vm_compute; right; left; reflexivity).
  destruct (@features_carry_their_type_colour Strip.lib Scenario.twoCommitted
              (newFeature "f2" rectangle (Polygon (Strip.ringOf 2 3)))
              (reachable_run _ _ reachable_init) Hin) as (_ & H2 & H3 & _).
  split; [exact Hin|]. split; [exact H2|exact H3].
Defined.

Lemma mouse_move_only_reshapes_witness :
  @step Strip.lib Scenario.lineStarted (EvMouseMove (Strip.ll 3 1))
  = Scenario.lineStarted.
Proof.
  apply (proj2 (@mouse_move_only_reshapes Strip.lib Scenario.lineStarted
                  (Strip.ll 3 1))).
  - do 2 apply reachable_run. apply reachable_init.
  - intros [H|H]; vm_compute in H; discriminate H.
Defined.

Lemma too_few_points_keeps_session_witness :
  let w := Scenario.lineStarted in
  polygonPointsRef w = [Strip.ll 0 0] /\
  @step Strip.lib w (EvDoubleClick "l1") = pushAlert msgLinePoints w.
Proof.
  split; [reflexivity|].
  apply (proj2 (@too_few_points_keeps_session Strip.lib Scenario.lineStarted "l1"
                  (reachable_run _ _ (reachable_run _ _ reachable_init))
                  eq_refl)).
  - reflexivity.
  - vm_compute. lia.
Defined.

Lemma pointer_events_only_append_witness :
  let w := Scenario.secondDrawing in
  let w' := @step Strip.lib w (EvClick (Strip.ll 3 1) "f2") in
  appendsAtMost w w' /\
  features (store w')
  = features (store w)
      ++ [newFeature "f2" rectangle (Polygon (Strip.ringOf 2 3))].
Proof.
  split; [|vm_compute; reflexivity].
  apply (@pointer_events_only_append Strip.lib Scenario.secondDrawing
           (EvClick (Strip.ll 3 1) "f2")).
  exact I.
Defined.


Lemma limits_are_respected_witness :
  let w := Scenario.twoCommitted in
  countType rectangle (features (store w)) = 2%nat /\
  (Z.of_nat (countType rectangle (features (store w)))
   <= maxShapes (store w) rectangle)%Z.
Proof.
  split; [reflexivity|].
  apply (@limits_are_respected Strip.lib Strip.twoRectangles rectangle).
  vm_compute. repeat split.
Defined.

Lemma line_session_witness :
  let w := Scenario.lineSelected in
  let w' := @run Strip.lib
              [EvClick (Strip.ll 0 0) "l1"; EvClick (Strip.ll 3 1) "l1";
               EvClick (Strip.ll 1 0) "l1"; EvDoubleClick "l1"] w in
  features (store w')
  = [newFeature "l1" linestring (LineString [ (0, 0); (3, 1); (1, 0) ])] /\
  calls w' = [].
Proof.
  destruct (@line_session Strip.lib Scenario.lineSelected (Strip.ll 0 0)
              [Strip.ll 3 1; Strip.ll 1 0] "l1" eq_refl eq_refl)
    as (H1 & _ & _ & _ & _ & H6).
  - vm_compute. reflexivity.
  - discriminate.
  - split; [exact H1|exact H6].
Defined.

Lemma polygon_session_witness :
  let w := Scenario.polygonSelected in
  let w' := @run Strip.lib
              [EvClick (Strip.ll 0 0) "p1"; EvClick (Strip.ll 1 0) "p1";
               EvClick (Strip.ll 0 1) "p1"; EvDoubleClick "p1"] w in
  features (store w')
  = [newFeature "p1" polygon
       (Polygon [[ (0, 0); (1, 0); (0, 1); (0, 0) ]])] /\
  calls w' = [].
Proof.
  destruct (@polygon_session Strip.lib Scenario.polygonSelected (Strip.ll 0 0)
              [Strip.ll 1 0; Strip.ll 0 1] "p1" eq_refl eq_refl eq_refl)
    as (H1 & _ & _ & _ & _ & H6).
  - vm_compute. reflexivity.
  - simpl. lia.
  - split; [exact H1|exact H6].
Defined.

Lemma rectangle_session_witness :
  let w := Scenario.rectangleSelected in
  let w' := @run Strip.lib
              [EvClick (Strip.ll 0 0) "f0"; EvMouseMove (Strip.ll 5 1);
               EvMouseMove (Strip.ll 2 1); EvClick (Strip.ll 7 7) "f1"] w in
  features (store w')
  = [newFeature "f1" rectangle
       (Polygon (boundsRing (latLngBounds (Strip.ll 0 0) [Strip.ll 2 1])))].
Proof.
  destruct (@rectangle_session Strip.lib Scenario.rectangleSelected
              (Strip.ll 0 0) (Strip.ll 7 7) [Strip.ll 5 1; Strip.ll 2 1]
              "f0" "f1" eq_refl eq_refl eq_refl)
    as (H1 & _).
  - vm_compute. reflexivity.
  - exact H1.
Defined.

Lemma commit_paths_witness :
  let w := Scenario.oneRectangle in
  let geom := Polygon (Strip.ringOf 1 3) in
  let existing := [Polygon (Strip.ringOf 0 2)] in
  @finishDrawing Strip.lib rectangle Scenario.secondLayer "f2" w
  = (Ok tt,
     committed "f2" rectangle (Polygon (Strip.ringOf 2 3))
       (logged (enclosureCalls geom existing
                  ++ overlapCalls geom existing
                  ++ [CallTrim geom existing])
          [] w)).
Proof.
  assert (Henc : Forall (@noEnclosure Strip.lib (Polygon (Strip.ringOf 1 3)))
                    (existingPolygonGeometries
                       (features (store Scenario.oneRectangle)))).
  { constructor; [split; reflexivity|constructor]. }
  apply (proj2 (@commit_paths Strip.lib Scenario.oneRectangle rectangle
                  Scenario.secondLayer "f2" (Polygon (Strip.ringOf 1 3))
                  eq_refl eq_refl Henc)
           [] (Polygon (Strip.ringOf 0 2)) []).
  - reflexivity.
  - constructor.
  - reflexivity.
  - reflexivity.
Defined.


Lemma tool_button_click_witness :
  let w := Scenario.drawing in
  let w' := snd (toolButtonClick circle w) in
  isDrawing (drawingState (store w)) = true /\
  mode (drawingState (store w')) = Some circle /\
  isDrawing (drawingState (store w')) = false /\
  currentShapeRef w' = None /\
  startPointRef w' = None.
Proof.
  destruct (proj2 (tool_button_click Scenario.drawing circle)
              eq_refl) as (H1 & H2 & H3 & H4 & _).
  split; [reflexivity|]. split; [exact H1|]. split; [exact H2|].
  split; [exact H3|exact H4].
Defined.

Lemma toolbar_and_gate_witness :
  let w := Scenario.crowded in
  map type (features (store w)) = [rectangle] /\
  maxShapes (store w) polygon = 1%Z /\
  isDisabled (store w) polygon = false /\
  forall p fid, exists msg, @step Strip.lib w (EvClick p fid) = pushAlert msg w.
Proof.
  split; [vm_compute; reflexivity|]. split; [reflexivity|].
  apply (proj2 (proj2 (@toolbar_and_gate Strip.lib Scenario.crowded polygon))).
  - reflexivity.
  - reflexivity.
  - vm_compute. reflexivity.
  - vm_compute. discriminate.
Defined.

Lemma enclosed_candidate_rejected_witness :
  let w := Scenario.twoCommitted in
  map geometry (features (store w))
  = [Polygon (Strip.ringOf 0 2); Polygon (Strip.ringOf 2 3)] /\
  @doesPolygonEnclose Strip.lib (Polygon (Strip.ringOf 2 3))
    (Polygon (Strip.ringOf 2 3)) = Ok true /\
  exists cs,
    @finishDrawing Strip.lib rectangle Scenario.coincidentLayer "f3" w
    = (Ok tt, logged cs [msgEnclosed] w) /\
    Forall isEncloseCall cs.
Proof.
  split; [vm_compute; reflexivity|]. split; [reflexivity|].
  apply (@enclosed_candidate_rejected Strip.lib Scenario.twoCommitted rectangle
           Scenario.coincidentLayer "f3"
           (Polygon (Strip.ringOf 2 3))
           [Polygon (Strip.ringOf 0 2)] (Polygon (Strip.ringOf 2 3)) []).
  - reflexivity.
  - reflexivity.
  - vm_compute. reflexivity.
  - constructor; [|constructor]. split; [exists false|]; reflexivity.
  - reflexivity.
Defined.
